(** * tornado-swagger: the document builders of [tornado_swagger/_builders.py]

    A shallow embedding of the generation pipeline: the text helpers the
    builders rely on (Python's [str] methods and the one regular expression
    of the path formatter), the reflection extractor, the path formatter, the
    docstring-based and the model-based route processors, the three dialect
    builders and the entry point [generate_doc_from_endpoints]; then the
    decorator, [export_swagger] and [setup_swagger] of
    [tornado_swagger/setup.py], which call it.

    Python strings are modelled as [string]; a character is a code point below
    256, so the two line boundaries U+2028 and U+2029 of [str.splitlines] are
    outside the model. *)

From Stdlib Require Import ZArith Ascii String List Bool Lia.
From stdpp Require Import base option list strings gmap fin_maps.

Local Open Scope string_scope.
Local Open Scope list_scope.
#[local] Set Warnings "-register-all".

(** ** Python's text primitives *)

Module Py.

Definition LF : ascii := "010"%char.
Definition CR : ascii := "013"%char.
Definition TAB : ascii := "009"%char.
Definition NL : string := String LF EmptyString.

Definition ascii_eqb (a b : ascii) : bool := Ascii.eqb a b.

(** The line boundaries of [str.splitlines] below U+0100:
    \n, \r, \v, \f, \x1c, \x1d, \x1e and \x85. *)
Definition is_linebreak (c : ascii) : bool :=
  let n := nat_of_ascii c in
  (n =? 10)%nat || (n =? 11)%nat || (n =? 12)%nat || (n =? 13)%nat
  || (n =? 28)%nat || (n =? 29)%nat || (n =? 30)%nat || (n =? 133)%nat.

(** [s.splitlines()]: the lines of [s] without their line boundaries; \r\n is
    one boundary, and a boundary at the very end opens no further line. *)
Fixpoint splitlines (s : string) : list string :=
  match s with
  | EmptyString => []
  | String c r =>
      if is_linebreak c then
        match r with
        | String d r' =>
            if ascii_eqb c CR && ascii_eqb d LF then EmptyString :: splitlines r'
            else EmptyString :: splitlines r
        | EmptyString => [EmptyString]
        end
      else
        match splitlines r with
        | [] => [String c EmptyString]
        | l :: ls => String c l :: ls
        end
  end.

(** [sep.join(parts)] *)
Fixpoint join (sep : string) (parts : list string) : string :=
  match parts with
  | [] => EmptyString
  | [p] => p
  | p :: ps => p ++ sep ++ join sep ps
  end.

(** [s.startswith(p)] *)
Fixpoint startswith (p s : string) : bool :=
  match p, s with
  | EmptyString, _ => true
  | String a p', String b s' => ascii_eqb a b && startswith p' s'
  | String _ _, EmptyString => false
  end.

(** [p in s] for strings: [p] occurs in [s] as a substring. *)
Fixpoint contains (p s : string) : bool :=
  startswith p s ||
  match s with
  | EmptyString => false
  | String _ r => contains p r
  end.

(** [s[n:]] *)
Fixpoint drop_chars (n : nat) (s : string) : string :=
  match n, s with
  | O, _ => s
  | S _, EmptyString => EmptyString
  | S n', String _ r => drop_chars n' r
  end.

(** [s.replace(old, new, 1)]: the first occurrence of [old], if any. *)
Fixpoint replace_first (old new s : string) : string :=
  if startswith old s then new ++ drop_chars (String.length old) s
  else
    match s with
    | EmptyString => EmptyString
    | String c r => String c (replace_first old new r)
    end.

(** [s.replace(c, new)] for a one-character [c]: every occurrence. *)
Fixpoint replace_char (c : ascii) (new s : string) : string :=
  match s with
  | EmptyString => EmptyString
  | String d r =>
      if ascii_eqb d c then new ++ replace_char c new r
      else String d (replace_char c new r)
  end.

(** [s[:-1]] *)
Fixpoint drop_last (s : string) : string :=
  match s with
  | EmptyString => EmptyString
  | String c EmptyString => EmptyString
  | String c r => String c (drop_last r)
  end.

(** [s.endswith(p)] *)
Definition endswith (p s : string) : bool :=
  (String.length p <=? String.length s)%nat
  && String.eqb (drop_chars (String.length s - String.length p) s) p.

(** [c.lower()] on code points below 256: A-Z and the capital letters of
    Latin-1 (U+00C0 to U+00DE, the multiplication sign apart). *)
Definition lower_char (c : ascii) : ascii :=
  let n := nat_of_ascii c in
  if ((65 <=? n) && (n <=? 90))%nat
     || ((192 <=? n) && (n <=? 222) && negb (n =? 215))%nat
  then ascii_of_nat (n + 32) else c.

Fixpoint lower (s : string) : string :=
  match s with
  | EmptyString => EmptyString
  | String c r => String (lower_char c) (lower r)
  end.

(** [set(s) == {c}]: [s] is not empty and all its characters are [c]. *)
Fixpoint all_chars (c : ascii) (s : string) : bool :=
  match s with
  | EmptyString => true
  | String d r => ascii_eqb d c && all_chars c r
  end.

Definition set_is_single (c : ascii) (s : string) : bool :=
  match s with
  | EmptyString => false
  | String _ _ => all_chars c s
  end.

(** *** The pattern [\(.*?\)] of the path formatter

    [lazy_close s] matches [.*?\)] at the head of [s]: the shortest run of
    characters other than \n that a closing parenthesis follows. *)
Fixpoint lazy_close (s : string) : option (string * string) :=
  match s with
  | EmptyString => None
  | String c r =>
      if ascii_eqb c ")" then Some (String c EmptyString, r)
      else if ascii_eqb c LF then None
      else
        match lazy_close r with
        | Some (m, rest) => Some (String c m, rest)
        | None => None
        end
  end.

(** [re.compile(r"\(.*?\)").findall(s)]: the matches from left to right, the
    search resuming after each match. *)
Fixpoint findall_from (fuel : nat) (s : string) : list string :=
  match fuel with
  | O => []
  | S fuel' =>
      match s with
      | EmptyString => []
      | String c r =>
          if ascii_eqb c "(" then
            match lazy_close r with
            | Some (m, rest) => String c m :: findall_from fuel' rest
            | None => findall_from fuel' r
            end
          else findall_from fuel' r
      end
  end.

Definition findall_brackets (s : string) : list string :=
  findall_from (String.length s) s.

(** [s.rstrip(c)] for a one-character [c] *)
Fixpoint rstrip_char (c : ascii) (s : string) : string :=
  match s with
  | EmptyString => EmptyString
  | String d r =>
      match rstrip_char c r with
      | EmptyString => if ascii_eqb d c then EmptyString else String d EmptyString
      | r' => String d r'
      end
  end.

(** [s.replace(old, new)] for a non-empty [old]: the occurrences from left to
    right, the search resuming after each one. *)
Fixpoint replace_from (fuel : nat) (old new s : string) : string :=
  match fuel with
  | O => s
  | S fuel' =>
      if startswith old s
      then new ++ replace_from fuel' old new (drop_chars (String.length old) s)
      else
        match s with
        | EmptyString => EmptyString
        | String c r => String c (replace_from fuel' old new r)
        end
  end.

(** [s.replace("", new)]: [new] before every character and at the end. *)
Fixpoint intersperse (new s : string) : string :=
  match s with
  | EmptyString => new
  | String c r => new ++ String c (intersperse new r)
  end.

Definition replace (old new s : string) : string :=
  match old with
  | EmptyString => intersperse new s
  | String _ _ => replace_from (String.length s) old new s
  end.

(** [" " * n] *)
Fixpoint spaces (n : nat) : string :=
  match n with
  | O => EmptyString
  | S n' => String " " (spaces n')
  end.

End Py.

(** ** Python values and dictionaries *)

(** JSON-like values: what PyYAML loads, what pydantic exports and what the
    builders assemble. A dictionary is the list of its items in insertion
    order. *)
Inductive key := KStr (s : string) | KInt (n : Z).

Inductive value :=
| VNone
| VBool (b : bool)
| VInt (n : Z)
| VStr (s : string)
| VList (l : list value)
| VDict (d : list (key * value)).

Global Instance key_eq_dec : EqDecision key.
Proof. solve_decision. Defined.

(** [k in d] and [d.get(k)] *)
Fixpoint alist_get {K V} `{EqDecision K} (k : K) (d : list (K * V)) : option V :=
  match d with
  | [] => None
  | (k', v) :: r => if decide (k = k') then Some v else alist_get k r
  end.

(** [d[k] = v], also [d.update({k: v})]: a present key keeps its place. *)
Fixpoint alist_set {K V} `{EqDecision K} (k : K) (v : V) (d : list (K * V))
  : list (K * V) :=
  match d with
  | [] => [(k, v)]
  | (k', v') :: r =>
      if decide (k = k') then (k, v) :: r else (k', v') :: alist_set k v r
  end.

(** Truth value of a Python object in [if x:]. *)
Definition truthy (v : value) : bool :=
  match v with
  | VNone => false
  | VBool b => b
  | VInt n => negb (n =? 0)%Z
  | VStr s => negb (String.eqb s "")
  | VList l => match l with [] => false | _ => true end
  | VDict d => match d with [] => false | _ => true end
  end.

Definition str_dict (d : list (string * value)) : value :=
  VDict (map (fun kv => (KStr kv.1, kv.2)) d).

(** ** Exceptions *)

(** The exceptions that can leave the builders: the three they raise
    themselves or meet in a lookup, those of the calls into tornado and
    [re], and whatever else the loader raises, by the name of its class and
    its message. [TypeError] carries the name of the type the message ends
    with, [AssertionError] the pattern the message quotes. *)
Inductive exn :=
| AttributeError (name : string)
| KeyError (k : string)
| ValueError (msg : string)
| TypeError (type_name : string)
| AssertionError (pattern : string)
| re_error (msg : string)
| OtherException (class_name msg : string).

Inductive result (A : Type) :=
| Ok (a : A)
| Raise (e : exn).
Arguments Ok {A} a.
Arguments Raise {A} e.

Global Instance result_ret : MRet result := fun A a => Ok a.
Global Instance result_bind : MBind result := fun A B k m =>
  match m with
  | Ok a => k a
  | Raise e => Raise e
  end.

(** ** Handlers, routes and attached metadata *)

(** The JSON schema pydantic exports for a model class: the properties, the
    names of the required ones, the remaining keys (title, type, ...) and the
    block of nested definitions, each key present or not. *)
Record Schema := mkSchema {
  schema_other : list (string * value);
  schema_properties : option (list (string * value));
  schema_required : option (list string);
  schema_definitions : option (list (string * value));
}.

(** The dictionary a [Schema] stands for. *)
Definition schema_value (s : Schema) : value :=
  str_dict
    (schema_other s
     ++ match schema_properties s with
        | Some ps => [("properties", str_dict ps)]
        | None => []
        end
     ++ match schema_required s with
        | Some rs => [("required", VList (map VStr rs))]
        | None => []
        end
     ++ match schema_definitions s with
        | Some ds => [("definitions", str_dict ds)]
        | None => []
        end).

(** A pydantic model class: its identity, its [__name__] and the schema
    pydantic computes for it. Two classes may carry one name. *)
Record Model := mkModel {
  model_id : positive;
  model_name : string;
  model_schema : Schema;
}.

(** One value of the [responses] mapping of [swagger_decorator]:
    a dictionary with the keys "model" and, optionally, "description". *)
Record ResponseModel := mkResponseModel {
  rm_model : option Model;
  rm_description : option string;
}.

(** [SwaggerMethodInfo] of [tornado_swagger/setup.py] *)
Record SwaggerMethodInfo := mkSwaggerMethodInfo {
  responses : list (Z * ResponseModel);
  request : option Model;
  query : option Model;
  tags : option (list string);
}.

(** The annotation of a parameter as [inspect.signature] reports it. *)
Inductive Annotation :=
| A_int | A_float | A_str | A_bool | A_list | A_dict | A_None | A_bytes
| A_complex
| A_empty                      (* inspect.Parameter.empty: no annotation *)
| A_other (name : string).     (* any other type *)

Inductive ParamKind :=
| POSITIONAL_ONLY | POSITIONAL_OR_KEYWORD | VAR_POSITIONAL | KEYWORD_ONLY
| VAR_KEYWORD.

Record Param := mkParam {
  param_name : string;
  param_kind : ParamKind;
  param_annotation : Annotation;
}.

(** A handler method with decorators removed: its docstring, its signature
    (the first parameter is [self]) and the [_swagger_info] attribute. *)
Record Method := mkMethod {
  method_doc : option string;
  method_signature : list Param;
  method_swagger_info : option SwaggerMethodInfo;
}.

(** A handler class: [SUPPORTED_METHODS] and its attributes. *)
Record Handler := mkHandler {
  SUPPORTED_METHODS : list string;
  handler_attrs : list (string * Method);
}.

(** tornado's [URLSpec] as the builders read it: [route.regex.pattern] (tornado
    appends the end anchor to a pattern that lacks it), [route.regex.groups]
    and [route.target]. *)
Record Route := mkRoute {
  regex_pattern : string;
  regex_groups : nat;
  target : Handler;
}.

(** An element of the route list: a tuple [(pattern, handler)] or a
    [URLSpec] object. *)
Inductive RouteEntry :=
| Tuple (pattern : string) (handler : Handler)
| Spec (route : Route).

(** The pattern tornado compiles: the end anchor is appended to a pattern
    that lacks it. *)
Definition anchored (pattern : string) : string :=
  if Py.endswith "$" pattern then pattern else pattern ++ "$".

(** The [URLSpec] of a pattern whose compiled form has [groups] groups. *)
Definition spec_of (pattern : string) (groups : nat) (handler : Handler) : Route :=
  {| regex_pattern := anchored pattern;
     regex_groups := groups;
     target := handler |}.

(** What [re.compile] does with a pattern: a compiled expression, of which
    tornado reads [groups] and the size of [groupindex] (the named groups), or
    the exception [re.error]. *)
Inductive Compiled :=
| Regex (groups named : nat)
| ReError (msg : string).

Section Url.

(** Python's regular expression compiler is taken as given. *)
Variable re_compile : string -> Compiled.

(** [tornado.web.url(pattern, handler)]: the pattern is anchored and compiled,
    and its groups must be all named or all positional. *)
Definition url (pattern : string) (handler : Handler) : result Route :=
  match re_compile (anchored pattern) with
  | Regex groups named =>
      if (named =? 0)%nat || (named =? groups)%nat
      then Ok (spec_of pattern groups handler)
      else Raise (AssertionError (anchored pattern))
  | ReError msg => Raise (re_error msg)
  end.

(** [tornado.web.url] applied to the unpacked entry, as line 113 has it: a
    tuple gives the arguments, a [URLSpec] object cannot be unpacked. *)
Definition url_star (route : RouteEntry) : result Route :=
  match route with
  | Tuple pattern handler => url pattern handler
  | Spec _ => Raise (TypeError "URLSpec")
  end.

End Url.

(** [route.target], the first attribute [_extract_paths] reads of an entry:
    a tuple has none. *)
Definition route_attributes (route : RouteEntry) : result Route :=
  match route with
  | Spec route => Ok route
  | Tuple _ _ => Raise (AttributeError "target")
  end.

(** ** The state a generation call touches *)

(** A warning: its text up to the route, and the pattern of the route whose
    [str] ends it ([str(route)] shows the pattern and the handler class). *)
Record Warning := mkWarning {
  warning_text : string;
  warning_route : string;
}.

(** The warnings emitted so far, and the schema dictionaries pydantic keeps per
    model class: [cls.schema(...)] hands out the same dictionary object on
    every call, so a [pop] on it is seen by every holder. *)
Record World := mkWorld {
  warnings : list Warning;
  schema_cache : gmap positive Schema;
}.

Definition M (A : Type) : Type := World -> result A * World.

Global Instance M_ret : MRet M := fun A a w => (Ok a, w).
Global Instance M_bind : MBind M := fun A B k m w =>
  match m w with
  | (Ok a, w') => k a w'
  | (Raise e, w') => (Raise e, w')
  end.

Definition lift {A} (r : result A) : M A := fun w => (r, w).
Definition raise {A} (e : exn) : M A := fun w => (Raise e, w).

(** [warnings.warn(text + str(route))] *)
Definition warn (text : string) (route : Route) : M unit := fun w =>
  (Ok tt, {| warnings := warnings w ++ [mkWarning text (regex_pattern route)];
             schema_cache := schema_cache w |}).

(** [for x in xs: ...] over an accumulator. *)
Fixpoint for_each {F : Type -> Type} `{MRet F, MBind F} {A S : Type}
    (xs : list A) (body : S -> A -> F S) (s : S) : F S :=
  match xs with
  | [] => mret s
  | x :: r => s' ← body s x; for_each r body s'
  end.

(** [getattr(handler, name)] *)
Definition getattr (handler : Handler) (name : string) : result Method :=
  match alist_get name (handler_attrs handler) with
  | Some m => Ok m
  | None => Raise (AttributeError name)
  end.

(** ** The reflection extractor and the path formatter *)

Definition is_positional (p : Param) : bool :=
  match param_kind p with
  | POSITIONAL_ONLY | POSITIONAL_OR_KEYWORD => true
  | _ => false
  end.

(** [inspect.getfullargspec(f).args]: the names of the positional
    parameters, [self] included. *)
Definition getfullargspec_args (f : Method) : list string :=
  map param_name (List.filter is_positional (method_signature f)).

(** [getfullargspec(unwrap(method_handler)).args[1:]] *)
Definition _try_extract_args (method_handler : Method) : list string :=
  tail (getfullargspec_args method_handler).

(** The loop of [_extract_parameters_names]: [i] is the index [enumerate]
    gives to the head of [args]. *)
Fixpoint fill_names (i : nat) (args : list string) (parameters : list string)
  : list string :=
  match args with
  | [] => parameters
  | arg :: rest =>
      fill_names (S i) rest
        (if negb (Py.set_is_single "_" arg) && (i <? length parameters)%nat
         then <[i := arg]> parameters
         else parameters)
  end.

Definition _extract_parameters_names (handler : Handler)
    (parameters_count : nat) (method : string) : result (list string) :=
  if (parameters_count =? 0)%nat then mret []
  else
    let parameters := replicate parameters_count "{?}" in
    method_handler ← getattr handler (Py.lower method);
    let args := _try_extract_args method_handler in
    mret (fill_names 0 args parameters).

(** The substitution loop of [_format_handler_path]; it runs once the two
    lists are known to have one length, so [parameters[i]] exists. *)
Fixpoint substitute (i : nat) (brackets parameters : list string)
    (route_pattern : string) : string :=
  match brackets with
  | [] => route_pattern
  | entity :: rest =>
      substitute (S i) rest parameters
        (Py.replace_first entity ("{" ++ nth i parameters "" ++ "}") route_pattern)
  end.

Definition illegal_route : string :=
  "Illegal route. route.regex.groups does not match all parameters. Route = ".

Definition _format_handler_path (route : Route) (method : string)
  : M (option string) :=
  parameters ← lift (_extract_parameters_names (target route)
                       (regex_groups route) method);
  let route_pattern := regex_pattern route in
  let brackets := Py.findall_brackets route_pattern in
  if negb (length brackets =? length parameters)%nat then
    _ ← warn illegal_route route; mret None
  else
    mret (Some (Py.drop_last (substitute 0 brackets parameters route_pattern))).

(** [paths[path_handler].update({method_name: method_description})] on a
    [defaultdict(dict)]. *)
Definition add_operation (paths : gmap string (list (string * value)))
    (path_handler method_name : string) (method_description : value)
  : gmap string (list (string * value)) :=
  <[path_handler :=
      alist_set method_name method_description (default [] (paths !! path_handler))]>
    paths.

(** The loop over the documented methods of one route, shared by the two
    route processors: a method without a path is passed over. *)
Definition add_route_operation (route : Route)
    (paths : gmap string (list (string * value))) (doc : string * value)
  : M (gmap string (list (string * value))) :=
  path_handler ← _format_handler_path route doc.1;
  match path_handler with
  | None => mret paths
  | Some p => mret (add_operation paths p doc.1 doc.2)
  end.

Definition add_route_operations (route : Route) (docs : list (string * value))
    (paths : gmap string (list (string * value)))
  : M (gmap string (list (string * value))) :=
  for_each docs (add_route_operation route) paths.

(** ** The docstring-based route processor *)

Definition SWAGGER_DOC_SEPARATOR : string := "---".

(** The lines after the first one that holds the separator. *)
Fixpoint after_separator (lines : list string) : option (list string) :=
  match lines with
  | [] => None
  | doc_line :: rest =>
      if Py.contains SWAGGER_DOC_SEPARATOR doc_line then Some rest
      else after_separator rest
  end.

Definition _extract_swagger_definition (endpoint_doc : string) : string :=
  let endpoint_doc := Py.splitlines endpoint_doc in
  Py.join Py.NL (default endpoint_doc (after_separator endpoint_doc)).

(** What [yaml.safe_load] does with a text: it returns the loaded value,
    raises [yaml.YAMLError], or raises an exception of another class (as the
    [ValueError] of a date that does not exist). *)
Inductive YamlLoad :=
| Loaded (v : value)
| YAMLError
| OtherError (e : exn).

Definition invalid_swagger : value :=
  str_dict [("description", VStr "Swagger document could not be loaded from docstring");
            ("tags", VList [VStr "Invalid Swagger"])].

Definition _try_extract_doc (func : Method) : option string := method_doc func.

Section Docstring.

(** PyYAML's loader is taken as given. *)
Variable safe_load : string -> YamlLoad.

(** Only [yaml.YAMLError] is caught: any other exception of the loader
    leaves the function. *)
Definition build_swagger_docs (endpoint_doc : string) : result value :=
  let endpoint_doc := _extract_swagger_definition endpoint_doc in
  let endpoint_doc := Py.replace_char Py.TAB "    " endpoint_doc in
  match safe_load endpoint_doc with
  | Loaded (VDict d) => Ok (VDict d)
  | Loaded _ => Ok invalid_swagger
  | YAMLError => Ok invalid_swagger
  | OtherError e => Raise e
  end.

(** One turn of the loop of [_build_doc_from_func_doc]. *)
Definition doc_from_method (handler : Handler) (out : list (string * value))
    (method : string) : result (list (string * value)) :=
  let method := Py.lower method in
  func ← getattr handler method;
  match _try_extract_doc func with
  | Some doc =>
      if Py.contains "---" doc
      then
        method_description ← build_swagger_docs doc;
        mret (alist_set method method_description out)
      else mret out
  | None => mret out
  end.

Definition _build_doc_from_func_doc (handler : Handler)
  : result (list (string * value)) :=
  for_each (SUPPORTED_METHODS handler) (doc_from_method handler) [].

(** One turn of the loop of [_extract_paths], for an entry that has the
    attributes of a [URLSpec]. *)
Definition extract_route_paths (paths : gmap string (list (string * value)))
    (route : Route) : M (gmap string (list (string * value))) :=
  docs ← lift (_build_doc_from_func_doc (target route));
  add_route_operations route docs paths.

(** One turn of the loop of [_extract_paths]: [route.target] comes first. *)
Definition extract_entry_paths (paths : gmap string (list (string * value)))
    (route : RouteEntry) : M (gmap string (list (string * value))) :=
  route ← lift (route_attributes route);
  extract_route_paths paths route.

Definition _extract_paths (routes : list RouteEntry)
  : M (gmap string (list (string * value))) :=
  for_each routes extract_entry_paths ∅.

End Docstring.

(** ** The model-based route processor *)

Definition PYTHON_TO_OPENAPI_MAPPER (type : Annotation) : option value :=
  match type with
  | A_int => Some (str_dict [("type", VStr "integer"); ("format", VStr "int32")])
  | A_float => Some (str_dict [("type", VStr "number"); ("format", VStr "float")])
  | A_str => Some (str_dict [("type", VStr "string")])
  | A_bool => Some (str_dict [("type", VStr "boolean")])
  | A_list => Some (str_dict [("type", VStr "array"); ("items", VDict [])])
  | A_dict => Some (str_dict [("type", VStr "object")])
  | A_None => Some (str_dict [("nullable", VBool true)])
  | A_bytes => Some (str_dict [("type", VStr "string"); ("format", VStr "byte")])
  | A_complex => Some (str_dict [("type", VStr "number"); ("format", VStr "double")])
  | A_empty => None
  | A_other _ => None
  end.

(** The key a failed lookup in the mapper reports. *)
Definition annotation_repr (type : Annotation) : string :=
  match type with
  | A_empty => "<class 'inspect._empty'>"
  | A_other name => name
  | _ => "<class>"
  end.

(** The name and annotation of every parameter but [self] and [cls]. *)
Definition input_parameters_getter (some_callable : Method)
  : list (string * Annotation) :=
  map (fun p => (param_name p, param_annotation p))
    (List.filter
       (fun p => negb (String.eqb (param_name p) "self"
                       || String.eqb (param_name p) "cls"))
       (method_signature some_callable)).

(** [cls.schema(by_alias=False, ref_template=...)]: the dictionary kept for the
    class, computed on the first call. The caller holds the object the cache
    holds; the result here is its content at the time of the call. *)
Definition BaseModel_schema (model : Model) : M Schema := fun w =>
  match schema_cache w !! model_id model with
  | Some s => (Ok s, w)
  | None =>
      (Ok (model_schema model),
       {| warnings := warnings w;
          schema_cache := <[model_id model := model_schema model]> (schema_cache w) |})
  end.

Definition without_definitions (s : Schema) : Schema :=
  {| schema_other := schema_other s;
     schema_properties := schema_properties s;
     schema_required := schema_required s;
     schema_definitions := None |}.

(** [model_spec.pop("definitions")] on the dictionary kept for [model]. *)
Definition pop_definitions (model : Model) : M unit := fun w =>
  (Ok tt,
   {| warnings := warnings w;
      schema_cache := alter without_definitions (model_id model) (schema_cache w) |}).

(** An entry of [components["schemas"]]: the dictionary object of a model
    class, or a definition taken out of a popped block. *)
Inductive SchemaEntry :=
| ModelSchema (id : positive)
| DefinitionSpec (spec : value).

(** The processor object: [self.paths] and [self.components["schemas"]];
    [self.components["parameters"]] stays empty. *)
Record PydanticRoutesProcessor := mkProcessor {
  paths : gmap string (list (string * value));
  components_schemas : gmap string SchemaEntry;
}.

Definition new_processor : PydanticRoutesProcessor :=
  {| paths := ∅; components_schemas := ∅ |}.

Definition set_schema (self : PydanticRoutesProcessor) (name : string)
    (entry : SchemaEntry) : PydanticRoutesProcessor :=
  {| paths := paths self;
     components_schemas := <[name := entry]> (components_schemas self) |}.

Definition set_paths (self : PydanticRoutesProcessor)
    (p : gmap string (list (string * value))) : PydanticRoutesProcessor :=
  {| paths := p; components_schemas := components_schemas self |}.

Definition _add_components_from_definitions (self : PydanticRoutesProcessor)
    (definitions : list (string * value)) : PydanticRoutesProcessor :=
  fold_left
    (fun self def =>
       match components_schemas self !! def.1 with
       | None => set_schema self def.1 (DefinitionSpec def.2)
       | Some _ => self
       end)
    definitions self.

(** [if "definitions" in model_spec:
    self._add_components_from_definitions(model_spec.pop("definitions"))],
    as [build_pydantic_docs] has it for the request and for each response. *)
Definition register_definitions (self : PydanticRoutesProcessor)
    (model : Model) (model_spec : Schema) : M PydanticRoutesProcessor :=
  match schema_definitions model_spec with
  | Some definitions =>
      _ ← pop_definitions model;
      mret (_add_components_from_definitions self definitions)
  | None => mret self
  end.

Definition _generate_default_description (status_code : Z) : string :=
  if (status_code <? 400)%Z then "Successful Response"
  else if (status_code <? 500)%Z then "Bad request"
  else "Internal Server Error".

Definition path_parameter (input_parameter : string * Annotation)
  : result value :=
  match PYTHON_TO_OPENAPI_MAPPER input_parameter.2 with
  | Some schema =>
      Ok (str_dict [("in", VStr "path"); ("required", VBool true);
                    ("name", VStr input_parameter.1); ("schema", schema)])
  | None => Raise (KeyError (annotation_repr input_parameter.2))
  end.

(** One turn of the loop over [input_parameters]. *)
Definition add_path_parameter (parameters : list value)
    (input_parameter : string * Annotation) : result (list value) :=
  p ← path_parameter input_parameter;
  mret (parameters ++ [p]).

Definition query_parameter (required : list string)
    (property : string * value) : value :=
  str_dict [("in", VStr "query");
            ("required", VBool (bool_decide (property.1 ∈ required)));
            ("name", VStr property.1); ("schema", property.2)].

Definition _build_input_and_query_doc
    (input_parameters : list (string * Annotation)) (query : option Model)
  : M (list value) :=
  parameters ← lift (for_each input_parameters add_path_parameter []);
  match query with
  | Some query =>
      query_schema ← BaseModel_schema query;
      match schema_properties query_schema with
      | Some properties =>
          mret (parameters
                ++ map (query_parameter (default [] (schema_required query_schema)))
                     properties)
      | None => raise (KeyError "properties")
      end
  | None => mret parameters
  end.

Definition request_body (model_spec : Schema) : value :=
  str_dict
    [("content",
      str_dict [("application/json", str_dict [("schema", schema_value model_spec)])]);
     ("required", VBool true)].

Definition response_doc (description model_name : string) : value :=
  str_dict
    [("description", VStr description);
     ("content",
      str_dict
        [("application/json",
          str_dict
            [("schema",
              str_dict [("$ref", VStr ("#/components/schemas/" ++ model_name))])])])].

(** The description of a response: the supplied one unless it is missing or
    empty. *)
Definition response_description_of (status_code : Z)
    (response_model : ResponseModel) : string :=
  match rm_description response_model with
  | Some description =>
      if String.eqb description ""
      then _generate_default_description status_code
      else description
  | None => _generate_default_description status_code
  end.

(** One turn of the loop over [response_models.items()]. *)
Definition add_response
    (acc : PydanticRoutesProcessor * list (key * value))
    (item : Z * ResponseModel)
  : M (PydanticRoutesProcessor * list (key * value)) :=
  let '(self, responses) := acc in
  let '(status_code, response_model) := item in
  match rm_model response_model with
  | None => raise (KeyError "model")
  | Some model =>
      let description := response_description_of status_code response_model in
      model_spec ← BaseModel_schema model;
      let model_name := model_name model in
      let self :=
        match components_schemas self !! model_name with
        | None => set_schema self model_name (ModelSchema (model_id model))
        | Some _ => self
        end in
      self ← register_definitions self model model_spec;
      mret (self, alist_set (KInt status_code) (response_doc description model_name)
                    responses)
  end.

(** The [if request:] block of [build_pydantic_docs]. *)
Definition add_request_body (self : PydanticRoutesProcessor)
    (result : list (string * value)) (request : option Model)
  : M (PydanticRoutesProcessor * list (string * value)) :=
  match request with
  | Some request =>
      model_spec ← BaseModel_schema request;
      self ← register_definitions self request model_spec;
      mret (self,
            alist_set "requestBody"
              (request_body (without_definitions model_spec)) result)
  | None => mret (self, result)
  end.

Definition build_pydantic_docs (self : PydanticRoutesProcessor)
    (input_parameters : list (string * Annotation))
    (response_models : list (Z * ResponseModel))
    (request query : option Model) (tags : option (list string))
  : M (PydanticRoutesProcessor * value) :=
  let result := [] in
  parameters ← _build_input_and_query_doc input_parameters query;
  let result :=
    match parameters with
    | [] => result
    | _ => alist_set "parameters" (VList parameters) result
    end in
  '(self, result) ← add_request_body self result request;
  '(self, responses) ← for_each response_models add_response (self, []);
  let result := alist_set "responses" (VDict responses) result in
  let result :=
    match tags with
    | Some (t :: ts) => alist_set "tags" (VList (map VStr (t :: ts))) result
    | _ => result
    end in
  mret (self, str_dict result).

(** One turn of the loop of [_build_doc_from_pydantic_handler]. *)
Definition pydantic_doc_from_method (handler : Handler)
    (acc : PydanticRoutesProcessor * list (string * value))
    (method_name : string)
  : M (PydanticRoutesProcessor * list (string * value)) :=
  let '(self, out) := acc in
  let method_name := Py.lower method_name in
  method_callable ← lift (getattr handler method_name);
  match method_swagger_info method_callable with
  | Some swagger_info =>
      let input_parameters := input_parameters_getter method_callable in
      '(self, doc) ← build_pydantic_docs self input_parameters
                       (responses swagger_info) (request swagger_info)
                       (query swagger_info) (tags swagger_info);
      mret (self, alist_set method_name doc out)
  | None => mret (self, out)
  end.

Definition _build_doc_from_pydantic_handler (self : PydanticRoutesProcessor)
    (handler : Handler)
  : M (PydanticRoutesProcessor * list (string * value)) :=
  for_each (SUPPORTED_METHODS handler) (pydantic_doc_from_method handler)
    (self, []).

(** One turn of the loop of [extract_paths_pydantic], from the [URLSpec]
    that [tornado.web.url] has built. *)
Definition extract_route_pydantic (self : PydanticRoutesProcessor)
    (tornado_route : Route) : M PydanticRoutesProcessor :=
  '(self, docs) ← _build_doc_from_pydantic_handler self (target tornado_route);
  paths ← add_route_operations tornado_route docs (paths self);
  mret (set_paths self paths).

Section Pydantic.

Variable re_compile : string -> Compiled.

(** One turn of the loop of [extract_paths_pydantic]: the call of
    [tornado.web.url] on the unpacked entry comes first. *)
Definition extract_entry_pydantic (self : PydanticRoutesProcessor)
    (route : RouteEntry) : M PydanticRoutesProcessor :=
  tornado_route ← lift (url_star re_compile route);
  extract_route_pydantic self tornado_route.

Definition extract_paths_pydantic (self : PydanticRoutesProcessor)
    (routes : list RouteEntry) : M PydanticRoutesProcessor :=
  for_each routes extract_entry_pydantic self.

End Pydantic.

(** ** The dialect builders and the entry point *)

(** The loop of [_clean_description]: the index of the first character that
    is not a newline, if there is one. *)
Fixpoint first_non_newline (i : nat) (description : string) : option nat :=
  match description with
  | EmptyString => None
  | String word rest =>
      if negb (Py.ascii_eqb word Py.LF) then Some i
      else first_non_newline (S i) rest
  end.

Definition _clean_description (description : string) : string :=
  let _start_desc := default 0%nat (first_non_newline 0 description) in
  Py.join "    " (Py.splitlines (Py.drop_chars _start_desc description)).

(** The keyword arguments of [generate_doc]; [models] and [parameters] are
    what the model and parameter registries export. *)
Record DocArgs := mkDocArgs {
  api_base_url : string;
  description : string;
  api_version : string;
  title : string;
  contact : string;
  schemes : value;
  security_definitions : value;
  security : value;
  models : value;
  parameters : value;
}.

Record Info := mkInfo {
  info_title : string;
  info_description : string;
  info_version : string;
  info_contact : option string;      (* {"name": contact} *)
}.

Inductive Components :=
| Exported (schemas parameters : value)
| Collected (schemas : gmap string value).   (* "parameters" is empty *)

(** The two shapes of the final document: "swagger": "2.0" with [basePath],
    [schemes], [definitions] and [parameters], and "openapi": "3.0.3" with
    [servers] and [components]. *)
Inductive Document :=
| Swagger2 (info : Info) (basePath : string)
    (schemes definitions parameters : value)
    (paths : gmap string (list (string * value)))
    (securityDefinitions security : option value)
| OpenApi3 (info : Info) (server_url : string) (components : Components)
    (paths : gmap string (list (string * value)))
    (securityDefinitions security : option value).

Definition doc_info (d : Document) : Info :=
  match d with
  | Swagger2 info _ _ _ _ _ _ _ => info
  | OpenApi3 info _ _ _ _ _ => info
  end.

Definition doc_paths (d : Document) : gmap string (list (string * value)) :=
  match d with
  | Swagger2 _ _ _ _ _ paths _ _ => paths
  | OpenApi3 _ _ _ paths _ _ => paths
  end.

Definition if_truthy (v : value) : option value :=
  if truthy v then Some v else None.

(** The "info" block, with the contact added when one is given. *)
Definition make_info (args : DocArgs) : Info :=
  {| info_title := title args;
     info_description := _clean_description (description args);
     info_version := api_version args;
     info_contact :=
       if String.eqb (contact args) "" then None else Some (contact args) |}.

(** What an entry of the collected schemas reads as when the document is
    returned. *)
Definition resolve_entry (cache : gmap positive Schema) (e : SchemaEntry)
  : option value :=
  match e with
  | ModelSchema id => schema_value <$> cache !! id
  | DefinitionSpec spec => Some spec
  end.

Definition resolve_schemas (cache : gmap positive Schema)
    (entries : gmap string SchemaEntry) : gmap string value :=
  omap (resolve_entry cache) entries.

Definition read_components (self : PydanticRoutesProcessor) : M Components :=
  fun w => (Ok (Collected (resolve_schemas (schema_cache w) (components_schemas self))), w).

Inductive Builder := Swagger2DocBuilder | OpenApiDocBuilder | PydanticBuilder.

Section Builders.

Variable safe_load : string -> YamlLoad.
Variable re_compile : string -> Compiled.

(** The three identifiers of [tornado_swagger/const.py]. *)
Variables API_SWAGGER_2 API_OPENAPI_3 API_OPENAPI_3_PYDANTIC : string.

Definition builder_schema (b : Builder) : string :=
  match b with
  | Swagger2DocBuilder => API_SWAGGER_2
  | OpenApiDocBuilder => API_OPENAPI_3
  | PydanticBuilder => API_OPENAPI_3_PYDANTIC
  end.

Definition generate_doc (b : Builder) (routes : list RouteEntry)
    (args : DocArgs) : M Document :=
  match b with
  | Swagger2DocBuilder =>
      let info := make_info args in
      paths ← _extract_paths safe_load routes;
      mret (Swagger2 info (api_base_url args) (schemes args) (models args)
              (parameters args) paths
              (if_truthy (security_definitions args)) (if_truthy (security args)))
  | OpenApiDocBuilder =>
      let info := make_info args in
      paths ← _extract_paths safe_load routes;
      mret (OpenApi3 info (api_base_url args)
              (Exported (models args) (parameters args)) paths
              (if_truthy (security_definitions args)) (if_truthy (security args)))
  | PydanticBuilder =>
      let info := make_info args in
      let routes_processor := new_processor in
      routes_processor ← extract_paths_pydantic re_compile routes_processor routes;
      components ← read_components routes_processor;
      mret (OpenApi3 info (api_base_url args) components (paths routes_processor)
              (if_truthy (security_definitions args)) (if_truthy (security args)))
  end.

(** [{b.schema: b for b in [Swagger2DocBuilder(), OpenApiDocBuilder(),
    PydanticBuilder()]}] *)
Definition doc_builders : list (string * Builder) :=
  fold_left (fun d b => alist_set (builder_schema b) b d)
    [Swagger2DocBuilder; OpenApiDocBuilder; PydanticBuilder] [].

Definition generate_doc_from_endpoints (routes : list RouteEntry)
    (args : DocArgs) (api_definition_version : string) : M Document :=
  match alist_get api_definition_version doc_builders with
  | None =>
      raise (ValueError ("Unknown api_definition_version = " ++ api_definition_version))
  | Some builder => generate_doc builder routes args
  end.

End Builders.

(** ** [nesteddict2yaml] and the unused request-body helper *)

(** A value of the dictionary [nesteddict2yaml] prints: a nested dictionary,
    or any other object, given by the text [str] makes of it. Keys are given
    by their [str] too. *)
Inductive YamlNode :=
| YText (text : string)
| YDict (items : list (string * YamlNode)).

(** What follows a key and its colon: the nested dictionary two columns
    further in, or the value on the same line. [indent] is the indentation of
    the key. *)
Fixpoint yaml_after_key (value : YamlNode) (indent : nat) (result : string)
  : string :=
  match value with
  | YDict d =>
      (fix loop (d : list (string * YamlNode)) (result : string) : string :=
         match d with
         | [] => result
         | (key, value) :: rest =>
             loop rest
               (yaml_after_key value (indent + 2)
                  (result +:+ Py.spaces (indent + 2) +:+ key +:+ ":"))
         end) d (result +:+ Py.NL)
  | YText text => result +:+ " " +:+ text +:+ Py.NL
  end.

Fixpoint nesteddict2yaml (d : list (string * YamlNode)) (indent : nat)
    (result : string) : string :=
  match d with
  | [] => result
  | (key, value) :: rest =>
      nesteddict2yaml rest indent
        (yaml_after_key value indent (result +:+ Py.spaces indent +:+ key +:+ ":"))
  end.

(** [PydanticRoutesProcessor._build_request_body_doc]: the request body of a
    model, its schema taken as pydantic hands it out. *)
Definition _build_request_body_doc (model : Model) : M value :=
  model_schema ← BaseModel_schema model;
  mret (request_body model_schema).

(** ** [tornado_swagger/setup.py] *)

(** [swagger_decorator(responses=..., request=..., query=..., tags=...)(f)]:
    the function itself, with [_swagger_info] set. *)
Definition swagger_decorator (responses : list (Z * ResponseModel))
    (request query : option Model) (tags : option (list string)) (f : Method)
  : Method :=
  {| method_doc := method_doc f;
     method_signature := method_signature f;
     method_swagger_info :=
       Some (mkSwaggerMethodInfo responses request query tags) |}.

(** What [setup_swagger] stores on the two serving handler classes. *)
Record Served := mkServed {
  SWAGGER_SPEC : Document;
  spec_allow_cors : bool;
  ui_allow_cors : bool;
  SWAGGER_HOME_TEMPLATE : string;
}.

Section Setup.

Variable safe_load : string -> YamlLoad.
Variable re_compile : string -> Compiled.
Variables API_SWAGGER_2 API_OPENAPI_3 API_OPENAPI_3_PYDANTIC : string.

(** The two serving handlers of [tornado_swagger/_handlers.py] and the text
    of the file [swagger_ui/ui.html], which the package ships. *)
Variables SwaggerUiHandler SwaggerSpecHandler : Handler.
Variable ui_html : string.

(** The keyword defaults of [export_swagger] and [setup_swagger], around
    what the two registries export. *)
Definition default_args (models parameters : value) : DocArgs :=
  {| api_base_url := "/";
     description := "Swagger API definition";
     api_version := "1.0.0";
     title := "Swagger API";
     contact := "";
     schemes := VNone;
     security_definitions := VNone;
     security := VNone;
     models := models;
     parameters := parameters |}.

Definition export_swagger (routes : list RouteEntry) (args : DocArgs)
    (api_definition_version : string) : M Document :=
  generate_doc_from_endpoints safe_load re_compile API_SWAGGER_2 API_OPENAPI_3
    API_OPENAPI_3_PYDANTIC routes args api_definition_version.

Definition _swagger_ui_url (swagger_url : string) : string :=
  if negb (Py.startswith "/" swagger_url) then "/" +:+ swagger_url
  else swagger_url.

Definition _base_swagger_ui_url (swagger_url : string) : string :=
  Py.rstrip_char "/" (_swagger_ui_url swagger_url).

Definition _swagger_spec_url (swagger_url : string) : string :=
  _swagger_ui_url swagger_url +:+ "/swagger.json".

(** The three routes [setup_swagger] puts in front of the list; tornado
    compiles each pattern as the list is built. *)
Definition swagger_routes (swagger_url : string) : result (list Route) :=
  ui ← url re_compile (_swagger_ui_url swagger_url) SwaggerUiHandler;
  base ← url re_compile (_base_swagger_ui_url swagger_url +:+ "/")
           SwaggerUiHandler;
  spec ← url re_compile (_swagger_spec_url swagger_url) SwaggerSpecHandler;
  mret [ui; base; spec].

(** [setup_swagger]: the route list as it leaves it, and what it stores on
    the serving handlers. The document is generated first; nothing is stored
    and the list is left alone when a pattern does not compile. *)
Definition setup_swagger (routes : list RouteEntry) (swagger_url : string)
    (args : DocArgs) (display_models : bool) (api_definition_version : string)
    (allow_cors : bool) : M (list RouteEntry * Served) :=
  swagger_schema ← generate_doc_from_endpoints safe_load re_compile
                     API_SWAGGER_2 API_OPENAPI_3 API_OPENAPI_3_PYDANTIC routes
                     args api_definition_version;
  added ← lift (swagger_routes swagger_url);
  let routes := map Spec added ++ routes in
  mret (routes,
        {| SWAGGER_SPEC := swagger_schema;
           spec_allow_cors := allow_cors;
           ui_allow_cors := allow_cors;
           SWAGGER_HOME_TEMPLATE :=
             Py.replace "{{ DISPLAY_MODELS }}"
               (if display_models then "1" else "-1")
               (Py.replace "{{ SWAGGER_URL }}" (_swagger_spec_url swagger_url)
                  ui_html) |}).

End Setup.

(** * The vocabulary of the properties *)

(** The name the specification puts at position [i]: the declared argument,
    or the placeholder when it is made of underscores only or missing. *)
Definition name_at (args : list string) (i : nat) : string :=
  match args !! i with
  | Some arg => if Py.set_is_single "_" arg then "{?}" else arg
  | None => "{?}"
  end.

Definition expected_names (args : list string) (N : nat) : list string :=
  map (name_at args) (seq 0 N).

(** The world after one more warning about [route]. *)
Definition add_warning (route : Route) (w : World) : World :=
  {| warnings := warnings w ++ [mkWarning illegal_route (regex_pattern route)];
     schema_cache := schema_cache w |}.

Definition add_warnings (n : nat) (route : Route) (w : World) : World :=
  Nat.iter n (add_warning route) w.

(** Every method of [docs] is an attribute of the handler, under the name
    it has in [docs]. *)
Definition documented_methods (handler : Handler) (docs : list (string * value))
  : Prop :=
  forall doc, doc ∈ docs ->
    Py.lower doc.1 = doc.1 /\ exists f, getattr handler doc.1 = Ok f.

(** The response an operation documents for a status code. *)
Definition operation_response (op : value) (status_code : Z) : option value :=
  match op with
  | VDict d =>
      match alist_get (KStr "responses") d with
      | Some (VDict responses) => alist_get (KInt status_code) responses
      | _ => None
      end
  | _ => None
  end.

Fixpoint no_linebreak (s : string) : bool :=
  match s with
  | EmptyString => true
  | String c r => negb (Py.is_linebreak c) && no_linebreak r
  end.

(** What the docstring of a method gives: an operation, none, or the
    exception the loader raises on its block. *)
Definition method_docs (safe_load : string -> YamlLoad) (f : Method)
  : result (option value) :=
  match _try_extract_doc f with
  | Some doc =>
      if Py.contains "---" doc
      then op ← build_swagger_docs safe_load doc; Ok (Some op)
      else Ok None
  | None => Ok None
  end.

(** The operation a method's docstring gives, if it gives one. *)
Definition method_operation (safe_load : string -> YamlLoad) (f : Method)
  : option value :=
  match method_docs safe_load f with
  | Ok op => op
  | Raise _ => None
  end.

(** The path the formatter computes; the world only receives the warning. *)
Definition path_of (route : Route) (method : string) : result (option string) :=
  parameters ← _extract_parameters_names (target route) (regex_groups route) method;
  let brackets := Py.findall_brackets (regex_pattern route) in
  if (length brackets =? length parameters)%nat
  then Ok (Some (Py.drop_last (substitute 0 brackets parameters (regex_pattern route))))
  else Ok None.

(** The operation a paths mapping holds for a path and a method. *)
Definition operation_at (paths : gmap string (list (string * value)))
    (path method : string) : option value :=
  alist_get method (default [] (paths !! path)).

(** The transformation as the claim words it: the leading newlines are
    dropped and every line break that remains becomes four spaces. *)
Fixpoint drop_leading_newlines (s : string) : string :=
  match s with
  | EmptyString => EmptyString
  | String c r => if Py.ascii_eqb c Py.LF then drop_leading_newlines r else s
  end.

Fixpoint breaks_to_spaces (s : string) : string :=
  match s with
  | EmptyString => EmptyString
  | String c r =>
      if Py.is_linebreak c then
        match r with
        | String d r' =>
            if Py.ascii_eqb c Py.CR && Py.ascii_eqb d Py.LF
            then "    " +:+ breaks_to_spaces r'
            else "    " +:+ breaks_to_spaces r
        | EmptyString => "    "
        end
      else String c (breaks_to_spaces r)
  end.

Definition claimed_description (description : string) : string :=
  breaks_to_spaces (drop_leading_newlines description).

(** The same handler with other docstrings: [g] gives the docstring of each
    attribute from its name and the docstring it had. *)
Definition redocumented_method (g : string -> option string -> option string)
    (name : string) (f : Method) : Method :=
  {| method_doc := g name (method_doc f);
     method_signature := method_signature f;
     method_swagger_info := method_swagger_info f |}.

Definition redocumented (g : string -> option string -> option string)
    (handler : Handler) : Handler :=
  {| SUPPORTED_METHODS := SUPPORTED_METHODS handler;
     handler_attrs :=
       map (fun a => (a.1, redocumented_method g a.1 a.2)) (handler_attrs handler) |}.

Definition redocumented_route (g : string -> option string -> option string)
    (route : Route) : Route :=
  {| regex_pattern := regex_pattern route;
     regex_groups := regex_groups route;
     target := redocumented g (target route) |}.

Definition redocumented_entry (g : string -> option string -> option string)
    (route : RouteEntry) : RouteEntry :=
  match route with
  | Tuple pattern handler => Tuple pattern (redocumented g handler)
  | Spec route => Spec (redocumented_route g route)
  end.

(** The fragment the components mapping shows for a name, read through the
    schema dictionaries as they stand. *)
Definition registered (self : PydanticRoutesProcessor) (w : World)
    (name : string) : option value :=
  resolve_schemas (schema_cache w) (components_schemas self) !! name.

(** Every model dictionary the mapping points to has lost its block of
    definitions: what is read through it can change no more. *)
Definition popped (self : PydanticRoutesProcessor) (w : World) : Prop :=
  forall name id,
    components_schemas self !! name = Some (ModelSchema id) ->
    exists s, schema_cache w !! id = Some s /\ schema_definitions s = None.

Definition schemas_kept (self self' : PydanticRoutesProcessor) : Prop :=
  forall name e,
    components_schemas self !! name = Some e ->
    components_schemas self' !! name = Some e.

Definition cache_kept (w w' : World) : Prop :=
  forall id s,
    schema_cache w !! id = Some s -> schema_definitions s = None ->
    schema_cache w' !! id = Some s.

(** From one state of a pass to a later one. *)
Definition settled (st st' : PydanticRoutesProcessor * World) : Prop :=
  popped st'.1 st'.2 /\ schemas_kept st.1 st'.1 /\ cache_kept st.2 st'.2.

(** The schema a document shows for a name when its components are the
    collected ones. *)
Definition document_schema (doc : Document) (name : string) : option value :=
  match doc with
  | OpenApi3 _ _ (Collected schemas) _ _ _ => schemas !! name
  | _ => None
  end.

(** The handler has an attribute for each of its supported methods. *)
Definition handler_defined (handler : Handler) : bool :=
  forallb (fun method =>
             match getattr handler (Py.lower method) with
             | Ok _ => true
             | Raise _ => false
             end)
    (SUPPORTED_METHODS handler).

(** The attributes a handler has for its supported methods. *)
Definition supported_attrs (handler : Handler) : list Method :=
  omap (fun method =>
          match getattr handler (Py.lower method) with
          | Ok f => Some f
          | Raise _ => None
          end)
    (SUPPORTED_METHODS handler).

(** The text [build_swagger_docs] hands to the loader. *)
Definition loader_text (endpoint_doc : string) : string :=
  Py.replace_char Py.TAB "    " (_extract_swagger_definition endpoint_doc).

(** The loader raises nothing but the YAML error on the block of the
    method's docstring, if the docstring has one. *)
Definition block_loads (safe_load : string -> YamlLoad) (f : Method) : bool :=
  match method_doc f with
  | Some doc =>
      if Py.contains "---" doc then
        match safe_load (loader_text doc) with
        | OtherError _ => false
        | _ => true
        end
      else true
  | None => true
  end.


(** The annotation has an entry in [PYTHON_TO_OPENAPI_MAPPER]. *)
Definition mapped (input_parameter : string * Annotation) : bool :=
  match PYTHON_TO_OPENAPI_MAPPER input_parameter.2 with
  | Some _ => true
  | None => false
  end.













(** No tab, and no line boundary other than the newline. *)
Fixpoint plain_lines (s : string) : bool :=
  match s with
  | EmptyString => true
  | String c r =>
      negb (Py.ascii_eqb c Py.TAB)
      && (negb (Py.is_linebreak c) || Py.ascii_eqb c Py.LF)
      && plain_lines r
  end.

(** The same handler with other Swagger Method Info: [g] gives the info of
    each attribute from its name and the info it had. *)
Definition reinformed_method
    (g : string -> option SwaggerMethodInfo -> option SwaggerMethodInfo)
    (name : string) (f : Method) : Method :=
  {| method_doc := method_doc f;
     method_signature := method_signature f;
     method_swagger_info := g name (method_swagger_info f) |}.

Definition reinformed
    (g : string -> option SwaggerMethodInfo -> option SwaggerMethodInfo)
    (handler : Handler) : Handler :=
  {| SUPPORTED_METHODS := SUPPORTED_METHODS handler;
     handler_attrs :=
       map (fun a => (a.1, reinformed_method g a.1 a.2)) (handler_attrs handler) |}.

Definition reinformed_route
    (g : string -> option SwaggerMethodInfo -> option SwaggerMethodInfo)
    (route : Route) : Route :=
  {| regex_pattern := regex_pattern route;
     regex_groups := regex_groups route;
     target := reinformed g (target route) |}.

Definition reinformed_entry
    (g : string -> option SwaggerMethodInfo -> option SwaggerMethodInfo)
    (route : RouteEntry) : RouteEntry :=
  match route with
  | Tuple pattern handler => Tuple pattern (reinformed g handler)
  | Spec route => Spec (reinformed_route g route)
  end.

(** The world after further warnings. *)
Definition append_warnings (ws : list Warning) (w : World) : World :=
  {| warnings := warnings w ++ ws; schema_cache := schema_cache w |}.

(** The routes the docstring-based processor reads of a list: its
    [URLSpec] objects. *)
Definition docstring_routes (routes : list RouteEntry) : list Route :=
  omap (fun route => match route_attributes route with
                     | Ok route => Some route
                     | Raise _ => None
                     end) routes.

(** The routes the model-based processor reads of a list: what
    [tornado.web.url] makes of its tuples. *)
Definition model_routes (re_compile : string -> Compiled)
    (routes : list RouteEntry) : list Route :=
  omap (fun route => match url_star re_compile route with
                     | Ok route => Some route
                     | Raise _ => None
                     end) routes.

(** The route a builder reads of an entry. *)
Definition route_of (re_compile : string -> Compiled) (b : Builder)
    (route : RouteEntry) : result Route :=
  match b with
  | PydanticBuilder => url_star re_compile route
  | _ => route_attributes route
  end.

(** The warning about a route of [routes] whose bracket count differs from
    its group count. *)
Definition mismatch_warning (routes : list Route) (warning : Warning) : Prop :=
  exists route,
    route ∈ routes
    /\ length (Py.findall_brackets (regex_pattern route)) <> regex_groups route
    /\ warning = mkWarning illegal_route (regex_pattern route).

(** A computation that reads nothing of the state and only adds warnings
    that satisfy [P]. *)
Definition oblivious {A} (P : Warning -> Prop) (m : M A) : Prop :=
  exists r ws, Forall P ws /\ forall w, m w = (r, append_warnings ws w).

(** A computation that, whatever it returns or raises, only adds warnings
    that satisfy [P]. *)
Definition only_warns {A} (P : Warning -> Prop) (m : M A) : Prop :=
  forall w, exists ws, Forall P ws /\ warnings (m w).2 = warnings w ++ ws.

(** A parameter after [self] of the plain kind: positional, named neither
    [self] nor [cls], and not by underscores only. *)
Definition plain_parameter (p : Param) : bool :=
  is_positional p
  && negb (String.eqb (param_name p) "self" || String.eqb (param_name p) "cls")
  && negb (Py.set_is_single "_" (param_name p)).

(** A signature that is [self] followed by plain parameters. *)
Definition plain_signature (f : Method) : bool :=
  match method_signature f with
  | [] => false
  | p :: rest =>
      is_positional p && String.eqb (param_name p) "self"
      && forallb plain_parameter rest
  end.

(** The parameter block of a path parameter whose annotation is mapped. *)
Definition path_parameter_doc (input_parameter : string * Annotation) : value :=
  str_dict [("in", VStr "path"); ("required", VBool true);
            ("name", VStr input_parameter.1);
            ("schema", default VNone (PYTHON_TO_OPENAPI_MAPPER input_parameter.2))].

(** The block an operation holds under a key. *)
Definition operation_field (op : value) (field : string) : option value :=
  match op with
  | VDict d => alist_get (KStr field) d
  | _ => None
  end.

(** * Sample handlers, routes and models *)

(** *** A fresh state, the parameter [self], a loader that accepts no text *)

Definition empty_world : World := {| warnings := []; schema_cache := ∅ |}.

Definition self_param : Param := mkParam "self" POSITIONAL_OR_KEYWORD A_empty.

Definition no_yaml (text : string) : YamlLoad := YAMLError.


(** [re.compile] on the patterns used below: one named group, one group
    besides a non-capturing one, a group that is not closed, and no group in
    the other patterns, which hold no parenthesis. *)
Definition sample_re_compile (pattern : string) : Compiled :=
  if String.eqb pattern "/items/(?P<item_id>[0-9]+)$" then Regex 1 1
  else if String.eqb pattern "/files/(?:v1|v2)/([0-9]+)$" then Regex 1 0
  else if String.eqb pattern "/items/([0-9]+$"
       then ReError "missing ), unterminated subpattern at position 7"
  else Regex 0 0.

(** Three identifiers for the dialects; the properties hold for any three,
    the values of [tornado_swagger/const.py] play no part. *)
Definition sample_SWAGGER_2 : string := "swagger2".
Definition sample_OPENAPI_3 : string := "openapi3".
Definition sample_OPENAPI_3_PYDANTIC : string := "openapi3-pydantic".

(** *** A route with a non-capturing group: [/files/(?:v1|v2)/([0-9]+)] has
    two parenthesized segments and one capturing group. *)

Definition files_get : Method :=
  {| method_doc := Some ("Get a file" +:+ Py.NL +:+ "---" +:+ Py.NL +:+ "tags: [files]");
     method_signature := [self_param; mkParam "file_id" POSITIONAL_OR_KEYWORD A_empty];
     method_swagger_info := None |}.

Definition files_handler : Handler :=
  {| SUPPORTED_METHODS := ["GET"]; handler_attrs := [("get", files_get)] |}.

Definition files_route : Route :=
  spec_of "/files/(?:v1|v2)/([0-9]+)" 1 files_handler.

(** *** A handler that leaves its first path argument unnamed *)

Definition pair_get : Method :=
  {| method_doc := None;
     method_signature :=
       [self_param; mkParam "__" POSITIONAL_OR_KEYWORD A_empty;
        mkParam "item_id" POSITIONAL_OR_KEYWORD A_empty];
     method_swagger_info := None |}.

Definition pair_handler : Handler :=
  {| SUPPORTED_METHODS := ["GET"]; handler_attrs := [("get", pair_get)] |}.

(** *** A handler declaring [get(self, item_id)] *)

Definition items_get : Method :=
  {| method_doc := None;
     method_signature := [self_param; mkParam "item_id" POSITIONAL_OR_KEYWORD A_empty];
     method_swagger_info := None |}.

Definition items_handler : Handler :=
  {| SUPPORTED_METHODS := ["GET"]; handler_attrs := [("get", items_get)] |}.

(** *** Four responses, one of them described *)

Definition item_model : Model :=
  {| model_id := 1; model_name := "Item";
     model_schema :=
       {| schema_other := [("title", VStr "Item"); ("type", VStr "object")];
          schema_properties := Some [("name", str_dict [("type", VStr "string")])];
          schema_required := Some ["name"];
          schema_definitions := None |} |}.

Definition error_model : Model :=
  {| model_id := 2; model_name := "ErrorResponse";
     model_schema :=
       {| schema_other := [("title", VStr "ErrorResponse"); ("type", VStr "object")];
          schema_properties :=
            Some [("description", str_dict [("type", VStr "string")])];
          schema_required := Some ["description"];
          schema_definitions := None |} |}.

Definition sample_responses : list (Z * ResponseModel) :=
  [(200%Z, mkResponseModel (Some item_model) None);
   (404%Z, mkResponseModel (Some error_model) None);
   (500%Z, mkResponseModel (Some error_model) (Some ""));
   (201%Z, mkResponseModel (Some item_model) (Some "Created"))].

(** *** A handler with one documented method out of three *)

Definition notes_handler : Handler :=
  {| SUPPORTED_METHODS := ["GET"; "POST"; "DELETE"];
     handler_attrs :=
       [("get", {| method_doc := Some "List the notes.";
                   method_signature := [self_param];
                   method_swagger_info := None |});
        ("post", {| method_doc :=
                      Some ("Create a note." +:+ Py.NL +:+ "---" +:+ Py.NL
                            +:+ String Py.TAB "tags: [notes");
                    method_signature := [self_param];
                    method_swagger_info := None |});
        ("delete", {| method_doc := None;
                      method_signature := [self_param];
                      method_swagger_info := None |})] |}.

Definition notes_route : Route := spec_of "/notes" 0 notes_handler.

(** *** A docstring whose block names a date that does not exist *)




Definition notes_args : DocArgs :=
  {| api_base_url := "/";
     description := Py.NL +:+ "Notes API" +:+ Py.NL +:+ "first draft" +:+ Py.NL;
     api_version := "1.0.0"; title := "Notes"; contact := "";
     schemes := VNone; security_definitions := VNone; security := VNone;
     models := VDict []; parameters := VDict [] |}.

(** *** Two model classes called Item *)

Definition other_item_model : Model :=
  {| model_id := 3; model_name := "Item";
     model_schema :=
       {| schema_other := [("title", VStr "Item"); ("type", VStr "object")];
          schema_properties := Some [("price", str_dict [("type", VStr "number")])];
          schema_required := None;
          schema_definitions := Some [("Item", str_dict [("type", VStr "string")])] |} |}.

Definition documented_get (model : Model) : Method :=
  {| method_doc := None;
     method_signature := [self_param];
     method_swagger_info :=
       Some {| responses := [(200%Z, mkResponseModel (Some model) None)];
               request := None; query := None; tags := None |} |}.

Definition first_items_route : RouteEntry :=
  Tuple "/items"
    {| SUPPORTED_METHODS := ["GET"];
       handler_attrs := [("get", documented_get item_model)] |}.

Definition second_items_route : RouteEntry :=
  Tuple "/other-items"
    {| SUPPORTED_METHODS := ["GET"];
       handler_attrs := [("get", documented_get other_item_model)] |}.

(** *** A documented method with a parameter that has no annotation *)



(** *** A handler that supports a method it does not define *)


(** *** A response entry with a description and no model *)



(** *** A query model with a custom root type: its schema is that of a list
    and has no properties *)




(** *** A method queried through a model *)



(** *** A decorated method *)

Definition decorated_post : Method :=
  swagger_decorator [(201%Z, mkResponseModel (Some item_model) None)]
    (Some item_model) None (Some ["Items"])
    {| method_doc := Some "Create an item.";
       method_signature := [self_param];
       method_swagger_info := None |}.

Definition decorated_handler : Handler :=
  {| SUPPORTED_METHODS := ["GET"; "POST"];
     handler_attrs := [("get", items_get); ("post", decorated_post)] |}.

(** * Properties *)

(** ** The reflection extractor *)

Lemma fill_names_length args : forall i ps,
  length (fill_names i args ps) = length ps.
Proof.
  induction args as [|arg rest IH]; intros i ps; simpl; [done|].
  rewrite IH. destruct (_ && _); [apply length_insert | done].
Qed.

Lemma fill_names_lookup args : forall i ps j,
  fill_names i args ps !! j =
    if decide (i <= j) then
      match args !! (j - i) with
      | Some arg =>
          if negb (Py.set_is_single "_" arg) && (j <? length ps)%nat
          then Some arg else ps !! j
      | None => ps !! j
      end
    else ps !! j.
Proof.
  induction args as [|arg rest IH]; intros i ps j; simpl.
  - destruct (decide (i <= j)); [by destruct (j - i) | done].
  - rewrite IH.
    set (ps' := if negb (Py.set_is_single "_" arg) && (i <? length ps)%nat
                then <[i:=arg]> ps else ps).
    assert (Hlen : length ps' = length ps).
    { subst ps'. destruct (_ && _); [apply length_insert | done]. }
    assert (Hne : i <> j -> ps' !! j = ps !! j).
    { intros Hij. subst ps'. destruct (_ && _); [|done].
      by apply list_lookup_insert_ne. }
    destruct (decide (S i <= j)) as [Hle|Hle].
    + rewrite decide_True by lia.
      replace (j - i) with (S (j - S i)) by lia. simpl.
      rewrite Hlen, Hne by lia. done.
    + destruct (decide (i <= j)) as [Hij|Hij]; [|apply Hne; lia].
      assert (j = i) as -> by lia.
      rewrite Nat.sub_diag. simpl. subst ps'.
      destruct (negb (Py.set_is_single "_" arg)); simpl; [|done].
      destruct (i <? length ps)%nat eqn:Hlt; [|done].
      apply Nat.ltb_lt in Hlt. by apply list_lookup_insert_eq.
Qed.

Lemma fill_names_expected args N :
  fill_names 0 args (replicate N "{?}") = expected_names args N.
Proof.
  apply list_eq. intros j. unfold expected_names.
  rewrite fill_names_lookup, list_lookup_fmap, length_replicate.
  rewrite decide_True by lia. rewrite Nat.sub_0_r.
  destruct (decide (j < N)) as [Hj|Hj].
  - rewrite lookup_seq_lt by done. simpl. unfold name_at.
    rewrite lookup_replicate_2 by done.
    assert ((j <? N)%nat = true) as -> by (apply Nat.ltb_lt; lia).
    destruct (args !! j) as [arg|]; [|done].
    rewrite andb_true_r. by destruct (Py.set_is_single "_" arg).
  - rewrite lookup_seq_ge by lia. simpl.
    assert ((j <? N)%nat = false) as -> by (apply Nat.ltb_ge; lia).
    rewrite (lookup_ge_None_2 (replicate N "{?}")) by (rewrite length_replicate; lia).
    destruct (args !! j) as [arg|]; [|done].
    by destruct (negb (Py.set_is_single "_" arg)).
Qed.

Lemma expected_names_length args N : length (expected_names args N) = N.
Proof. unfold expected_names. by rewrite length_map, length_seq. Qed.

Lemma expected_names_lookup args N i :
  i < N -> expected_names args N !! i = Some (name_at args i).
Proof.
  intros Hi. unfold expected_names.
  by rewrite list_lookup_fmap, lookup_seq_lt.
Qed.

(** What [_extract_parameters_names] returns, in one equation. *)
Lemma extract_parameters_names_eq handler N method :
  _extract_parameters_names handler N method =
    match N with
    | O => Ok []
    | S _ =>
        method_handler ← getattr handler (Py.lower method);
        Ok (expected_names (_try_extract_args method_handler) N)
    end.
Proof.
  unfold _extract_parameters_names. destruct N as [|n]; [done|].
  simpl. destruct (getattr handler (Py.lower method)) as [m|e]; simpl; [|done].
  unfold mret, result_ret. f_equal. apply (fill_names_expected _ (S n)).
Qed.

Lemma extract_parameters_names_length handler N method names :
  _extract_parameters_names handler N method = Ok names -> length names = N.
Proof.
  rewrite extract_parameters_names_eq. destruct N as [|n].
  - by intros [= <-].
  - destruct (getattr _ _) as [m|e]; simpl; [|done].
    intros [= <-]. apply expected_names_length.
Qed.

(** ** Dictionaries, loops and the two monads *)

Section Alist.
Context {K V : Type} `{EqDecision K}.

Lemma alist_get_set_eq (k : K) (v : V) d : alist_get k (alist_set k v d) = Some v.
Proof.
  induction d as [|[k' v'] d IH]; simpl.
  - by rewrite decide_True.
  - destruct (decide (k = k')) as [->|Hne]; simpl.
    + by rewrite decide_True.
    + by rewrite decide_False.
Qed.

Lemma alist_get_set_ne (k k' : K) (v : V) d :
  k <> k' -> alist_get k (alist_set k' v d) = alist_get k d.
Proof.
  intros Hne. induction d as [|[k0 v0] d IH]; simpl.
  - by rewrite decide_False.
  - destruct (decide (k' = k0)) as [->|Hne0]; simpl.
    + by rewrite !decide_False.
    + destruct (decide (k = k0)); done.
Qed.

Lemma alist_get_set (k k' : K) (v : V) d :
  alist_get k (alist_set k' v d) =
    if decide (k = k') then Some v else alist_get k d.
Proof.
  destruct (decide (k = k')) as [->|Hne].
  - apply alist_get_set_eq.
  - by apply alist_get_set_ne.
Qed.

End Alist.

Lemma result_bind_Ok {A B} (m : result A) (k : A -> result B) b :
  (x ← m; k x) = Ok b -> exists a, m = Ok a /\ k a = Ok b.
Proof. destruct m as [a|e]; simpl; [eauto | done]. Qed.

Lemma M_bind_Ok {A B} (m : M A) (k : A -> M B) w b w' :
  (x ← m; k x) w = (Ok b, w') ->
  exists a w1, m w = (Ok a, w1) /\ k a w1 = (Ok b, w').
Proof.
  unfold mbind, M_bind. destruct (m w) as [[a|e] w1]; [eauto | done].
Qed.

Lemma M_bind_eq {A B} (m : M A) (k : A -> M B) w a w1 :
  m w = (Ok a, w1) -> (x ← m; k x) w = k a w1.
Proof. unfold mbind, M_bind. by intros ->. Qed.

(** A loop that ends normally keeps what every turn keeps. *)
Lemma for_each_M_invariant {A S} (P : S -> World -> Prop) (xs : list A)
    (body : S -> A -> M S) :
  (forall s x w s1 w1, x ∈ xs -> P s w -> body s x w = (Ok s1, w1) -> P s1 w1) ->
  forall s w s' w',
    P s w -> for_each xs body s w = (Ok s', w') -> P s' w'.
Proof.
  induction xs as [|x xs IH]; intros Hbody s w s' w' HP Hrun; simpl in Hrun.
  - unfold mret, M_ret in Hrun. by simplify_eq.
  - apply M_bind_Ok in Hrun as (s1 & w1 & Hx & Hrest).
    eapply IH; [|eapply (Hbody s x); [left | done | done] | done].
    intros ? y ? ? ? Hy. apply Hbody. by right.
Qed.

Lemma for_each_result_invariant {A S} (P : S -> Prop) (xs : list A)
    (body : S -> A -> result S) :
  (forall s x s1, x ∈ xs -> P s -> body s x = Ok s1 -> P s1) ->
  forall s s', P s -> for_each xs body s = Ok s' -> P s'.
Proof.
  induction xs as [|x xs IH]; intros Hbody s s' HP Hrun; simpl in Hrun.
  - unfold mret, result_ret in Hrun. by simplify_eq.
  - apply result_bind_Ok in Hrun as (s1 & Hx & Hrest).
    eapply IH; [|eapply (Hbody s x); [left | done | done] | done].
    intros ? y ? Hy. apply Hbody. by right.
Qed.


Lemma for_each_result_total {A S} (xs : list A) (body : S -> A -> result S) :
  (forall s x, x ∈ xs -> exists s1, body s x = Ok s1) ->
  forall s, exists s', for_each xs body s = Ok s'.
Proof.
  induction xs as [|x xs IH]; intros Hbody s; simpl.
  - by exists s.
  - destruct (Hbody s x) as (s1 & Hx); [left|]. rewrite Hx. simpl.
    apply IH. intros ? y Hy. apply Hbody. by right.
Qed.

(** ** The path formatter and skipped routes *)

Lemma lazy_close_shorter s : forall m rest,
  Py.lazy_close s = Some (m, rest) -> String.length rest < String.length s.
Proof.
  induction s as [|c r IH]; intros m rest; simpl; [done|].
  destruct (Py.ascii_eqb c ")"); [intros [= _ <-]; lia|].
  destruct (Py.ascii_eqb c Py.LF); [done|].
  destruct (Py.lazy_close r) as [[m' rest']|]; [|done].
  intros [= _ <-]. specialize (IH m' rest' eq_refl). lia.
Qed.

(** The search of [findall_brackets] never runs out of fuel: more fuel than
    the length of the text changes nothing. *)
Lemma findall_from_enough fuel : forall s,
  String.length s <= fuel ->
  Py.findall_from fuel s = Py.findall_brackets s.
Proof.
  unfold Py.findall_brackets.
  induction fuel as [fuel IH] using lt_wf_ind. intros s Hlen.
  destruct s as [|c r]; [by destruct fuel|].
  destruct fuel as [|fuel]; [simpl in Hlen; lia|]. simpl in Hlen.
  cbn [Py.findall_from String.length].
  assert (Hr : Py.findall_from fuel r = Py.findall_from (String.length r) r).
  { destruct (decide (String.length r = fuel)) as [<-|Hne]; [done|].
    rewrite (IH fuel) by lia. done. }
  destruct (Py.ascii_eqb c "("); [|done].
  destruct (Py.lazy_close r) as [[m rest]|] eqn:Hclose; [|done].
  apply lazy_close_shorter in Hclose. f_equal.
  rewrite (IH fuel) by lia.
  destruct (decide (String.length rest = String.length r)) as [Heq|Hne]; [lia|].
  rewrite (IH (String.length r)) by lia. done.
Qed.

Lemma lower_char_idem c : Py.lower_char (Py.lower_char c) = Py.lower_char c.
Proof.
  destruct c as [[] [] [] [] [] [] [] []]; reflexivity.
Qed.

Lemma lower_idem s : Py.lower (Py.lower s) = Py.lower s.
Proof.
  induction s as [|c s IH]; simpl; [done|].
  by rewrite lower_char_idem, IH.
Qed.

Lemma add_warnings_S n route w :
  add_warnings (S n) route w = add_warnings n route (add_warning route w).
Proof. unfold add_warnings. by rewrite Nat.iter_succ_r. Qed.

Lemma format_handler_path_mismatch route method w parameters :
  _extract_parameters_names (target route) (regex_groups route) method
    = Ok parameters ->
  length (Py.findall_brackets (regex_pattern route)) <> length parameters ->
  _format_handler_path route method w = (Ok None, add_warning route w).
Proof.
  intros Hnames Hne. unfold _format_handler_path.
  unfold mbind at 1, M_bind, lift. rewrite Hnames.
  assert ((length (Py.findall_brackets (regex_pattern route))
           =? length parameters)%nat = false) as ->.
  { by apply Nat.eqb_neq. }
  reflexivity.
Qed.

Lemma format_handler_path_match route method w parameters :
  _extract_parameters_names (target route) (regex_groups route) method
    = Ok parameters ->
  length (Py.findall_brackets (regex_pattern route)) = length parameters ->
  _format_handler_path route method w =
    (Ok (Some (Py.drop_last
                 (substitute 0 (Py.findall_brackets (regex_pattern route))
                    parameters (regex_pattern route)))), w).
Proof.
  intros Hnames Heq. unfold _format_handler_path.
  unfold mbind at 1, M_bind, lift. rewrite Hnames.
  assert ((length (Py.findall_brackets (regex_pattern route))
           =? length parameters)%nat = true) as ->.
  { by apply Nat.eqb_eq. }
  reflexivity.
Qed.

(** The names are recovered whenever the handler has the method. *)
Lemma extract_parameters_names_total handler N method f :
  getattr handler (Py.lower method) = Ok f ->
  exists names, _extract_parameters_names handler N method = Ok names.
Proof.
  intros Hf. rewrite extract_parameters_names_eq. destruct N; [eauto|].
  rewrite Hf. simpl. eauto.
Qed.

Lemma add_route_operations_mismatch route docs :
  length (Py.findall_brackets (regex_pattern route)) <> regex_groups route ->
  documented_methods (target route) docs ->
  forall paths w,
    add_route_operations route docs paths w
    = (Ok paths, add_warnings (length docs) route w).
Proof.
  intros Hne. unfold add_route_operations.
  induction docs as [|doc docs IH]; intros Hdocs paths w; [done|].
  destruct (Hdocs doc) as (Hlow & f & Hf); [left|].
  destruct (extract_parameters_names_total (target route) (regex_groups route)
              doc.1 f) as [names Hnames]; [by rewrite Hlow|].
  cbn [for_each length]. rewrite add_warnings_S.
  unfold mbind at 1, M_bind. unfold add_route_operation at 1.
  unfold mbind at 1, M_bind.
  rewrite (format_handler_path_mismatch _ _ _ names Hnames).
  - apply IH. intros d Hd. apply Hdocs. by right.
  - by rewrite (extract_parameters_names_length _ _ _ _ Hnames).
Qed.

Lemma alist_set_keys {V} (k : string) (v : V) d x :
  x ∈ alist_set k v d -> x.1 = k \/ x ∈ d.
Proof.
  induction d as [|[k' v'] d IH]; simpl.
  - intros ->%list_elem_of_singleton. by left.
  - destruct (decide (k = k')) as [->|Hne].
    + intros [->|Hx]%elem_of_cons; [by left | right; by right].
    + intros [->|Hx]%elem_of_cons; [right; by left |].
      destruct (IH Hx); [by left | right; by right].
Qed.

(** One turn of the loop of [_build_doc_from_func_doc], in one equation. *)
Lemma doc_from_method_eq safe_load handler out method :
  doc_from_method safe_load handler out method =
    (f ← getattr handler (Py.lower method);
     op ← method_docs safe_load f;
     Ok match op with
        | Some op => alist_set (Py.lower method) op out
        | None => out
        end).
Proof.
  unfold doc_from_method, method_docs.
  destruct (getattr handler (Py.lower method)) as [f|e]; simpl; [|done].
  destruct (_try_extract_doc f) as [doc|]; [|done].
  destruct (Py.contains "---" doc); [|done].
  by destruct (build_swagger_docs safe_load doc).
Qed.

(** A turn that ends normally has found the method and loaded its block. *)
Lemma doc_from_method_Ok safe_load handler out method out1 :
  doc_from_method safe_load handler out method = Ok out1 ->
  exists f,
    getattr handler (Py.lower method) = Ok f
    /\ method_docs safe_load f = Ok (method_operation safe_load f)
    /\ out1 = match method_operation safe_load f with
              | Some op => alist_set (Py.lower method) op out
              | None => out
              end.
Proof.
  rewrite doc_from_method_eq.
  intros (f & Hf & Hstep)%result_bind_Ok.
  apply result_bind_Ok in Hstep as (op & Hop & Hout).
  exists f. unfold method_operation. rewrite Hop. by simplify_eq.
Qed.

Lemma build_doc_from_func_doc_documented safe_load handler docs :
  _build_doc_from_func_doc safe_load handler = Ok docs ->
  documented_methods handler docs.
Proof.
  unfold _build_doc_from_func_doc.
  apply (for_each_result_invariant (documented_methods handler)).
  - intros out method out1 _ Hout (func & Hfunc & _ & ->)%doc_from_method_Ok.
    destruct (method_operation safe_load func) as [op|]; [|done].
    intros doc [Hk|Hin]%alist_set_keys; [|by apply Hout].
    rewrite Hk. split; [apply lower_idem | eauto].
  - intros doc Hdoc. by apply elem_of_nil in Hdoc.
Qed.

Lemma add_components_paths definitions : forall self,
  paths (_add_components_from_definitions self definitions) = paths self.
Proof.
  unfold _add_components_from_definitions.
  induction definitions as [|def defs IH]; intros self; simpl; [done|].
  rewrite IH. by destruct (components_schemas self !! def.1).
Qed.

Lemma register_definitions_paths self model model_spec w self' w' :
  register_definitions self model model_spec w = (Ok self', w') ->
  paths self' = paths self.
Proof.
  unfold register_definitions. destruct (schema_definitions model_spec).
  - intros [= <- _]. apply add_components_paths.
  - by intros [= <- _].
Qed.

Lemma add_response_paths self responses item w self' responses' w' :
  add_response (self, responses) item w = (Ok (self', responses'), w') ->
  paths self' = paths self.
Proof.
  destruct item as [status_code response_model]. unfold add_response.
  destruct (rm_model response_model) as [model|]; [|done].
  intros (model_spec & w1 & _ & Hrun)%M_bind_Ok.
  apply M_bind_Ok in Hrun as (self1 & w2 & Hdefs & Hret).
  unfold mret, M_ret in Hret. simplify_eq.
  rewrite (register_definitions_paths _ _ _ _ _ _ Hdefs).
  by destruct (components_schemas self !! model_name model).
Qed.

Lemma build_pydantic_docs_paths self ips rms request query tags w self' op w' :
  build_pydantic_docs self ips rms request query tags w = (Ok (self', op), w') ->
  paths self' = paths self.
Proof.
  unfold build_pydantic_docs.
  intros (parameters & w1 & _ & Hrun)%M_bind_Ok.
  apply M_bind_Ok in Hrun as ([self1 result] & w2 & Hreq & Hrun).
  apply M_bind_Ok in Hrun as ([self2 responses] & w3 & Hloop & Hret).
  unfold mret, M_ret in Hret. simplify_eq.
  transitivity (paths self1).
  - revert Hloop.
    apply (for_each_M_invariant
             (fun acc _ => paths acc.1 = paths self1) rms add_response);
      [|done].
    intros [s r] item w0 [s1 r1] w4 _ Hs Hstep. simpl in *.
    by rewrite (add_response_paths _ _ _ _ _ _ _ Hstep).
  - unfold add_request_body in Hreq. destruct request as [request|].
    + apply M_bind_Ok in Hreq as (model_spec & w4 & _ & Hreq).
      apply M_bind_Ok in Hreq as (self3 & w5 & Hdefs & Hret).
      unfold mret, M_ret in Hret. simplify_eq.
      by apply (register_definitions_paths _ _ _ _ _ _ Hdefs).
    + unfold mret, M_ret in Hreq. by simplify_eq.
Qed.

Lemma build_doc_from_pydantic_handler_documented self handler w self' docs w' :
  _build_doc_from_pydantic_handler self handler w = (Ok (self', docs), w') ->
  documented_methods handler docs /\ paths self' = paths self.
Proof.
  unfold _build_doc_from_pydantic_handler.
  apply (for_each_M_invariant
           (fun acc _ => documented_methods handler acc.2 /\ paths acc.1 = paths self)
           (SUPPORTED_METHODS handler) (pydantic_doc_from_method handler)).
  - intros [s out] method w0 [s1 out1] w1 _ [Hout Hpaths] Hstep. simpl in *.
    unfold pydantic_doc_from_method in Hstep.
    apply M_bind_Ok in Hstep as (f & w2 & Hf & Hstep).
    unfold lift in Hf.
    destruct (getattr handler (Py.lower method)) as [f'|] eqn:Hget; [|done].
    simplify_eq.
    destruct (method_swagger_info f) as [info|].
    + apply M_bind_Ok in Hstep as ([s2 doc] & w3 & Hbuild & Hret).
      unfold mret, M_ret in Hret. simplify_eq. split.
      * intros d [Hk|Hin]%alist_set_keys; [|by apply Hout].
        rewrite Hk. split; [apply lower_idem | eauto].
      * by rewrite (build_pydantic_docs_paths _ _ _ _ _ _ _ _ _ _ Hbuild).
    + unfold mret, M_ret in Hstep. by simplify_eq.
  - split; [|done]. intros doc Hdoc. by apply elem_of_nil in Hdoc.
Qed.

(** C1. Whenever the parenthesized segments found in the pattern of a route
    and the names recovered for a method (always as many as the pattern has
    capturing groups) differ in number, [_format_handler_path] emits the
    warning and returns no path; both route processors then leave the paths
    as they were for every documented method of that route and go on with the
    remaining routes. The route is the [URLSpec] object of the list for the
    docstring-based processor, and the one [tornado.web.url] makes of the
    entry for the model-based one. *)
Theorem mismatch_skips_route (safe_load : string -> YamlLoad) (route : Route) :
  length (Py.findall_brackets (regex_pattern route)) <> regex_groups route ->
  (forall method w parameters,
      _extract_parameters_names (target route) (regex_groups route) method
        = Ok parameters ->
      length parameters = regex_groups route /\
      length (Py.findall_brackets (regex_pattern route)) <> length parameters /\
      _format_handler_path route method w = (Ok None, add_warning route w)) /\
  (forall docs,
      _build_doc_from_func_doc safe_load (target route) = Ok docs ->
      forall routes paths w,
        add_route_operations route docs paths w
          = (Ok paths, add_warnings (length docs) route w) /\
        for_each (Spec route :: routes) (extract_entry_paths safe_load) paths w
          = for_each routes (extract_entry_paths safe_load) paths
              (add_warnings (length docs) route w)) /\
  (forall self w self' docs w',
      _build_doc_from_pydantic_handler self (target route) w
        = (Ok (self', docs), w') ->
      paths self' = paths self /\
      forall re_compile entry routes,
        url_star re_compile entry = Ok route ->
        extract_paths_pydantic re_compile self (entry :: routes) w
          = extract_paths_pydantic re_compile self' routes
              (add_warnings (length docs) route w')).
Proof.
  intros Hne. split; [|split].
  - intros method w parameters Hnames.
    pose proof (extract_parameters_names_length _ _ _ _ Hnames) as Hlen.
    split; [done|]. split; [by rewrite Hlen|].
    apply (format_handler_path_mismatch _ _ _ _ Hnames). by rewrite Hlen.
  - intros docs Hdocs routes paths w.
    pose proof (build_doc_from_func_doc_documented _ _ _ Hdocs) as Hdoc.
    pose proof (add_route_operations_mismatch route docs Hne Hdoc paths w) as Hskip.
    split; [done|].
    cbn [for_each]. unfold mbind at 1, M_bind.
    unfold extract_entry_paths at 1. unfold mbind at 1, M_bind, lift.
    cbn [route_attributes].
    unfold extract_route_paths at 1. unfold mbind at 1, M_bind, lift.
    rewrite Hdocs. by rewrite Hskip.
  - intros self w self' docs w' Hbuild.
    destruct (build_doc_from_pydantic_handler_documented _ _ _ _ _ _ Hbuild)
      as [Hdoc Hpaths].
    split; [done|]. intros re_compile entry routes Hentry.
    unfold extract_paths_pydantic. cbn [for_each].
    unfold mbind at 1, M_bind. unfold extract_entry_pydantic at 1.
    unfold mbind at 1, M_bind, lift. rewrite Hentry.
    unfold extract_route_pydantic at 1.
    unfold mbind at 1, M_bind. rewrite Hbuild.
    unfold mbind at 1, M_bind.
    rewrite (add_route_operations_mismatch route docs Hne Hdoc).
    unfold mret, M_ret. destruct self'; reflexivity.
Qed.

Lemma mismatch_skips_route_witness :
  _format_handler_path files_route "get" empty_world
    = (Ok None, add_warning files_route empty_world)
  /\ _extract_paths no_yaml [Spec files_route] empty_world
     = (Ok ∅, add_warning files_route empty_world).
Proof.
  assert (Hne : length (Py.findall_brackets (regex_pattern files_route))
                <> regex_groups files_route) by (vm_compute; lia).
  pose proof (mismatch_skips_route no_yaml files_route Hne) as (Hfmt & Hdoc & _).
  split.
  - apply (Hfmt "get" empty_world ["file_id"]). reflexivity.
  - unfold _extract_paths.
    destruct (Hdoc [("get", invalid_swagger)] eq_refl [] ∅ empty_world) as [_ ->].
    reflexivity.
Defined.

(** C7. For a handler that has the method, [_extract_parameters_names]
    returns exactly [N] names; position [i] holds the [i]+1-th declared
    argument after the first one, or the placeholder when that name is made of
    underscores only or when there is no such argument. For [N] = 0 the list
    is empty, and two methods of one signature give one list. *)
Theorem reflection_extractor_names (handler : Handler) (method : string) (N : nat) :
  (N = 0 -> _extract_parameters_names handler N method = Ok []) /\
  (forall f, getattr handler (Py.lower method) = Ok f ->
     exists names,
       _extract_parameters_names handler N method = Ok names
       /\ length names = N
       /\ forall i, i < N ->
            names !! i =
              Some (match tail (getfullargspec_args f) !! i with
                    | Some arg => if Py.set_is_single "_" arg then "{?}" else arg
                    | None => "{?}"
                    end)) /\
  (forall handler' method' f f',
     getattr handler (Py.lower method) = Ok f ->
     getattr handler' (Py.lower method') = Ok f' ->
     method_signature f = method_signature f' ->
     _extract_parameters_names handler N method
       = _extract_parameters_names handler' N method').
Proof.
  split; [|split].
  - intros ->. reflexivity.
  - intros f Hf. exists (expected_names (_try_extract_args f) N).
    split; [|split].
    + rewrite extract_parameters_names_eq. destruct N; [done|].
      by rewrite Hf.
    + apply expected_names_length.
    + intros i Hi. by rewrite expected_names_lookup.
  - intros handler' method' f f' Hf Hf' Hsig.
    rewrite !extract_parameters_names_eq. destruct N; [done|].
    rewrite Hf, Hf'. simpl. unfold _try_extract_args, getfullargspec_args.
    by rewrite Hsig.
Qed.

Lemma reflection_extractor_names_witness :
  exists names,
    _extract_parameters_names pair_handler 3 "GET" = Ok names
    /\ length names = 3
    /\ names !! 0 = Some "{?}" /\ names !! 1 = Some "item_id"
    /\ names !! 2 = Some "{?}".
Proof.
  destruct (proj1 (proj2 (reflection_extractor_names pair_handler "GET" 3))
              pair_get eq_refl) as (names & Hrun & Hlen & Hat).
  exists names. split; [done|]. split; [done|].
  split; [|split].
  - apply (Hat 0). lia.
  - apply (Hat 1). lia.
  - apply (Hat 2). lia.
Defined.

(** ** The formatted path of [/items/(?P<item_id>[0-9]+)] *)

Lemma drop_last_app s c : Py.drop_last (s +:+ String c EmptyString) = s.
Proof.
  induction s as [|d s IH]; [done|].
  cbn [append]. simpl. rewrite IH. by destruct s.
Qed.

(** C8. For the route [/items/(?P<item_id>[0-9]+)] and a handler declaring
    [get(self, item_id)]: tornado compiles the pattern with its end anchor, the
    one parenthesized segment is replaced by the braced name, and the path
    returned is the result without its last character, [/items/{item_id}].
    The route is the [URLSpec] of the pattern, its one group being named:
    what [tornado.web.url] returns when [re.compile] reports so. *)
Theorem format_items_path (handler : Handler) (f : Method) (method : string)
    (w : World) :
  Py.lower method = "get" ->
  getattr handler "get" = Ok f ->
  getfullargspec_args f = ["self"; "item_id"] ->
  let route := spec_of "/items/(?P<item_id>[0-9]+)" 1 handler in
  (forall re_compile,
     re_compile "/items/(?P<item_id>[0-9]+)$" = Regex 1 1 ->
     url re_compile "/items/(?P<item_id>[0-9]+)" handler = Ok route)
  /\ regex_pattern route = "/items/(?P<item_id>[0-9]+)$"
  /\ Py.findall_brackets (regex_pattern route) = ["(?P<item_id>[0-9]+)"]
  /\ _extract_parameters_names handler 1 method = Ok ["item_id"]
  /\ substitute 0 ["(?P<item_id>[0-9]+)"] ["item_id"] (regex_pattern route)
     = "/items/{item_id}" +:+ "$"
  /\ _format_handler_path route method w = (Ok (Some "/items/{item_id}"), w).
Proof.
  intros Hlow Hf Hargs route.
  assert (Hnames : _extract_parameters_names handler 1 method = Ok ["item_id"]).
  { rewrite extract_parameters_names_eq, Hlow, Hf. simpl.
    unfold _try_extract_args. rewrite Hargs. reflexivity. }
  split.
  { intros re_compile Hcompile. unfold url.
    change (anchored "/items/(?P<item_id>[0-9]+)")
      with "/items/(?P<item_id>[0-9]+)$".
    by rewrite Hcompile. }
  split; [reflexivity|]. split; [reflexivity|]. split; [done|].
  split; [reflexivity|].
  rewrite (format_handler_path_match route method w ["item_id"]); done.
Qed.

Lemma format_items_path_witness :
  _format_handler_path (spec_of "/items/(?P<item_id>[0-9]+)" 1 items_handler)
    "get" empty_world
  = (Ok (Some "/items/{item_id}"), empty_world).
Proof.
  apply (format_items_path items_handler items_get "get" empty_world);
    reflexivity.
Defined.

(** ** Response descriptions *)

Lemma alist_get_str_dict k (d : list (string * value)) :
  alist_get (KStr k) (map (fun kv => (KStr kv.1, kv.2)) d) = alist_get k d.
Proof.
  induction d as [|[k' v] d IH]; simpl; [done|].
  destruct (decide (k = k')) as [->|Hne].
  - by rewrite decide_True.
  - rewrite decide_False by congruence. done.
Qed.

Lemma add_response_responses self rs status_code rm w self' rs' w' :
  add_response (self, rs) (status_code, rm) w = (Ok (self', rs'), w') ->
  exists model,
    rm_model rm = Some model /\
    rs' = alist_set (KInt status_code)
            (response_doc (response_description_of status_code rm) (model_name model))
            rs.
Proof.
  unfold add_response. destruct (rm_model rm) as [model|]; [|done].
  intros (model_spec & w1 & _ & Hrun)%M_bind_Ok.
  apply M_bind_Ok in Hrun as (self1 & w2 & _ & Hret).
  unfold mret, M_ret in Hret. simplify_eq. by exists model.
Qed.

Lemma responses_loop_other rms : forall self rs w self' rs' w' status_code,
  for_each rms add_response (self, rs) w = (Ok (self', rs'), w') ->
  status_code ∉ map fst rms ->
  alist_get (KInt status_code) rs' = alist_get (KInt status_code) rs.
Proof.
  induction rms as [|[code rm] rms IH]; intros self rs w self' rs' w' sc Hrun Hnot.
  - simpl in Hrun. unfold mret, M_ret in Hrun. by simplify_eq.
  - simpl in Hrun, Hnot. apply M_bind_Ok in Hrun as ([s1 rs1] & w1 & Hstep & Hrun).
    apply not_elem_of_cons in Hnot as [Hne Hnot].
    rewrite (IH _ _ _ _ _ _ _ Hrun Hnot).
    apply add_response_responses in Hstep as (model & _ & ->).
    apply alist_get_set_ne. congruence.
Qed.

Lemma responses_loop_lookup rms : forall self rs w self' rs' w',
  for_each rms add_response (self, rs) w = (Ok (self', rs'), w') ->
  NoDup (map fst rms) ->
  forall status_code rm, (status_code, rm) ∈ rms ->
    exists model,
      rm_model rm = Some model /\
      alist_get (KInt status_code) rs'
        = Some (response_doc (response_description_of status_code rm)
                  (model_name model)).
Proof.
  induction rms as [|[code rm0] rms IH]; intros self rs w self' rs' w' Hrun Hdup sc rm Hin.
  - by apply elem_of_nil in Hin.
  - simpl in Hrun, Hdup. apply M_bind_Ok in Hrun as ([s1 rs1] & w1 & Hstep & Hrun).
    apply NoDup_cons in Hdup as [Hfresh Hdup].
    apply elem_of_cons in Hin as [Heq|Hin].
    + simplify_eq.
      apply add_response_responses in Hstep as (model & Hmodel & ->).
      exists model. split; [done|].
      rewrite (responses_loop_other _ _ _ _ _ _ _ _ Hrun Hfresh).
      apply alist_get_set_eq.
    + by apply (IH _ _ _ _ _ _ Hrun Hdup).
Qed.

Lemma default_description_cases (status_code : Z) :
  ((status_code < 400)%Z ->
     _generate_default_description status_code = "Successful Response") /\
  ((400 <= status_code < 500)%Z ->
     _generate_default_description status_code = "Bad request") /\
  ((500 <= status_code)%Z ->
     _generate_default_description status_code = "Internal Server Error").
Proof.
  unfold _generate_default_description.
  destruct (Z.ltb_spec status_code 400), (Z.ltb_spec status_code 500);
    repeat split; intros; first [done | lia].
Qed.

(** C4. In the operation built from a method's Swagger Method Info, the
    response of every entry of the responses mapping is the mapping of a
    description and a JSON content that refers to the schema of the model
    under its name. The value under its description key is the supplied
    description when there is a non-empty one, and otherwise the description
    the status code gives: "Successful Response" below 400, "Bad request" from
    400 to 499, "Internal Server Error" from 500 on. *)
Theorem response_description_default
    (self : PydanticRoutesProcessor) (input_parameters : list (string * Annotation))
    (response_models : list (Z * ResponseModel)) (request query : option Model)
    (tags : option (list string)) (w : World)
    (self' : PydanticRoutesProcessor) (op : value) (w' : World) :
  build_pydantic_docs self input_parameters response_models request query tags w
    = (Ok (self', op), w') ->
  NoDup (map fst response_models) ->
  forall status_code response_model,
    (status_code, response_model) ∈ response_models ->
    exists model description response,
      rm_model response_model = Some model
      /\ operation_response op status_code = Some response
      /\ response
         = VDict
             [(KStr "description", VStr description);
              (KStr "content",
               VDict
                 [(KStr "application/json",
                   VDict
                     [(KStr "schema",
                       VDict
                         [(KStr "$ref",
                           VStr ("#/components/schemas/" ++ model_name model))])])])]
      /\ operation_field response "description" = Some (VStr description)
      /\ (forall d, rm_description response_model = Some d -> d <> "" ->
            description = d)
      /\ (rm_description response_model = None
          \/ rm_description response_model = Some "" ->
            ((status_code < 400)%Z -> description = "Successful Response")
            /\ ((400 <= status_code < 500)%Z -> description = "Bad request")
            /\ ((500 <= status_code)%Z -> description = "Internal Server Error")).
Proof.
  intros Hbuild Hdup status_code rm Hin. unfold build_pydantic_docs in Hbuild.
  apply M_bind_Ok in Hbuild as (parameters & w1 & _ & Hrun).
  apply M_bind_Ok in Hrun as ([self1 result] & w2 & _ & Hrun).
  apply M_bind_Ok in Hrun as ([self2 responses] & w3 & Hloop & Hret).
  unfold mret, M_ret in Hret. simplify_eq.
  destruct (responses_loop_lookup _ _ _ _ _ _ _ Hloop Hdup _ _ Hin)
    as (model & Hmodel & Hget).
  exists model, (response_description_of status_code rm),
    (response_doc (response_description_of status_code rm) (model_name model)).
  split; [done|]. split; [|split; [done|split; [done|split]]].
  - unfold operation_response, str_dict.
    destruct tags as [[|t ts]|]; rewrite alist_get_str_dict;
      rewrite ?(alist_get_set_ne "responses" "tags") by done;
      by rewrite alist_get_set_eq.
  - intros d Hd Hne. unfold response_description_of. rewrite Hd.
    destruct (String.eqb_spec d ""); done.
  - unfold response_description_of.
    intros [->| ->]; apply default_description_cases.
Qed.

Lemma response_description_default_witness :
  exists self' op w',
    build_pydantic_docs new_processor [] sample_responses None None None empty_world
      = (Ok (self', op), w')
    /\ operation_response op 404
       = Some (VDict
                 [(KStr "description", VStr "Bad request");
                  (KStr "content",
                   VDict
                     [(KStr "application/json",
                       VDict
                         [(KStr "schema",
                           VDict
                             [(KStr "$ref",
                               VStr "#/components/schemas/ErrorResponse")])])])]).
Proof.
  destruct (build_pydantic_docs new_processor [] sample_responses None None None
              empty_world) as [[[self' op]|e] w'] eqn:Hrun.
  2: { exfalso. vm_compute in Hrun. discriminate Hrun. }
  exists self', op, w'. split; [reflexivity|].
  assert (Hdup : NoDup (map fst sample_responses)).
  { apply (bool_decide_unpack _). vm_compute. exact I. }
  assert (Hin : (404%Z, mkResponseModel (Some error_model) None) ∈ sample_responses).
  { apply elem_of_cons. right. apply elem_of_cons. left. reflexivity. }
  destruct (response_description_default _ _ _ _ _ _ _ _ _ _ Hrun Hdup _ _ Hin)
    as (model & description & response & Hmodel & Hop & Hresponse & _ & _
        & Hdefault).
  injection Hmodel as <-.
  destruct (Hdefault (or_introl eq_refl)) as (_ & Hbad & _).
  rewrite Hop, Hresponse, Hbad; [reflexivity | lia].
Defined.

(** ** Lines and separators *)

Lemma ascii_eqb_eq a b : Py.ascii_eqb a b = true <-> a = b.
Proof. unfold Py.ascii_eqb. apply Ascii.eqb_eq. Qed.

Lemma ascii_eqb_refl a : Py.ascii_eqb a a = true.
Proof. by apply ascii_eqb_eq. Qed.

Lemma splitlines_break c r :
  Py.is_linebreak c = true ->
  Py.splitlines (String c r) = EmptyString :: Py.splitlines r
  \/ exists r', c = Py.CR /\ r = String Py.LF r'
                /\ Py.splitlines (String c r) = EmptyString :: Py.splitlines r'.
Proof.
  intros Hc. cbn [Py.splitlines]. rewrite Hc. destruct r as [|d r']; [by left|].
  destruct (Py.ascii_eqb c Py.CR && Py.ascii_eqb d Py.LF) eqn:Hcrlf; [|by left].
  apply andb_true_iff in Hcrlf as [->%ascii_eqb_eq ->%ascii_eqb_eq].
  right. by exists r'.
Qed.

Lemma splitlines_LF r :
  Py.splitlines (String Py.LF r) = EmptyString :: Py.splitlines r.
Proof. by destruct r. Qed.








(** ** The operations of the docstring-based processor *)

Lemma docs_loop_lookup safe_load handler methods : forall acc out k,
  for_each methods (doc_from_method safe_load handler) acc = Ok out ->
  alist_get k out =
    if decide (k ∈ map Py.lower methods) then
      match getattr handler k with
      | Ok f =>
          match method_operation safe_load f with
          | Some op => Some op
          | None => alist_get k acc
          end
      | Raise _ => alist_get k acc
      end
    else alist_get k acc.
Proof.
  induction methods as [|m methods IH]; intros acc out k Hrun.
  - simpl in Hrun. unfold mret, result_ret in Hrun. simplify_eq.
    by rewrite decide_False by apply not_elem_of_nil.
  - simpl in Hrun. apply result_bind_Ok in Hrun as (acc1 & Hstep & Hrun).
    apply doc_from_method_Ok in Hstep as (f & Hf & _ & ->).
    rewrite (IH _ _ k Hrun). clear IH Hrun.
    cbn [map]. destruct (decide (k = Py.lower m)) as [->|Hne].
    + rewrite (decide_True (P := _ ∈ _ :: _)) by left. rewrite Hf.
      destruct (method_operation safe_load f) as [op|] eqn:Hop.
      * rewrite alist_get_set_eq. by destruct (decide _).
      * by destruct (decide _).
    + assert (Hacc : alist_get k
                       match method_operation safe_load f with
                       | Some op => alist_set (Py.lower m) op acc
                       | None => acc
                       end = alist_get k acc).
      { destruct (method_operation safe_load f); [|done].
        by apply alist_get_set_ne. }
      rewrite Hacc.
      destruct (decide (k ∈ map Py.lower methods)) as [Hin|Hnin].
      * rewrite decide_True by (by right). done.
      * rewrite decide_False; [done|].
        by intros [?|?]%elem_of_cons.
Qed.

Lemma format_handler_path_run route method w :
  _format_handler_path route method w =
    (path_of route method,
     match path_of route method with
     | Ok None => add_warning route w
     | _ => w
     end).
Proof.
  unfold _format_handler_path, path_of.
  unfold mbind at 1, M_bind, lift.
  destruct (_extract_parameters_names _ _ _) as [parameters|e]; simpl; [|done].
  by destruct (_ =? _)%nat.
Qed.

Lemma add_route_operation_run route paths doc w :
  add_route_operation route paths doc w =
    match path_of route doc.1 with
    | Ok (Some p) => (Ok (add_operation paths p doc.1 doc.2), w)
    | Ok None => (Ok paths, add_warning route w)
    | Raise e => (Raise e, w)
    end.
Proof.
  unfold add_route_operation. unfold mbind, M_bind.
  rewrite format_handler_path_run.
  by destruct (path_of route doc.1) as [[p|]|e].
Qed.

Lemma operation_at_add paths p m op path method :
  operation_at (add_operation paths p m op) path method =
    if decide (path = p /\ method = m) then Some op
    else operation_at paths path method.
Proof.
  unfold operation_at, add_operation.
  destruct (decide (path = p)) as [->|Hp].
  - rewrite lookup_insert_eq. simpl. rewrite alist_get_set.
    destruct (decide (method = m)) as [->|Hm].
    + by rewrite decide_True.
    + rewrite decide_False; [done | by intros [_ ?]].
  - rewrite lookup_insert_ne by done.
    rewrite decide_False; [done | by intros [? _]].
Qed.

(** Methods outside [docs] keep the operations they had. *)
Lemma add_route_operations_other route docs method : forall paths w paths' w',
  add_route_operations route docs paths w = (Ok paths', w') ->
  method ∉ map fst docs ->
  forall path, operation_at paths' path method = operation_at paths path method.
Proof.
  unfold add_route_operations.
  induction docs as [|doc docs IH]; intros paths w paths' w' Hrun Hnot path.
  - simpl in Hrun. unfold mret, M_ret in Hrun. by simplify_eq.
  - simpl in Hrun, Hnot. apply not_elem_of_cons in Hnot as [Hne Hnot].
    apply M_bind_Ok in Hrun as (paths1 & w1 & Hstep & Hrun).
    rewrite (IH _ _ _ _ Hrun Hnot). rewrite add_route_operation_run in Hstep.
    destruct (path_of route doc.1) as [[p|]|e]; simplify_eq; [|done].
    rewrite operation_at_add. rewrite decide_False; [done | by intros [_ ?]].
Qed.

(** A method of [docs] gets its operation under its path. *)
Lemma add_route_operations_lookup route docs : forall paths w paths' w',
  add_route_operations route docs paths w = (Ok paths', w') ->
  NoDup (map fst docs) ->
  forall doc p, doc ∈ docs -> path_of route doc.1 = Ok (Some p) ->
    operation_at paths' p doc.1 = Some doc.2.
Proof.
  induction docs as [|doc0 docs IH]; intros paths w paths' w' Hrun Hdup doc p Hin Hp.
  - by apply elem_of_nil in Hin.
  - simpl in Hdup. apply NoDup_cons in Hdup as [Hfresh Hdup].
    unfold add_route_operations in Hrun. simpl in Hrun.
    apply M_bind_Ok in Hrun as (paths1 & w1 & Hstep & Hrun).
    apply elem_of_cons in Hin as [->|Hin].
    + rewrite (add_route_operations_other _ _ _ _ _ _ _ Hrun Hfresh).
      rewrite add_route_operation_run, Hp in Hstep. simplify_eq.
      rewrite operation_at_add. by rewrite decide_True.
    + by apply (IH _ _ _ _ Hrun Hdup).
Qed.

Lemma alist_set_NoDup {V} (k : string) (v : V) d :
  NoDup (map fst d) -> NoDup (map fst (alist_set k v d)).
Proof.
  induction d as [|[k' v'] d IH]; simpl; intros Hdup.
  - apply NoDup_singleton.
  - apply NoDup_cons in Hdup as [Hfresh Hdup].
    destruct (decide (k = k')) as [->|Hne]; simpl.
    + by apply NoDup_cons.
    + apply NoDup_cons. split; [|by apply IH].
      intros (x & Hx1 & Hx2)%list_elem_of_fmap.
      apply alist_set_keys in Hx2 as [Hk|Hx2]; [congruence|].
      apply Hfresh. apply list_elem_of_fmap. eauto.
Qed.

Lemma build_doc_from_func_doc_NoDup safe_load handler docs :
  _build_doc_from_func_doc safe_load handler = Ok docs -> NoDup (map fst docs).
Proof.
  unfold _build_doc_from_func_doc.
  apply (for_each_result_invariant (fun out => NoDup (map fst out))).
  - intros out method out1 _ Hout (f & _ & _ & ->)%doc_from_method_Ok.
    destruct (method_operation safe_load f); [by apply alist_set_NoDup | done].
  - apply NoDup_nil_2.
Qed.

Lemma alist_get_elem {V} (k : string) (v : V) d :
  alist_get k d = Some v -> (k, v) ∈ d.
Proof.
  induction d as [|[k' v'] d IH]; simpl; [done|].
  destruct (decide (k = k')) as [->|Hne].
  - intros [= ->]. by left.
  - intros Hget. right. by apply IH.
Qed.







(** ** The description of the info block *)

Lemma no_linebreak_app a b :
  no_linebreak (a +:+ b) = no_linebreak a && no_linebreak b.
Proof.
  induction a as [|c a IH]; [done|].
  change (String c a +:+ b) with (String c (a +:+ b)).
  cbn [no_linebreak]. by rewrite IH, andb_assoc.
Qed.

Lemma splitlines_no_linebreak s :
  Forall (fun l => no_linebreak l = true) (Py.splitlines s).
Proof.
  induction s as [|c r IH]; [constructor|].
  destruct (Py.is_linebreak c) eqn:Hc.
  - destruct (splitlines_break c r Hc) as [->|(r' & -> & -> & ->)].
    + by constructor.
    + rewrite splitlines_LF in IH. apply Forall_cons in IH as [_ IH].
      by constructor.
  - cbn [Py.splitlines]. rewrite Hc. destruct (Py.splitlines r) as [|l ls].
    + constructor; [|constructor]. simpl. by rewrite Hc.
    + apply Forall_cons in IH as [Hl Hls]. constructor; [|done].
      simpl. by rewrite Hc, Hl.
Qed.

Lemma join_no_linebreak sep lines :
  no_linebreak sep = true ->
  Forall (fun l => no_linebreak l = true) lines ->
  no_linebreak (Py.join sep lines) = true.
Proof.
  intros Hsep. induction 1 as [|l lines Hl Hlines IH]; [done|].
  cbn [Py.join]. destruct lines as [|l' lines]; [done|].
  by rewrite !no_linebreak_app, Hl, Hsep, IH.
Qed.

Lemma no_linebreak_no_newline s :
  no_linebreak s = true -> Py.contains Py.NL s = false.
Proof.
  induction s as [|c r IH]; [done|]. cbn [no_linebreak].
  intros [Hc Hr]%andb_true_iff.
  change (Py.contains Py.NL (String c r))
    with (Py.ascii_eqb Py.LF c && true || Py.contains Py.NL r).
  rewrite (IH Hr), orb_false_r, andb_true_r.
  destruct (Py.ascii_eqb Py.LF c) eqn:Heq; [|done].
  apply ascii_eqb_eq in Heq as <-. done.
Qed.

Lemma clean_description_no_linebreak description :
  no_linebreak (_clean_description description) = true.
Proof.
  unfold _clean_description.
  apply join_no_linebreak; [done | apply splitlines_no_linebreak].
Qed.

Lemma first_non_newline_drop description : forall k i,
  first_non_newline k description = Some i ->
  k <= i /\ Py.drop_chars (i - k) description = drop_leading_newlines description.
Proof.
  induction description as [|c r IH]; intros k i; simpl; [done|].
  destruct (Py.ascii_eqb c Py.LF); simpl.
  - intros [Hle Hdrop]%IH. split; [lia|].
    replace (i - k) with (S (i - S k)) by lia. done.
  - intros [= <-]. split; [lia|]. by rewrite Nat.sub_diag.
Qed.

Lemma clean_description_lines description i :
  first_non_newline 0 description = Some i ->
  _clean_description description
  = Py.join "    " (Py.splitlines (drop_leading_newlines description)).
Proof.
  intros Hi. unfold _clean_description. rewrite Hi. simpl.
  destruct (first_non_newline_drop _ _ _ Hi) as [_ <-].
  by rewrite Nat.sub_0_r.
Qed.

Lemma generate_doc_info safe_load re_compile b routes args w doc w' :
  generate_doc safe_load re_compile b routes args w = (Ok doc, w') ->
  doc_info doc = make_info args.
Proof.
  destruct b; simpl.
  - intros (paths & w1 & _ & Hret)%M_bind_Ok.
    unfold mret, M_ret in Hret. by simplify_eq.
  - intros (paths & w1 & _ & Hret)%M_bind_Ok.
    unfold mret, M_ret in Hret. by simplify_eq.
  - intros (self & w1 & _ & Hrun)%M_bind_Ok.
    apply M_bind_Ok in Hrun as (components & w2 & _ & Hret).
    unfold mret, M_ret in Hret. by simplify_eq.
Qed.

(** C10, as amended. Whatever builder produces the document, the description
    of its info block is the cleaned description and holds no line boundary,
    so no newline. When the description has a character other than a
    newline, its leading newlines are dropped and the lines of what remains
    are joined by four spaces: a boundary between two lines becomes four
    spaces, one at the very end disappears. *)
Theorem description_flattened (safe_load : string -> YamlLoad)
    (re_compile : string -> Compiled) (b : Builder) (routes : list RouteEntry)
    (args : DocArgs) (w : World) (doc : Document) (w' : World) :
  generate_doc safe_load re_compile b routes args w = (Ok doc, w') ->
  info_description (doc_info doc) = _clean_description (description args)
  /\ no_linebreak (info_description (doc_info doc)) = true
  /\ Py.contains Py.NL (info_description (doc_info doc)) = false
  /\ (forall i, first_non_newline 0 (description args) = Some i ->
        info_description (doc_info doc)
        = Py.join "    "
            (Py.splitlines (drop_leading_newlines (description args)))).
Proof.
  intros Hdoc. rewrite (generate_doc_info _ _ _ _ _ _ _ _ Hdoc). simpl.
  split; [done|]. split; [apply clean_description_no_linebreak|].
  split; [apply no_linebreak_no_newline, clean_description_no_linebreak|].
  apply clean_description_lines.
Qed.

(** C10 as stated fails on a description that ends with a line break: the
    builders drop that break, the claim replaces it by four spaces. *)
Lemma description_trailing_break :
  _clean_description ("a" +:+ Py.NL) = "a"
  /\ claimed_description ("a" +:+ Py.NL) = "a    "
  /\ _clean_description ("a" +:+ Py.NL) <> claimed_description ("a" +:+ Py.NL).
Proof. repeat split. vm_compute. discriminate. Qed.

Lemma description_flattened_witness :
  exists doc w',
    generate_doc no_yaml sample_re_compile Swagger2DocBuilder
      [Spec notes_route] notes_args empty_world
      = (Ok doc, w')
    /\ info_description (doc_info doc) = "Notes API    first draft".
Proof.
  destruct (generate_doc no_yaml sample_re_compile Swagger2DocBuilder
              [Spec notes_route] notes_args empty_world)
    as [[doc|e] w'] eqn:Hrun.
  2: { exfalso. vm_compute in Hrun. discriminate Hrun. }
  exists doc, w'. split; [reflexivity|].
  destruct (description_flattened _ _ _ _ _ _ _ _ Hrun) as (-> & _).
  reflexivity.
Defined.

(** ** Methods without Swagger Method Info *)

Lemma pydantic_docs_have_info handler self w self' docs w' :
  _build_doc_from_pydantic_handler self handler w = (Ok (self', docs), w') ->
  forall k, k ∈ map fst docs ->
    exists f info,
      getattr handler k = Ok f /\ method_swagger_info f = Some info.
Proof.
  unfold _build_doc_from_pydantic_handler.
  apply (for_each_M_invariant
           (fun acc _ => forall k, k ∈ map fst acc.2 ->
              exists f info,
                getattr handler k = Ok f /\ method_swagger_info f = Some info)
           (SUPPORTED_METHODS handler) (pydantic_doc_from_method handler)).
  - intros [s out] method w0 [s1 out1] w1 _ Hout Hstep. simpl in *.
    unfold pydantic_doc_from_method in Hstep.
    apply M_bind_Ok in Hstep as (f & w2 & Hf & Hstep).
    unfold lift in Hf.
    destruct (getattr handler (Py.lower method)) as [f'|] eqn:Hget; [|done].
    simplify_eq.
    destruct (method_swagger_info f) as [info|] eqn:Hinfo.
    + apply M_bind_Ok in Hstep as ([s2 doc] & w3 & _ & Hret).
      unfold mret, M_ret in Hret. simplify_eq.
      intros k (x & -> & Hx)%list_elem_of_fmap.
      apply alist_set_keys in Hx as [->|Hx]; [eauto|].
      apply Hout. apply list_elem_of_fmap. eauto.
    + unfold mret, M_ret in Hstep. by simplify_eq.
  - simpl. intros k Hk. by apply elem_of_nil in Hk.
Qed.

Lemma getattr_redocumented g handler name :
  getattr (redocumented g handler) name =
    match getattr handler name with
    | Ok f => Ok (redocumented_method g name f)
    | Raise e => Raise e
    end.
Proof.
  unfold getattr, redocumented. simpl.
  induction (handler_attrs handler) as [|[k f] attrs IH]; simpl; [done|].
  destruct (decide (name = k)) as [->|Hne]; [done|]. apply IH.
Qed.

Lemma extract_parameters_names_redocumented g handler N method :
  _extract_parameters_names (redocumented g handler) N method
  = _extract_parameters_names handler N method.
Proof.
  rewrite !extract_parameters_names_eq. destruct N; [done|].
  rewrite getattr_redocumented.
  by destruct (getattr handler (Py.lower method)).
Qed.

Lemma format_handler_path_redocumented g route method w :
  _format_handler_path (redocumented_route g route) method w
  = _format_handler_path route method w.
Proof.
  unfold _format_handler_path. simpl.
  by rewrite extract_parameters_names_redocumented.
Qed.

Lemma for_each_M_ext {A S} (xs : list A) (body1 body2 : S -> A -> M S) :
  (forall s x w, body1 s x w = body2 s x w) ->
  forall s w, for_each xs body1 s w = for_each xs body2 s w.
Proof.
  intros Hext. induction xs as [|x xs IH]; intros s w; [done|].
  simpl. unfold mbind, M_bind. rewrite Hext.
  destruct (body2 s x w) as [[s1|e] w1]; [apply IH | done].
Qed.

Lemma for_each_M_map {A B S} (g : A -> B) (xs : list A) (body : S -> B -> M S) :
  forall s w,
    for_each (map g xs) body s w = for_each xs (fun s x => body s (g x)) s w.
Proof.
  induction xs as [|x xs IH]; intros s w; [done|].
  simpl. unfold mbind, M_bind.
  destruct (body s (g x) w) as [[s1|e] w1]; [apply IH | done].
Qed.

Lemma add_route_operations_redocumented g route docs paths w :
  add_route_operations (redocumented_route g route) docs paths w
  = add_route_operations route docs paths w.
Proof.
  unfold add_route_operations. apply for_each_M_ext.
  intros p doc w0. unfold add_route_operation, mbind, M_bind.
  by rewrite format_handler_path_redocumented.
Qed.

Lemma pydantic_doc_from_method_redocumented g handler acc method w :
  pydantic_doc_from_method (redocumented g handler) acc method w
  = pydantic_doc_from_method handler acc method w.
Proof.
  unfold pydantic_doc_from_method. destruct acc as [self out].
  unfold mbind, M_bind, lift. rewrite getattr_redocumented.
  by destruct (getattr handler (Py.lower method)).
Qed.

Lemma M_bind_ext {A B} (m1 m2 : M A) (k1 k2 : A -> M B) w :
  m1 w = m2 w -> (forall a w', k1 a w' = k2 a w') ->
  (x ← m1; k1 x) w = (x ← m2; k2 x) w.
Proof.
  intros Hm Hk. unfold mbind, M_bind. rewrite Hm.
  destruct (m2 w) as [[a|e] w1]; [apply Hk | done].
Qed.

Lemma extract_route_pydantic_redocumented g self route w :
  extract_route_pydantic self (redocumented_route g route) w
  = extract_route_pydantic self route w.
Proof.
  unfold extract_route_pydantic. apply M_bind_ext.
  - unfold _build_doc_from_pydantic_handler. simpl.
    apply for_each_M_ext. intros. apply pydantic_doc_from_method_redocumented.
  - intros [s docs] w1. apply M_bind_ext; [|done].
    apply add_route_operations_redocumented.
Qed.

Lemma url_star_redocumented re_compile g route :
  url_star re_compile (redocumented_entry g route)
  = match url_star re_compile route with
    | Ok route => Ok (redocumented_route g route)
    | Raise e => Raise e
    end.
Proof.
  destruct route as [pattern handler|route]; [|done]. simpl. unfold url.
  destruct (re_compile (anchored pattern)) as [groups named|msg]; [|done].
  by destruct ((named =? 0)%nat || (named =? groups)%nat).
Qed.

Lemma extract_paths_pydantic_redocumented re_compile g routes self w :
  extract_paths_pydantic re_compile self (map (redocumented_entry g) routes) w
  = extract_paths_pydantic re_compile self routes w.
Proof.
  unfold extract_paths_pydantic. rewrite for_each_M_map.
  apply for_each_M_ext. intros self1 route w1.
  unfold extract_entry_pydantic, mbind, M_bind, lift.
  rewrite url_star_redocumented.
  destruct (url_star re_compile route) as [tornado_route|e]; [|done].
  apply extract_route_pydantic_redocumented.
Qed.

(** C9. Under the model-declaration dialect a method without Swagger Method
    Info has no operation: none among the operations of its handler, and the
    route leaves the method's operation under every path as it was. The
    docstrings play no part: with any other docstrings in place of the
    handlers' own, generation gives the same result and the same state. *)
Theorem no_info_no_operation (safe_load : string -> YamlLoad) (route : Route)
    (method : string) (f : Method) :
  getattr (target route) (Py.lower method) = Ok f ->
  method_swagger_info f = None ->
  (forall self w self' docs w',
     _build_doc_from_pydantic_handler self (target route) w
       = (Ok (self', docs), w') ->
     alist_get (Py.lower method) docs = None)
  /\ (forall self w self' w',
        extract_route_pydantic self route w = (Ok self', w') ->
        forall path,
          operation_at (paths self') path (Py.lower method)
          = operation_at (paths self) path (Py.lower method))
  /\ (forall re_compile g routes args w,
        generate_doc safe_load re_compile PydanticBuilder
          (map (redocumented_entry g) routes) args w
        = generate_doc safe_load re_compile PydanticBuilder routes args w).
Proof.
  intros Hf Hinfo.
  assert (Hnone : forall self w self' docs w',
             _build_doc_from_pydantic_handler self (target route) w
               = (Ok (self', docs), w') ->
             Py.lower method ∉ map fst docs).
  { intros self w self' docs w' Hdocs Hin.
    destruct (pydantic_docs_have_info _ _ _ _ _ _ Hdocs _ Hin)
      as (f' & info & Hf' & Hinfo').
    congruence. }
  split; [|split].
  - intros self w self' docs w' Hdocs.
    destruct (alist_get (Py.lower method) docs) as [op|] eqn:Hget; [|done].
    destruct (Hnone _ _ _ _ _ Hdocs).
    apply alist_get_elem in Hget. apply list_elem_of_fmap. by exists (Py.lower method, op).
  - intros self w self' w' Hrun path. unfold extract_route_pydantic in Hrun.
    apply M_bind_Ok in Hrun as ([self1 docs] & w1 & Hdocs & Hrun).
    apply M_bind_Ok in Hrun as (paths1 & w2 & Hops & Hret).
    unfold mret, M_ret in Hret. simplify_eq. simpl.
    rewrite (add_route_operations_other _ _ _ _ _ _ _ Hops
               (Hnone _ _ _ _ _ Hdocs)).
    by destruct (build_doc_from_pydantic_handler_documented _ _ _ _ _ _ Hdocs)
      as [_ ->].
  - intros re_compile g routes args w. simpl. apply M_bind_ext; [|done].
    apply extract_paths_pydantic_redocumented.
Qed.

Lemma no_info_no_operation_witness :
  exists docs,
    _build_doc_from_pydantic_handler new_processor files_handler empty_world
      = (Ok (new_processor, docs), empty_world)
    /\ method_doc files_get
       = Some ("Get a file" +:+ Py.NL +:+ "---" +:+ Py.NL +:+ "tags: [files]")
    /\ alist_get "get" docs = None.
Proof.
  exists []. split; [reflexivity|]. split; [reflexivity|].
  apply (proj1 (no_info_no_operation no_yaml files_route "GET" files_get
                  eq_refl eq_refl)
           new_processor empty_world new_processor [] empty_world).
  reflexivity.
Defined.

(** ** First write wins in the collected schemas *)

Lemma registered_eq self w name :
  registered self w name
  = components_schemas self !! name ≫= resolve_entry (schema_cache w).
Proof. unfold registered, resolve_schemas. apply lookup_omap. Qed.

Lemma settled_refl self w : popped self w -> settled (self, w) (self, w).
Proof. intros Hp. split; [done|]. split; [by intros ?|by intros ?]. Qed.

Lemma settled_trans a b c : settled a b -> settled b c -> settled a c.
Proof.
  intros (_ & Hs1 & Hc1) (Hp & Hs2 & Hc2). split; [done|]. split.
  - intros name e He. by apply Hs2, Hs1.
  - intros id s Hs Hd. by apply Hc2; [apply Hc1|].
Qed.

Lemma popped_cache_kept self w w' :
  popped self w -> cache_kept w w' -> popped self w'.
Proof.
  intros Hp Hc name id He. destruct (Hp name id He) as (s & Hs & Hd).
  exists s. split; [by apply Hc | done].
Qed.

Lemma settled_registered self w self' w' name frag :
  popped self w -> settled (self, w) (self', w') ->
  registered self w name = Some frag -> registered self' w' name = Some frag.
Proof.
  intros Hp (_ & Hs & Hc). rewrite !registered_eq. simpl in *.
  destruct (components_schemas self !! name) as [e|] eqn:He; [|done].
  rewrite (Hs name e He). simpl. destruct e as [id|spec]; [|done].
  destruct (Hp name id He) as (s & Hcache & Hd). simpl.
  by rewrite Hcache, (Hc id s Hcache Hd).
Qed.

Lemma without_definitions_id s :
  schema_definitions s = None -> without_definitions s = s.
Proof. destruct s. simpl. by intros ->. Qed.

Lemma BaseModel_schema_run model w s w' :
  BaseModel_schema model w = (Ok s, w') ->
  schema_cache w' !! model_id model = Some s
  /\ cache_kept w w' /\ warnings w' = warnings w.
Proof.
  unfold BaseModel_schema.
  destruct (schema_cache w !! model_id model) as [s0|] eqn:Hcache.
  - intros [= <- <-]. split; [done|]. split; [by intros ?|done].
  - intros [= <- <-]. simpl. split; [apply lookup_insert_eq|].
    split; [|done]. intros id s Hs _. simpl.
    rewrite lookup_insert_ne; [done | congruence].
Qed.

Lemma pop_definitions_run model w :
  cache_kept w (pop_definitions model w).2
  /\ forall s, schema_cache w !! model_id model = Some s ->
       schema_cache (pop_definitions model w).2 !! model_id model
       = Some (without_definitions s).
Proof.
  unfold pop_definitions. simpl. split.
  - intros id s Hs Hd. simpl. rewrite lookup_alter. case_decide; [|done].
    simplify_eq. rewrite Hs. simpl. by rewrite without_definitions_id.
  - intros s Hs. rewrite lookup_alter. rewrite decide_True by done.
    by rewrite Hs.
Qed.

Lemma add_components_entries definitions : forall self name e,
  components_schemas (_add_components_from_definitions self definitions) !! name
    = Some e ->
  components_schemas self !! name = Some e \/ exists spec, e = DefinitionSpec spec.
Proof.
  unfold _add_components_from_definitions.
  induction definitions as [|def defs IH]; intros self name e; simpl; [by left|].
  intros [He|He]%IH; [|by right].
  destruct (components_schemas self !! def.1) eqn:Hdef; [by left|].
  simpl in He. rewrite lookup_insert in He. case_decide; [|by left].
  simplify_eq. right. eauto.
Qed.

Lemma add_components_kept definitions : forall self,
  schemas_kept self (_add_components_from_definitions self definitions).
Proof.
  unfold _add_components_from_definitions.
  induction definitions as [|def defs IH]; intros self name e He; simpl; [done|].
  apply IH. destruct (components_schemas self !! def.1) eqn:Hdef; [done|].
  simpl. rewrite lookup_insert_ne; [done | congruence].
Qed.

Lemma register_definitions_settled self model model_spec w self' w' :
  schema_cache w !! model_id model = Some model_spec ->
  register_definitions self model model_spec w = (Ok self', w') ->
  schemas_kept self self' /\ cache_kept w w'
  /\ (exists s, schema_cache w' !! model_id model = Some s
                /\ schema_definitions s = None)
  /\ (forall name e, components_schemas self' !! name = Some e ->
        components_schemas self !! name = Some e
        \/ exists spec, e = DefinitionSpec spec).
Proof.
  intros Hcache. unfold register_definitions.
  destruct (schema_definitions model_spec) as [definitions|] eqn:Hdefs.
  - unfold mbind, M_bind, mret, M_ret.
    destruct (pop_definitions_run model w) as [Hkept Hpop].
    unfold pop_definitions at 1.
    intros [= <- <-]. split; [apply add_components_kept|]. split; [exact Hkept|].
    split; [|apply add_components_entries].
    exists (without_definitions model_spec). split; [|done].
    exact (Hpop _ Hcache).
  - intros [= <- <-]. split; [by intros ?|]. split; [by intros ?|].
    split; [eauto | by left].
Qed.

Lemma register_definitions_cache self model model_spec w self' w' :
  schema_cache w !! model_id model = Some model_spec ->
  register_definitions self model model_spec w = (Ok self', w') ->
  schema_cache w' !! model_id model = Some (without_definitions model_spec).
Proof.
  intros Hcache. unfold register_definitions.
  destruct (schema_definitions model_spec) as [definitions|] eqn:Hdefs.
  - unfold mbind, M_bind, mret, M_ret. unfold pop_definitions at 1.
    intros [= _ <-]. exact (proj2 (pop_definitions_run model w) _ Hcache).
  - intros [= _ <-]. by rewrite without_definitions_id.
Qed.

(** What a response entry registers under a name that is still free: the
    schema of its model without the block of nested definitions. *)
Lemma add_response_registers self rs status_code rm model w self' rs' w' :
  rm_model rm = Some model ->
  components_schemas self !! model_name model = None ->
  add_response (self, rs) (status_code, rm) w = (Ok (self', rs'), w') ->
  exists model_spec w1,
    BaseModel_schema model w = (Ok model_spec, w1)
    /\ registered self' w' (model_name model)
       = Some (schema_value (without_definitions model_spec)).
Proof.
  intros Hmodel Hfree. unfold add_response. rewrite Hmodel, Hfree.
  intros (model_spec & w1 & Hschema & Hrun)%M_bind_Ok.
  apply M_bind_Ok in Hrun as (self2 & w2 & Hdefs & Hret).
  unfold mret, M_ret in Hret. simplify_eq.
  exists model_spec, w1. split; [done|].
  apply BaseModel_schema_run in Hschema as (Hcache & _ & _).
  pose proof (register_definitions_cache _ _ _ _ _ _ Hcache Hdefs) as Hpopped.
  apply (register_definitions_settled _ _ _ _ _ _ Hcache) in Hdefs
    as (Hkept & _).
  rewrite registered_eq.
  rewrite (Hkept (model_name model) (ModelSchema (model_id model))).
  - simpl. by rewrite Hpopped.
  - simpl. apply lookup_insert_eq.
Qed.

Lemma cache_kept_refl w : cache_kept w w.
Proof. by intros ?. Qed.

Lemma cache_kept_trans w1 w2 w3 :
  cache_kept w1 w2 -> cache_kept w2 w3 -> cache_kept w1 w3.
Proof. intros H1 H2 id s Hs Hd. by apply H2; [apply H1|]. Qed.

Lemma add_response_settled self rs item w self' rs' w' :
  popped self w ->
  add_response (self, rs) item w = (Ok (self', rs'), w') ->
  settled (self, w) (self', w').
Proof.
  intros Hp. destruct item as [status_code rm]. unfold add_response.
  destruct (rm_model rm) as [model|]; [|done].
  intros (model_spec & w1 & Hschema & Hrun)%M_bind_Ok.
  apply M_bind_Ok in Hrun as (self2 & w2 & Hdefs & Hret).
  unfold mret, M_ret in Hret. simplify_eq.
  apply BaseModel_schema_run in Hschema as (Hcache & Hkept1 & _).
  apply (register_definitions_settled _ _ _ _ _ _ Hcache) in Hdefs
    as (Hs2 & Hkept2 & Hmodel & Hentries).
  set (self1 := match components_schemas self !! model_name model with
                | Some _ => self
                | None => set_schema self (model_name model)
                            (ModelSchema (model_id model))
                end) in *.
  assert (Hs1 : schemas_kept self self1).
  { intros name e He. subst self1.
    destruct (components_schemas self !! model_name model) eqn:Hm; [done|].
    simpl. rewrite lookup_insert_ne; [done | congruence]. }
  assert (Hnew : forall name e, components_schemas self1 !! name = Some e ->
             components_schemas self !! name = Some e
             \/ e = ModelSchema (model_id model)).
  { intros name e. subst self1.
    destruct (components_schemas self !! model_name model) eqn:Hm; [by left|].
    simpl. rewrite lookup_insert. case_decide; [|by left].
    intros [= <-]. by right. }
  split; [|split]; simpl.
  - intros name id He.
    destruct (Hentries name _ He) as [He1|[spec Hspec]]; [|done].
    destruct (Hnew name _ He1) as [He0|Hid].
    + destruct (Hp name id He0) as (s & Hs & Hd). exists s.
      split; [|done]. by apply Hkept2; [apply Hkept1|].
    + by simplify_eq.
  - intros name e He. by apply Hs2, Hs1.
  - by eapply cache_kept_trans.
Qed.

Lemma build_input_and_query_doc_kept ips query w ps w' :
  _build_input_and_query_doc ips query w = (Ok ps, w') -> cache_kept w w'.
Proof.
  unfold _build_input_and_query_doc.
  intros (parameters & w1 & Hlift & Hrun)%M_bind_Ok.
  unfold lift in Hlift. injection Hlift as _ <-.
  destruct query as [query|].
  - apply M_bind_Ok in Hrun as (query_schema & w2 & Hschema & Hrun).
    apply BaseModel_schema_run in Hschema as (_ & Hkept & _).
    destruct (schema_properties query_schema); [|done].
    unfold mret, M_ret in Hrun. by simplify_eq.
  - unfold mret, M_ret in Hrun. simplify_eq. apply cache_kept_refl.
Qed.

Lemma build_pydantic_docs_settled self ips rms request query tags w self' op w' :
  popped self w ->
  build_pydantic_docs self ips rms request query tags w = (Ok (self', op), w') ->
  settled (self, w) (self', w').
Proof.
  intros Hp. unfold build_pydantic_docs.
  intros (parameters & w1 & Hparams & Hrun)%M_bind_Ok.
  apply M_bind_Ok in Hrun as ([self1 result] & w2 & Hreq & Hrun).
  apply M_bind_Ok in Hrun as ([self2 responses] & w3 & Hloop & Hret).
  unfold mret, M_ret in Hret. simplify_eq.
  apply build_input_and_query_doc_kept in Hparams.
  assert (Hstart : settled (self, w) (self1, w2)).
  { unfold add_request_body in Hreq. destruct request as [request|].
    - apply M_bind_Ok in Hreq as (model_spec & w4 & Hschema & Hreq).
      apply M_bind_Ok in Hreq as (self3 & w5 & Hdefs & Hret).
      unfold mret, M_ret in Hret. simplify_eq.
      apply BaseModel_schema_run in Hschema as (Hcache & Hkept1 & _).
      apply (register_definitions_settled _ _ _ _ _ _ Hcache) in Hdefs
        as (Hs & Hkept2 & _ & Hentries).
      assert (Hkept : cache_kept w w2).
      { eapply cache_kept_trans; [|exact Hkept2].
        eapply cache_kept_trans; [exact Hparams | exact Hkept1]. }
      split; [|split]; simpl; [|done..].
      intros name id He.
      destruct (Hentries name _ He) as [He0|[spec Hspec]]; [|done].
      destruct (Hp name id He0) as (s & Hcs & Hd). exists s.
      split; [by apply Hkept | done].
    - unfold mret, M_ret in Hreq. simplify_eq.
      split; [|split]; simpl; [|by intros ?|done].
      by eapply popped_cache_kept. }
  revert Hloop.
  apply (for_each_M_invariant
           (fun acc w0 => settled (self, w) (acc.1, w0)) rms add_response);
    [|done].
  intros [s r] item w0 [s1 r1] w4 _ Hs Hstep. simpl in *.
  apply (settled_trans _ (s, w0)); [done|].
  apply (add_response_settled _ _ _ _ _ _ _ (proj1 Hs) Hstep).
Qed.

Lemma build_doc_from_pydantic_handler_settled self handler w self' docs w' :
  popped self w ->
  _build_doc_from_pydantic_handler self handler w = (Ok (self', docs), w') ->
  settled (self, w) (self', w').
Proof.
  intros Hp. unfold _build_doc_from_pydantic_handler.
  apply (for_each_M_invariant
           (fun acc w0 => settled (self, w) (acc.1, w0))
           (SUPPORTED_METHODS handler) (pydantic_doc_from_method handler));
    [|by apply settled_refl].
  intros [s out] method w0 [s1 out1] w1 _ Hs Hstep. simpl in *.
  unfold pydantic_doc_from_method in Hstep.
  apply M_bind_Ok in Hstep as (f & w2 & Hf & Hstep).
  unfold lift in Hf. injection Hf as _ <-.
  destruct (method_swagger_info f) as [info|].
  - apply M_bind_Ok in Hstep as ([s2 doc] & w3 & Hbuild & Hret).
    unfold mret, M_ret in Hret. simplify_eq.
    apply (settled_trans _ (s, w0)); [done|].
    apply (build_pydantic_docs_settled _ _ _ _ _ _ _ _ _ _ (proj1 Hs) Hbuild).
  - unfold mret, M_ret in Hstep. by simplify_eq.
Qed.

Lemma add_route_operations_cache route docs : forall paths w paths' w',
  add_route_operations route docs paths w = (Ok paths', w') ->
  schema_cache w' = schema_cache w.
Proof.
  unfold add_route_operations.
  induction docs as [|doc docs IH]; intros paths w paths' w' Hrun.
  - simpl in Hrun. unfold mret, M_ret in Hrun. by simplify_eq.
  - simpl in Hrun. apply M_bind_Ok in Hrun as (paths1 & w1 & Hstep & Hrun).
    rewrite (IH _ _ _ _ Hrun). rewrite add_route_operation_run in Hstep.
    destruct (path_of route doc.1) as [[p|]|e]; by simplify_eq.
Qed.

Lemma extract_route_pydantic_settled self route w self' w' :
  popped self w ->
  extract_route_pydantic self route w = (Ok self', w') ->
  settled (self, w) (self', w').
Proof.
  intros Hp. unfold extract_route_pydantic.
  intros ([self1 docs] & w1 & Hdocs & Hrun)%M_bind_Ok.
  apply M_bind_Ok in Hrun as (paths1 & w2 & Hops & Hret).
  unfold mret, M_ret in Hret. simplify_eq.
  apply (build_doc_from_pydantic_handler_settled _ _ _ _ _ _ Hp) in Hdocs
    as (Hp1 & Hs & Hc).
  apply add_route_operations_cache in Hops.
  split; [|split]; simpl in *.
  - intros name id He. rewrite Hops. exact (Hp1 name id He).
  - done.
  - intros id s Hcs Hd. rewrite Hops. exact (Hc id s Hcs Hd).
Qed.

(** A turn of either loop that ends normally has read a route of the
    entry. *)
Lemma extract_entry_pydantic_Ok re_compile self entry w self' w' :
  extract_entry_pydantic re_compile self entry w = (Ok self', w') ->
  exists route,
    url_star re_compile entry = Ok route
    /\ extract_route_pydantic self route w = (Ok self', w').
Proof.
  unfold extract_entry_pydantic, mbind, M_bind, lift.
  destruct (url_star re_compile entry) as [route|e]; [eauto | done].
Qed.

Lemma extract_entry_paths_Ok safe_load paths entry w paths' w' :
  extract_entry_paths safe_load paths entry w = (Ok paths', w') ->
  exists route,
    entry = Spec route
    /\ extract_route_paths safe_load paths route w = (Ok paths', w').
Proof.
  unfold extract_entry_paths, mbind, M_bind, lift.
  destruct entry as [pattern handler|route]; [done | eauto].
Qed.

Lemma extract_paths_pydantic_settled re_compile routes self w self' w' :
  popped self w ->
  extract_paths_pydantic re_compile self routes w = (Ok self', w') ->
  settled (self, w) (self', w').
Proof.
  intros Hp. unfold extract_paths_pydantic.
  apply (for_each_M_invariant (fun s w0 => settled (self, w) (s, w0))
           routes (extract_entry_pydantic re_compile)); [|by apply settled_refl].
  intros s entry w0 s1 w1 _ Hs (route & _ & Hstep)%extract_entry_pydantic_Ok.
  apply (settled_trans _ (s, w0)); [done|].
  apply (extract_route_pydantic_settled _ _ _ _ _ (proj1 Hs) Hstep).
Qed.

Lemma for_each_M_app {A S} (xs ys : list A) (body : S -> A -> M S) : forall s w,
  for_each (xs ++ ys) body s w
  = (s' ← for_each xs body s; for_each ys body s') w.
Proof.
  induction xs as [|x xs IH]; intros s w; [done|].
  simpl. unfold mbind, M_bind.
  destruct (body s x w) as [[s1|e] w1]; [|done].
  rewrite IH. done.
Qed.

Lemma popped_new w : popped new_processor w.
Proof. intros name id He. simpl in He. by rewrite lookup_empty in He. Qed.

(** C5. Within one pass of the model-based processor a response entry
    registers, under a name that is still free, the schema of its model
    without the block of nested definitions (the block is popped from the very
    dictionary that was stored). Between any two turns every model dictionary
    the schemas mapping points to has lost that block ([popped]), and from
    such a state on a fragment shown under a name stays as it is: through a
    further block of nested definitions, through a further response entry,
    through a further method, and up to the document the pass returns. *)
Theorem first_write_wins (name : string) (frag : value) :
  (forall self rs status_code rm model w self' rs' w',
      rm_model rm = Some model ->
      components_schemas self !! model_name model = None ->
      add_response (self, rs) (status_code, rm) w = (Ok (self', rs'), w') ->
      exists model_spec w1,
        BaseModel_schema model w = (Ok model_spec, w1)
        /\ registered self' w' (model_name model)
           = Some (schema_value (without_definitions model_spec)))
  /\ (forall self definitions w,
      registered self w name = Some frag ->
      registered (_add_components_from_definitions self definitions) w name
      = Some frag)
  /\ (forall self rs item w self' rs' w',
        popped self w ->
        add_response (self, rs) item w = (Ok (self', rs'), w') ->
        popped self' w'
        /\ (registered self w name = Some frag ->
            registered self' w' name = Some frag))
  /\ (forall self ips rms request query tags w self' op w',
        popped self w ->
        build_pydantic_docs self ips rms request query tags w
          = (Ok (self', op), w') ->
        popped self' w'
        /\ (registered self w name = Some frag ->
            registered self' w' name = Some frag))
  /\ (forall safe_load re_compile routes1 routes2 args w0 self1 w1 doc w2,
        extract_paths_pydantic re_compile new_processor routes1 w0
          = (Ok self1, w1) ->
        registered self1 w1 name = Some frag ->
        generate_doc safe_load re_compile PydanticBuilder (routes1 ++ routes2)
          args w0 = (Ok doc, w2) ->
        document_schema doc name = Some frag).
Proof.
  split; [|split; [|split; [|split]]].
  - intros self rs status_code rm model w self' rs' w'.
    apply add_response_registers.
  - intros self definitions w. rewrite !registered_eq.
    destruct (components_schemas self !! name) as [e|] eqn:He; [|done].
    by rewrite (add_components_kept definitions self name e He).
  - intros self rs item w self' rs' w' Hp Hstep.
    pose proof (add_response_settled _ _ _ _ _ _ _ Hp Hstep) as Hs.
    split; [apply Hs|]. by apply settled_registered.
  - intros self ips rms request query tags w self' op w' Hp Hbuild.
    pose proof (build_pydantic_docs_settled _ _ _ _ _ _ _ _ _ _ Hp Hbuild) as Hs.
    split; [apply Hs|]. by apply settled_registered.
  - intros safe_load re_compile routes1 routes2 args w0 self1 w1 doc w2
      Hfirst Hreg Hdoc.
    simpl in Hdoc.
    apply M_bind_Ok in Hdoc as (self2 & w3 & Hpass & Hdoc).
    apply M_bind_Ok in Hdoc as (components & w4 & Hread & Hret).
    unfold mret, M_ret in Hret. unfold read_components in Hread.
    simplify_eq. simpl.
    unfold extract_paths_pydantic in Hpass. rewrite for_each_M_app in Hpass.
    apply M_bind_Ok in Hpass as (self1' & w1' & Hfirst' & Hrest).
    unfold extract_paths_pydantic in Hfirst. rewrite Hfirst in Hfirst'.
    simplify_eq.
    pose proof (extract_paths_pydantic_settled _ _ _ _ _ _ (popped_new w0) Hfirst)
      as (Hp1 & _).
    pose proof (extract_paths_pydantic_settled _ _ _ _ _ _ Hp1 Hrest) as Hs.
    by apply (settled_registered self1' w1').
Qed.

Lemma first_write_wins_witness :
  exists doc w',
    generate_doc no_yaml sample_re_compile PydanticBuilder
      [first_items_route; second_items_route] notes_args empty_world
    = (Ok doc, w')
    /\ document_schema doc "Item" = Some (schema_value (model_schema item_model)).
Proof.
  destruct (generate_doc no_yaml sample_re_compile PydanticBuilder
              [first_items_route; second_items_route] notes_args empty_world)
    as [[doc|e] w'] eqn:Hrun.
  2: { exfalso. vm_compute in Hrun. discriminate Hrun. }
  exists doc, w'. split; [reflexivity|].
  destruct (extract_paths_pydantic sample_re_compile new_processor
              [first_items_route] empty_world)
    as [[self1|e] w1] eqn:Hfirst.
  2: { exfalso. vm_compute in Hfirst. discriminate Hfirst. }
  refine (proj2 (proj2 (proj2 (proj2
            (first_write_wins "Item" (schema_value (model_schema item_model))))))
            no_yaml sample_re_compile [first_items_route] [second_items_route]
            notes_args empty_world self1 w1 doc w' Hfirst _ Hrun).
  vm_compute in Hfirst. injection Hfirst as <- <-. vm_compute. reflexivity.
Defined.

(** ** When generation raises nothing *)

Lemma handler_defined_getattr handler method :
  handler_defined handler = true -> method ∈ SUPPORTED_METHODS handler ->
  exists f, getattr handler (Py.lower method) = Ok f.
Proof.
  unfold handler_defined. rewrite forallb_forall. intros Hall Hin.
  specialize (Hall method). rewrite <- list_elem_of_In in Hall.
  specialize (Hall Hin). destruct (getattr handler (Py.lower method)); eauto.
  done.
Qed.

Lemma supported_attrs_elem handler method f :
  method ∈ SUPPORTED_METHODS handler ->
  getattr handler (Py.lower method) = Ok f ->
  f ∈ supported_attrs handler.
Proof.
  intros Hin Hf. unfold supported_attrs. apply list_elem_of_omap.
  exists method. split; [done|]. by rewrite Hf.
Qed.

Lemma forallb_elem {A} (p : A -> bool) (l : list A) x :
  forallb p l = true -> x ∈ l -> p x = true.
Proof.
  rewrite forallb_forall. intros Hall Hin. by apply Hall, list_elem_of_In.
Qed.

(** The block of a method loads when the loader raises nothing but the YAML
    error on it. *)
Lemma method_docs_total safe_load f :
  block_loads safe_load f = true ->
  exists op, method_docs safe_load f = Ok op.
Proof.
  unfold block_loads, method_docs, _try_extract_doc, build_swagger_docs,
    loader_text.
  destruct (method_doc f) as [doc|]; [|eauto].
  destruct (Py.contains "---" doc); [|eauto].
  destruct (safe_load _) as [[]| |e]; simpl; eauto. done.
Qed.

Lemma build_doc_from_func_doc_total safe_load handler :
  handler_defined handler = true ->
  forallb (block_loads safe_load) (supported_attrs handler) = true ->
  exists docs, _build_doc_from_func_doc safe_load handler = Ok docs.
Proof.
  intros Hdef Hload. unfold _build_doc_from_func_doc.
  apply for_each_result_total. intros out method Hin.
  rewrite doc_from_method_eq.
  destruct (handler_defined_getattr _ _ Hdef Hin) as [f Hf]. rewrite Hf. simpl.
  destruct (method_docs_total safe_load f) as [op ->]; [|simpl; eauto].
  apply (forallb_elem _ _ _ Hload).
  by apply (supported_attrs_elem handler method).
Qed.





(** *** The schemas of the query models *)













Lemma model_routes_elem re_compile routes entry route :
  entry ∈ routes -> url_star re_compile entry = Ok route ->
  route ∈ model_routes re_compile routes.
Proof.
  intros Hin Hroute. unfold model_routes. apply list_elem_of_omap.
  exists entry. split; [done|]. by rewrite Hroute.
Qed.


(** ** What the builders can raise *)






















(** ** The entry point *)

Lemma doc_builders_lookup S2 O3 P v :
  alist_get v (doc_builders S2 O3 P) =
    if decide (v = P) then Some PydanticBuilder
    else if decide (v = O3) then Some OpenApiDocBuilder
    else if decide (v = S2) then Some Swagger2DocBuilder
    else None.
Proof.
  unfold doc_builders. cbn [fold_left builder_schema].
  rewrite !alist_get_set. done.
Qed.

Lemma startswith_app p r : Py.startswith p (p +:+ r) = true.
Proof.
  induction p as [|c p IH]; [done|]. simpl. by rewrite ascii_eqb_refl, IH.
Qed.









(** * Further properties of the builders *)

(** ** Routes without groups *)

Lemma ascii_eqb_sym a b : Py.ascii_eqb a b = Py.ascii_eqb b a.
Proof.
  destruct (Py.ascii_eqb a b) eqn:Hab.
  - apply ascii_eqb_eq in Hab as ->. by rewrite ascii_eqb_refl.
  - destruct (Py.ascii_eqb b a) eqn:Hba; [|done].
    apply ascii_eqb_eq in Hba as ->. by rewrite ascii_eqb_refl in Hab.
Qed.

Lemma contains_char_cons a c r :
  Py.contains (String a EmptyString) (String c r)
  = Py.ascii_eqb a c || Py.contains (String a EmptyString) r.
Proof. cbn [Py.contains Py.startswith]. by rewrite andb_true_r. Qed.

Lemma contains_char_app a s1 s2 :
  Py.contains (String a EmptyString) (s1 +:+ s2)
  = Py.contains (String a EmptyString) s1 || Py.contains (String a EmptyString) s2.
Proof.
  induction s1 as [|c s1 IH].
  - change (EmptyString +:+ s2) with s2. by destruct s2.
  - change (String c s1 +:+ s2) with (String c (s1 +:+ s2)).
    by rewrite !contains_char_cons, IH, orb_assoc.
Qed.

Lemma findall_from_no_paren fuel : forall s,
  Py.contains "(" s = false -> Py.findall_from fuel s = [].
Proof.
  induction fuel as [|fuel IH]; intros s Hs; [done|].
  destruct s as [|c r]; [done|]. rewrite contains_char_cons in Hs.
  apply orb_false_iff in Hs as [Hc Hr]. cbn [Py.findall_from].
  rewrite ascii_eqb_sym, Hc. by apply IH.
Qed.

(** X1. A raw pattern without an opening parenthesis, registered with no
    group, comes back as its own path: the end anchor tornado appends is the
    character the formatter strips (a pattern that ends in the anchor
    already loses it). The handler is not consulted and nothing is warned. *)
Theorem plain_route_path (raw : string) (handler : Handler) (method : string)
    (w : World) :
  Py.contains "(" raw = false ->
  _format_handler_path (spec_of raw 0 handler) method w
  = (Ok (Some (if Py.endswith "$" raw then Py.drop_last raw else raw)), w).
Proof.
  intros Hraw.
  assert (Hpattern : Py.contains "(" (regex_pattern (spec_of raw 0 handler))
                     = false).
  { simpl. unfold anchored. destruct (Py.endswith "$" raw); [done|].
    by rewrite contains_char_app, Hraw. }
  rewrite (format_handler_path_match _ _ _ []); [| done |].
  - unfold Py.findall_brackets. rewrite findall_from_no_paren by done.
    simpl. unfold anchored. destruct (Py.endswith "$" raw); [done|].
    by rewrite drop_last_app.
  - unfold Py.findall_brackets. by rewrite findall_from_no_paren.
Qed.

Lemma plain_route_path_witness :
  _format_handler_path (spec_of "/status" 0 notes_handler) "patch" empty_world
  = (Ok (Some "/status"), empty_world).
Proof.
  exact (plain_route_path "/status" notes_handler "patch" empty_world eq_refl).
Defined.

(** X2. What [_format_handler_path] can do. It raises only when the route
    has groups and the handler lacks the method, and then changes nothing;
    otherwise it returns no path and adds one warning when the bracket count
    differs from the group count, and returns a path and changes nothing when
    the counts agree. *)
Theorem formatter_outcomes (route : Route) (method : string) (w : World) :
  (regex_groups route = 0 \/ (exists f, getattr (target route) (Py.lower method) = Ok f) ->
   if decide (length (Py.findall_brackets (regex_pattern route)) = regex_groups route)
   then exists p, _format_handler_path route method w = (Ok (Some p), w)
   else _format_handler_path route method w = (Ok None, add_warning route w))
  /\ (regex_groups route <> 0 ->
      alist_get (Py.lower method) (handler_attrs (target route)) = None ->
      _format_handler_path route method w
      = (Raise (AttributeError (Py.lower method)), w)).
Proof.
  split.
  - intros Hok.
    assert (Hnames : exists names,
               _extract_parameters_names (target route) (regex_groups route)
                 method = Ok names).
    { destruct Hok as [H0|[f Hf]].
      - rewrite extract_parameters_names_eq, H0. eauto.
      - by apply (extract_parameters_names_total _ _ _ f). }
    destruct Hnames as [names Hnames].
    pose proof (extract_parameters_names_length _ _ _ _ Hnames) as Hlen.
    case_decide as Hcount.
    + eexists. apply (format_handler_path_match _ _ _ names Hnames). congruence.
    + apply (format_handler_path_mismatch _ _ _ names Hnames). congruence.
  - intros Hgroups Hattr. unfold _format_handler_path.
    unfold mbind, M_bind, lift. rewrite extract_parameters_names_eq.
    destruct (regex_groups route); [done|].
    unfold getattr. by rewrite Hattr.
Qed.

Lemma formatter_outcomes_witness :
  _format_handler_path (spec_of "/notes/(.*)" 1 notes_handler) "PUT" empty_world
  = (Raise (AttributeError "put"), empty_world).
Proof.
  apply (proj2 (formatter_outcomes (spec_of "/notes/(.*)" 1 notes_handler) "PUT"
                  empty_world)).
  - discriminate.
  - reflexivity.
Defined.

(** ** The text given to the loader and the operation that comes back *)

Lemma plain_lines_app a b :
  plain_lines (a +:+ b) = plain_lines a && plain_lines b.
Proof.
  induction a as [|c a IH]; [done|].
  change (String c a +:+ b) with (String c (a +:+ b)).
  cbn [plain_lines]. by rewrite IH, !andb_assoc.
Qed.

Lemma no_linebreak_plain s :
  no_linebreak s = true -> plain_lines (Py.replace_char Py.TAB "    " s) = true.
Proof.
  induction s as [|c s IH]; [done|]. cbn [no_linebreak Py.replace_char].
  intros [Hc Hs]%andb_true_iff.
  destruct (Py.ascii_eqb c Py.TAB) eqn:Htab.
  - rewrite plain_lines_app, (IH Hs). done.
  - cbn [plain_lines]. by rewrite Htab, Hc, (IH Hs).
Qed.

Lemma string_app_assoc (a b c : string) : (a +:+ b) +:+ c = a +:+ (b +:+ c).
Proof.
  induction a as [|d a IH]; [done|].
  change (String d a +:+ b) with (String d (a +:+ b)).
  change (String d (a +:+ b) +:+ c) with (String d ((a +:+ b) +:+ c)).
  by rewrite IH.
Qed.

Lemma replace_char_app c new a b :
  Py.replace_char c new (a +:+ b)
  = Py.replace_char c new a +:+ Py.replace_char c new b.
Proof.
  induction a as [|d a IH]; [done|].
  change (String d a +:+ b) with (String d (a +:+ b)).
  cbn [Py.replace_char]. rewrite IH. destruct (Py.ascii_eqb d c); [|done].
  by rewrite string_app_assoc.
Qed.

Lemma join_lines_plain lines :
  Forall (fun l => no_linebreak l = true) lines ->
  plain_lines (Py.replace_char Py.TAB "    " (Py.join Py.NL lines)) = true.
Proof.
  induction 1 as [|l lines Hl Hlines IH]; [done|].
  cbn [Py.join]. destruct lines as [|l' lines]; [by apply no_linebreak_plain|].
  rewrite !replace_char_app, !plain_lines_app, IH.
  by rewrite (no_linebreak_plain l Hl).
Qed.

(** X3. Whatever the docstring, the text handed to [yaml.safe_load] holds no
    tab and no line boundary other than the newline: carriage returns, form
    feeds and the like end a line of the docstring and are gone. *)
Theorem loader_text_plain (endpoint_doc : string) :
  plain_lines (loader_text endpoint_doc) = true.
Proof.
  unfold loader_text, _extract_swagger_definition. apply join_lines_plain.
  pose proof (splitlines_no_linebreak endpoint_doc) as Hlines.
  assert (Hafter : forall lines after,
             Forall (fun l => no_linebreak l = true) lines ->
             after_separator lines = Some after ->
             Forall (fun l => no_linebreak l = true) after).
  { induction lines as [|l lines IH]; intros after Hall; [done|].
    apply Forall_cons in Hall as [_ Hall]. simpl.
    destruct (Py.contains SWAGGER_DOC_SEPARATOR l); [by intros [= <-]|].
    by apply IH. }
  destruct (after_separator (Py.splitlines endpoint_doc)) as [after|] eqn:Hsep;
    simpl; [by apply (Hafter _ _ Hlines) | done].
Qed.

(** ** The operations of a handler, exactly *)

Lemma for_each_result_steps {A S} (xs : list A) (body : S -> A -> result S) :
  forall s s', for_each xs body s = Ok s' ->
    forall x, x ∈ xs -> exists s0 s1, body s0 x = Ok s1.
Proof.
  induction xs as [|x xs IH]; intros s s' Hrun y Hy.
  - by apply elem_of_nil in Hy.
  - simpl in Hrun. apply result_bind_Ok in Hrun as (s1 & Hx & Hrun).
    apply elem_of_cons in Hy as [->|Hy]; [eauto | by apply (IH _ _ Hrun)].
Qed.

Lemma for_each_result_raise {A S} (xs : list A) (body : S -> A -> result S) :
  forall s e, for_each xs body s = Raise e ->
    exists x s0, x ∈ xs /\ body s0 x = Raise e.
Proof.
  induction xs as [|x xs IH]; intros s e Hrun; [done|].
  simpl in Hrun. destruct (body s x) as [s1|e1] eqn:Hx; simpl in Hrun.
  - destruct (IH _ _ Hrun) as (y & s0 & Hy & Hraise).
    exists y, s0. split; [by right | done].
  - simplify_eq. exists x, s. split; [by left | done].
Qed.

Lemma method_docs_loads safe_load f op :
  method_docs safe_load f = Ok op -> block_loads safe_load f = true.
Proof.
  unfold block_loads, method_docs, _try_extract_doc, build_swagger_docs,
    loader_text.
  destruct (method_doc f) as [doc|]; [|done].
  destruct (Py.contains "---" doc); [|done].
  by destruct (safe_load _) as [[]| |e].
Qed.

Lemma method_docs_raises safe_load f e :
  method_docs safe_load f = Raise e ->
  exists doc,
    method_doc f = Some doc
    /\ Py.contains "---" doc = true
    /\ safe_load (loader_text doc) = OtherError e.
Proof.
  unfold method_docs, _try_extract_doc, build_swagger_docs, loader_text.
  destruct (method_doc f) as [doc|]; [|done].
  destruct (Py.contains "---" doc) eqn:Hsep; [|done].
  destruct (safe_load _) as [[]| |e'] eqn:Hload; simpl; try done.
  intros [= <-]. by exists doc.
Qed.

(** X5. The operations [_build_doc_from_func_doc] gives for a handler. When
    it returns, every supported method is an attribute, the loader raised
    nothing but the YAML error on their blocks, and the operations are exactly
    those of the supported methods whose docstring holds the separator, each
    once, under the lower-cased method name. When it raises, the exception is
    the attribute error of a supported method the handler lacks, or the
    exception the loader raised on the block of a supported method. *)
Theorem handler_operations (safe_load : string -> YamlLoad) (handler : Handler) :
  match _build_doc_from_func_doc safe_load handler with
  | Ok docs =>
      handler_defined handler = true
      /\ forallb (block_loads safe_load) (supported_attrs handler) = true
      /\ NoDup (map fst docs)
      /\ forall k op,
           alist_get k docs = Some op <->
           k ∈ map Py.lower (SUPPORTED_METHODS handler)
           /\ exists f, getattr handler k = Ok f
                        /\ method_operation safe_load f = Some op
  | Raise e =>
      handler_defined handler
        && forallb (block_loads safe_load) (supported_attrs handler) = false
      /\ exists method,
           method ∈ SUPPORTED_METHODS handler
           /\ ((alist_get (Py.lower method) (handler_attrs handler) = None
                /\ e = AttributeError (Py.lower method))
               \/ exists f doc,
                    getattr handler (Py.lower method) = Ok f
                    /\ method_doc f = Some doc
                    /\ Py.contains "---" doc = true
                    /\ safe_load (loader_text doc) = OtherError e)
  end.
Proof.
  destruct (_build_doc_from_func_doc safe_load handler) as [docs|e] eqn:Hrun.
  - assert (Hdef : handler_defined handler = true).
    { unfold handler_defined. apply forallb_forall. intros method Hin.
      apply list_elem_of_In in Hin.
      destruct (for_each_result_steps _ _ _ _ Hrun method Hin)
        as (s0 & s1 & Hstep).
      rewrite doc_from_method_eq in Hstep.
      by destruct (getattr handler (Py.lower method)). }
    split; [done|]. split; [|split].
    + apply forallb_forall. intros f Hf. apply list_elem_of_In in Hf.
      apply list_elem_of_omap in Hf as (method & Hin & Hf).
      destruct (for_each_result_steps _ _ _ _ Hrun method Hin)
        as (s0 & s1 & Hstep).
      apply doc_from_method_Ok in Hstep as (f' & Hf' & Hdocs & _).
      rewrite Hf' in Hf. injection Hf as <-.
      by apply (method_docs_loads _ _ _ Hdocs).
    + by apply (build_doc_from_func_doc_NoDup safe_load handler).
    + intros k op. rewrite (docs_loop_lookup _ _ _ _ _ k Hrun). cbn [alist_get].
      destruct (decide (k ∈ map Py.lower (SUPPORTED_METHODS handler)))
        as [Hin|Hnin].
      * destruct (getattr handler k) as [f|e] eqn:Hf.
        -- destruct (method_operation safe_load f) as [op'|] eqn:Hop.
           ++ split; [intros [= <-]; eauto|].
              intros (_ & f' & [= <-] & Hop'). congruence.
           ++ split; [done|]. intros (_ & f' & [= <-] & Hop'). congruence.
        -- split; [done|]. by intros (_ & f' & Hf' & _).
      * split; [done|]. by intros [Hin _].
  - split.
    + apply not_true_is_false. intros [Hdef Hloads]%andb_true_iff.
      destruct (build_doc_from_func_doc_total _ _ Hdef Hloads) as [docs Hdocs].
      congruence.
    + unfold _build_doc_from_func_doc in Hrun.
      destruct (for_each_result_raise _ _ _ _ Hrun)
        as (method & s0 & Hin & Hstep).
      exists method. split; [done|].
      rewrite doc_from_method_eq in Hstep. unfold getattr in Hstep |- *.
      destruct (alist_get (Py.lower method) (handler_attrs handler)) as [f|]
        eqn:Hattr; simpl in Hstep.
      * right. destruct (method_docs safe_load f) as [op|e'] eqn:Hdocs;
          simpl in Hstep; [done|]. injection Hstep as <-.
        destruct (method_docs_raises _ _ _ Hdocs) as (doc & ? & ? & ?).
        by exists f, doc.
      * left. by injection Hstep as <-.
Qed.

(** ** The docstring dialects and the state *)

Lemma getattr_reinformed g handler name :
  getattr (reinformed g handler) name =
    match getattr handler name with
    | Ok f => Ok (reinformed_method g name f)
    | Raise e => Raise e
    end.
Proof.
  unfold getattr, reinformed. simpl.
  induction (handler_attrs handler) as [|[k f] attrs IH]; simpl; [done|].
  destruct (decide (name = k)) as [->|Hne]; [done|]. apply IH.
Qed.

Lemma for_each_result_ext {A S} (xs : list A) (body1 body2 : S -> A -> result S) :
  (forall s x, body1 s x = body2 s x) ->
  forall s, for_each xs body1 s = for_each xs body2 s.
Proof.
  intros Hext. induction xs as [|x xs IH]; intros s; [done|].
  simpl. rewrite Hext. destruct (body2 s x); simpl; [apply IH | done].
Qed.

Lemma extract_route_paths_reinformed safe_load g paths route w :
  extract_route_paths safe_load paths (reinformed_route g route) w
  = extract_route_paths safe_load paths route w.
Proof.
  unfold extract_route_paths. apply M_bind_ext.
  - unfold lift. f_equal. unfold _build_doc_from_func_doc. simpl.
    apply for_each_result_ext. intros out method.
    rewrite !doc_from_method_eq, getattr_reinformed.
    by destruct (getattr (target route) (Py.lower method)).
  - intros docs w1. unfold add_route_operations. apply for_each_M_ext.
    intros p doc w2. unfold add_route_operation. apply M_bind_ext; [|done].
    unfold _format_handler_path. simpl. apply M_bind_ext; [|done].
    unfold lift. f_equal. rewrite !extract_parameters_names_eq.
    destruct (regex_groups route); [done|]. rewrite getattr_reinformed.
    by destruct (getattr (target route) (Py.lower doc.1)).
Qed.

Lemma extract_paths_reinformed safe_load g routes w :
  _extract_paths safe_load (map (reinformed_entry g) routes) w
  = _extract_paths safe_load routes w.
Proof.
  unfold _extract_paths. rewrite for_each_M_map. apply for_each_M_ext.
  intros paths [pattern handler|route] w0; [done|].
  unfold extract_entry_paths, mbind, M_bind, lift. simpl.
  apply extract_route_paths_reinformed.
Qed.

(** X6. The two docstring dialects never consult the Swagger Method Info:
    with any other info attached to the methods, or none, they give the same
    document and the same state. *)
Theorem docstring_dialects_ignore_info (safe_load : string -> YamlLoad)
    (re_compile : string -> Compiled)
    (g : string -> option SwaggerMethodInfo -> option SwaggerMethodInfo)
    (routes : list RouteEntry) (args : DocArgs) (w : World) :
  generate_doc safe_load re_compile Swagger2DocBuilder
    (map (reinformed_entry g) routes) args w
  = generate_doc safe_load re_compile Swagger2DocBuilder routes args w
  /\ generate_doc safe_load re_compile OpenApiDocBuilder
       (map (reinformed_entry g) routes) args w
     = generate_doc safe_load re_compile OpenApiDocBuilder routes args w.
Proof.
  split; simpl; (apply M_bind_ext; [apply extract_paths_reinformed | done]).
Qed.

(** X7. The two docstring dialects differ in the shape of the document
    only: on one route list they raise the same error, or they return
    documents with the same info block and the same paths, and they leave the
    same state. *)
Theorem docstring_dialects_agree (safe_load : string -> YamlLoad)
    (re_compile : string -> Compiled)
    (routes : list RouteEntry) (args : DocArgs) (w : World) :
  (generate_doc safe_load re_compile Swagger2DocBuilder routes args w).2
  = (generate_doc safe_load re_compile OpenApiDocBuilder routes args w).2
  /\ match (generate_doc safe_load re_compile Swagger2DocBuilder routes args w).1,
           (generate_doc safe_load re_compile OpenApiDocBuilder routes args w).1 with
     | Ok legacy, Ok reference =>
         doc_info legacy = doc_info reference
         /\ doc_paths legacy = doc_paths reference
     | Raise e1, Raise e2 => e1 = e2
     | _, _ => False
     end.
Proof.
  simpl. unfold mbind, M_bind.
  by destruct (_extract_paths safe_load routes w) as [[paths|e] w'].
Qed.

Lemma append_warnings_nil w : append_warnings [] w = w.
Proof. destruct w. unfold append_warnings. simpl. by rewrite app_nil_r. Qed.

Lemma append_warnings_app ws1 ws2 w :
  append_warnings ws2 (append_warnings ws1 w) = append_warnings (ws1 ++ ws2) w.
Proof. unfold append_warnings. simpl. by rewrite app_assoc. Qed.

Lemma oblivious_ret {A} P (a : A) : oblivious P (mret a).
Proof.
  exists (Ok a), []. split; [constructor|]. intros w.
  by rewrite append_warnings_nil.
Qed.

Lemma oblivious_lift {A} P (r : result A) : oblivious P (lift r).
Proof.
  exists r, []. split; [constructor|]. intros w. by rewrite append_warnings_nil.
Qed.

Lemma oblivious_bind {A B} P (m : M A) (k : A -> M B) :
  oblivious P m -> (forall a, oblivious P (k a)) -> oblivious P (x ← m; k x).
Proof.
  intros (r & ws & Hws & Hm) Hk. destruct r as [a|e].
  - destruct (Hk a) as (r' & ws' & Hws' & Hka).
    exists r', (ws ++ ws'). split; [by apply Forall_app|]. intros w.
    unfold mbind, M_bind. by rewrite Hm, Hka, append_warnings_app.
  - exists (Raise e), ws. split; [done|]. intros w.
    unfold mbind, M_bind. by rewrite Hm.
Qed.

Lemma oblivious_for_each {A S} P (xs : list A) (body : S -> A -> M S) :
  (forall s x, x ∈ xs -> oblivious P (body s x)) ->
  forall s, oblivious P (for_each xs body s).
Proof.
  induction xs as [|x xs IH]; intros Hbody s; simpl.
  - apply oblivious_ret.
  - apply oblivious_bind; [apply Hbody; by left|].
    intros s1. apply IH. intros s2 y Hy. apply Hbody. by right.
Qed.

Lemma oblivious_add_route_operations routes route docs paths :
  route ∈ routes ->
  oblivious (mismatch_warning routes) (add_route_operations route docs paths).
Proof.
  intros Hin. unfold add_route_operations. apply oblivious_for_each.
  intros p doc _.
  destruct (path_of route doc.1) as [[path|]|e] eqn:Hpath.
  - exists (Ok (add_operation p path doc.1 doc.2)), [].
    split; [constructor|]. intros w.
    by rewrite add_route_operation_run, Hpath, append_warnings_nil.
  - exists (Ok p), [mkWarning illegal_route (regex_pattern route)]. split.
    + constructor; [|constructor]. exists route. split; [done|]. split; [|done].
      unfold path_of in Hpath.
      destruct (_extract_parameters_names _ _ _) as [names|] eqn:Hnames; [|done].
      simpl in Hpath. rewrite <- (extract_parameters_names_length _ _ _ _ Hnames).
      destruct (Nat.eqb_spec (length (Py.findall_brackets (regex_pattern route)))
                  (length names)); [done|done].
    + intros w. by rewrite add_route_operation_run, Hpath.
  - exists (Raise e), []. split; [constructor|]. intros w.
    by rewrite add_route_operation_run, Hpath, append_warnings_nil.
Qed.

Lemma oblivious_extract_route_paths safe_load routes paths route :
  route ∈ routes ->
  oblivious (mismatch_warning routes) (extract_route_paths safe_load paths route).
Proof.
  intros Hin. unfold extract_route_paths.
  apply oblivious_bind; [apply oblivious_lift|].
  intros docs. by apply oblivious_add_route_operations.
Qed.

Lemma docstring_routes_elem route routes :
  Spec route ∈ routes -> route ∈ docstring_routes routes.
Proof.
  intros Hin. unfold docstring_routes. apply list_elem_of_omap.
  by exists (Spec route).
Qed.

Lemma oblivious_extract_paths safe_load routes :
  oblivious (mismatch_warning (docstring_routes routes))
    (_extract_paths safe_load routes).
Proof.
  unfold _extract_paths. apply oblivious_for_each.
  intros paths [pattern handler|route] Hin.
  - exists (Raise (AttributeError "target")), []. split; [constructor|].
    intros w. by rewrite append_warnings_nil.
  - destruct (oblivious_extract_route_paths safe_load _ paths route
                (docstring_routes_elem _ _ Hin)) as (r & ws & Hws & Hrun).
    exists r, ws. split; [done|]. intros w. by rewrite <- Hrun.
Qed.

(** X8. Under the two docstring dialects generation reads nothing of the
    state: started in any state it gives one and the same result, it leaves
    the schema dictionaries alone, and it only adds warnings, each of them the
    warning about a route of the list whose bracket count differs from its
    group count. Generating again gives the same document. *)
Theorem docstring_generation_stateless (safe_load : string -> YamlLoad)
    (re_compile : string -> Compiled)
    (routes : list RouteEntry) (args : DocArgs) :
  oblivious (mismatch_warning (docstring_routes routes))
    (generate_doc safe_load re_compile Swagger2DocBuilder routes args)
  /\ oblivious (mismatch_warning (docstring_routes routes))
       (generate_doc safe_load re_compile OpenApiDocBuilder routes args).
Proof.
  split; simpl;
    (apply oblivious_bind; [apply oblivious_extract_paths|];
     intros paths; apply oblivious_ret).
Qed.

(** ** The operations of the model-based processor *)

Lemma pydantic_docs_loop_keys handler methods : forall self acc w self' out w' k,
  for_each methods (pydantic_doc_from_method handler) (self, acc) w
    = (Ok (self', out), w') ->
  is_Some (alist_get k out) <->
  is_Some (alist_get k acc)
  \/ (k ∈ map Py.lower methods
      /\ exists f info,
           getattr handler k = Ok f /\ method_swagger_info f = Some info).
Proof.
  induction methods as [|m methods IH]; intros self acc w self' out w' k Hrun.
  - simpl in Hrun. unfold mret, M_ret in Hrun. simplify_eq.
    split; [by left|]. intros [?|[Hin _]]; [done|]. by apply elem_of_nil in Hin.
  - simpl in Hrun. apply M_bind_Ok in Hrun as ([self1 acc1] & w1 & Hstep & Hrun).
    rewrite (IH _ _ _ _ _ _ k Hrun). clear IH Hrun.
    unfold pydantic_doc_from_method in Hstep.
    apply M_bind_Ok in Hstep as (f & w2 & Hf & Hstep). unfold lift in Hf.
    destruct (getattr handler (Py.lower m)) as [f'|] eqn:Hget; [|done].
    simplify_eq. cbn [map]. rewrite (elem_of_cons _ k).
    destruct (method_swagger_info f) as [info|] eqn:Hinfo.
    + apply M_bind_Ok in Hstep as ([self2 doc] & w3 & _ & Hret).
      unfold mret, M_ret in Hret. simplify_eq. rewrite alist_get_set.
      destruct (decide (k = Py.lower m)) as [->|Hne].
      * split; [|by intros; left; eexists]. intros _. right.
        split; [by left | eauto].
      * split.
        -- intros [?|[Hin Hk]]; [by left|]. right. split; [by right | done].
        -- intros [?|[[?|Hin] Hk]]; [by left | done |].
           right. by split.
    + unfold mret, M_ret in Hstep. simplify_eq. split.
      * intros [?|[Hin Hk]]; [by left|]. right. split; [by right | done].
      * intros [?|[[->|Hin] Hk]]; [by left | | by right].
        destruct Hk as (f' & info & Hf' & Hinfo'). congruence.
Qed.

(** X9. The operations [_build_doc_from_pydantic_handler] returns for a
    handler are those of the supported methods that carry Swagger Method Info,
    under the lower-cased method name: every such method has one, and no
    other key has. *)
Theorem info_gives_operation (self : PydanticRoutesProcessor)
    (handler : Handler) (w : World) (self' : PydanticRoutesProcessor)
    (docs : list (string * value)) (w' : World) :
  _build_doc_from_pydantic_handler self handler w = (Ok (self', docs), w') ->
  forall k,
    is_Some (alist_get k docs) <->
    k ∈ map Py.lower (SUPPORTED_METHODS handler)
    /\ exists f info,
         getattr handler k = Ok f /\ method_swagger_info f = Some info.
Proof.
  intros Hrun k. unfold _build_doc_from_pydantic_handler in Hrun.
  rewrite (pydantic_docs_loop_keys _ _ _ _ _ _ _ _ k Hrun). cbn [alist_get].
  split; [|by right]. intros [[? ?]|?]; done.
Qed.

Lemma info_gives_operation_witness :
  exists self' docs w',
    _build_doc_from_pydantic_handler new_processor decorated_handler empty_world
      = (Ok (self', docs), w')
    /\ is_Some (alist_get "post" docs) /\ alist_get "get" docs = None.
Proof.
  destruct (_build_doc_from_pydantic_handler new_processor decorated_handler
              empty_world) as [[[self' docs]|e] w'] eqn:Hrun.
  2: { exfalso. vm_compute in Hrun. discriminate Hrun. }
  exists self', docs, w'. split; [reflexivity|]. split.
  - apply (info_gives_operation _ _ _ _ _ _ Hrun "post"). split.
    + apply elem_of_cons. right. apply elem_of_cons. left. reflexivity.
    + eexists _, _. split; reflexivity.
  - destruct (alist_get "get" docs) as [op|] eqn:Hget; [|reflexivity].
    destruct (proj1 (info_gives_operation _ _ _ _ _ _ Hrun "get"))
      as (_ & f & info & Hf & Hinfo); [by eexists|].
    injection Hf as <-. discriminate Hinfo.
Defined.

Lemma add_components_lookup definitions : forall self name,
  components_schemas (_add_components_from_definitions self definitions) !! name
  = match components_schemas self !! name with
    | Some e => Some e
    | None => DefinitionSpec <$> alist_get name definitions
    end.
Proof.
  unfold _add_components_from_definitions.
  induction definitions as [|[k v] defs IH]; intros self name; simpl.
  - by destruct (components_schemas self !! name).
  - rewrite IH. clear IH.
    destruct (components_schemas self !! k) as [e0|] eqn:Hk.
    + destruct (components_schemas self !! name) as [e|] eqn:Hname; [done|].
      destruct (decide (name = k)) as [->|Hne]; [congruence | done].
    + simpl. rewrite lookup_insert.
      destruct (decide (name = k)) as [->|Hne].
      * rewrite decide_True by done. by rewrite Hk.
      * rewrite decide_False by congruence. done.
Qed.

(** X10. [_add_components_from_definitions] adds a definition exactly under
    the names that are still free, and among several definitions of one name
    the first: a name already present keeps its entry. It leaves the paths
    alone, and running it again with the same definitions changes nothing. *)
Theorem add_components_first_wins (self : PydanticRoutesProcessor)
    (definitions : list (string * value)) :
  (forall name,
     components_schemas (_add_components_from_definitions self definitions) !! name
     = match components_schemas self !! name with
       | Some e => Some e
       | None => DefinitionSpec <$> alist_get name definitions
       end)
  /\ paths (_add_components_from_definitions self definitions) = paths self
  /\ _add_components_from_definitions
       (_add_components_from_definitions self definitions) definitions
     = _add_components_from_definitions self definitions.
Proof.
  split; [apply add_components_lookup|]. split; [apply add_components_paths|].
  set (once := _add_components_from_definitions self definitions).
  assert (Hschemas : components_schemas
                       (_add_components_from_definitions once definitions)
                     = components_schemas once).
  { apply map_eq. intros name. rewrite add_components_lookup.
    destruct (components_schemas once !! name) as [e|] eqn:Honce; [done|].
    subst once. rewrite add_components_lookup in Honce.
    destruct (components_schemas self !! name); [done|]. done. }
  pose proof (add_components_paths definitions once) as Hpaths.
  destruct (_add_components_from_definitions once definitions) as [p1 c1],
    once as [p2 c2].
  simpl in *. by subst.
Qed.

Lemma add_path_parameter_mapped acc ip :
  mapped ip = true ->
  add_path_parameter acc ip = Ok (acc ++ [path_parameter_doc ip]).
Proof.
  unfold mapped, add_path_parameter, path_parameter, path_parameter_doc.
  by destruct (PYTHON_TO_OPENAPI_MAPPER ip.2).
Qed.

Lemma path_parameters_run ips : forall acc,
  forallb mapped ips = true ->
  for_each ips add_path_parameter acc = Ok (acc ++ map path_parameter_doc ips).
Proof.
  induction ips as [|ip ips IH]; intros acc Hall; simpl.
  - by rewrite app_nil_r.
  - simpl in Hall. apply andb_true_iff in Hall as [Hip Hall].
    rewrite (add_path_parameter_mapped acc ip Hip). simpl.
    rewrite (IH _ Hall). by rewrite <- app_assoc.
Qed.

Lemma path_parameters_raise before ip after : forall acc,
  forallb mapped before = true ->
  PYTHON_TO_OPENAPI_MAPPER ip.2 = None ->
  for_each (before ++ ip :: after) add_path_parameter acc
  = Raise (KeyError (annotation_repr ip.2)).
Proof.
  induction before as [|b before IH]; intros acc Hall Hip; simpl.
  - assert (add_path_parameter acc ip
            = Raise (KeyError (annotation_repr ip.2))) as ->; [|done].
    unfold add_path_parameter, path_parameter. by rewrite Hip.
  - simpl in Hall. apply andb_true_iff in Hall as [Hb Hall].
    rewrite (add_path_parameter_mapped acc b Hb). simpl. by apply IH.
Qed.

(** X11. The parameters of an operation. When every annotation is mapped,
    the path parameters come first, in the order of the signature and each
    required, and the properties of the query model follow in the order of
    its schema: each is a query parameter under the name of the property,
    with the schema of the property, and its required flag is true exactly
    when the required list of the schema names it, and false for every
    property of a schema with no such list. A query model whose schema has
    no properties raises a key error. At the first annotation that is not
    mapped the call raises the key error of that annotation and has not
    touched the state. *)
Theorem input_and_query_parameters
    (input_parameters : list (string * Annotation)) (query : option Model)
    (w : World) :
  (forallb mapped input_parameters = true ->
   match query with
   | None =>
       _build_input_and_query_doc input_parameters None w
       = (Ok (map path_parameter_doc input_parameters), w)
   | Some model =>
       forall query_schema w1,
         BaseModel_schema model w = (Ok query_schema, w1) ->
         _build_input_and_query_doc input_parameters (Some model) w
         = match schema_properties query_schema with
           | Some properties =>
               (Ok (map path_parameter_doc input_parameters
                    ++ map (fun property =>
                              VDict
                                [(KStr "in", VStr "query");
                                 (KStr "required",
                                  VBool
                                    match schema_required query_schema with
                                    | Some required =>
                                        bool_decide (property.1 ∈ required)
                                    | None => false
                                    end);
                                 (KStr "name", VStr property.1);
                                 (KStr "schema", property.2)])
                         properties),
                w1)
           | None => (Raise (KeyError "properties"), w1)
           end
   end)
  /\ (forall before input_parameter after,
        input_parameters = before ++ input_parameter :: after ->
        forallb mapped before = true ->
        PYTHON_TO_OPENAPI_MAPPER input_parameter.2 = None ->
        _build_input_and_query_doc input_parameters query w
        = (Raise (KeyError (annotation_repr input_parameter.2)), w)).
Proof.
  split.
  - intros Hall. unfold _build_input_and_query_doc.
    destruct query as [model|].
    + intros query_schema w1 Hschema. unfold mbind at 1, M_bind, lift.
      rewrite (path_parameters_run _ [] Hall). simpl.
      unfold mbind, M_bind. rewrite Hschema.
      destruct (schema_properties query_schema) as [properties|]; [|done].
      unfold mret, M_ret. do 3 f_equal. apply map_ext. intros property.
      unfold query_parameter. by destruct (schema_required query_schema).
    + unfold mbind, M_bind, lift. by rewrite (path_parameters_run _ [] Hall).
  - intros before ip after -> Hall Hip. unfold _build_input_and_query_doc.
    unfold mbind, M_bind, lift. by rewrite (path_parameters_raise _ _ _ [] Hall Hip).
Qed.

Lemma input_and_query_parameters_witness :
  (_build_input_and_query_doc [("item_id", A_int)] (Some item_model)
     empty_world).1
  = Ok [VDict [(KStr "in", VStr "path"); (KStr "required", VBool true);
               (KStr "name", VStr "item_id");
               (KStr "schema",
                VDict [(KStr "type", VStr "integer");
                       (KStr "format", VStr "int32")])];
        VDict [(KStr "in", VStr "query"); (KStr "required", VBool true);
               (KStr "name", VStr "name");
               (KStr "schema", VDict [(KStr "type", VStr "string")])]]
  /\ _build_input_and_query_doc
       [("term_one", A_int); ("term_two", A_empty); ("term_three", A_other "Decimal")]
       (Some item_model) empty_world
     = (Raise (KeyError "<class 'inspect._empty'>"), empty_world).
Proof.
  split.
  - pose proof (proj1 (input_and_query_parameters [("item_id", A_int)]
                         (Some item_model) empty_world)
                  eq_refl _ _ eq_refl) as Hrun.
    rewrite Hrun. reflexivity.
  - apply (proj2 (input_and_query_parameters
                    [("term_one", A_int); ("term_two", A_empty);
                     ("term_three", A_other "Decimal")]
                    (Some item_model) empty_world)
             [("term_one", A_int)] ("term_two", A_empty)
             [("term_three", A_other "Decimal")]); reflexivity.
Defined.

(** X12. The blocks of an operation built from Swagger Method Info. It
    always has a responses block, even an empty one; parameters, request body
    and tags are present when there is something to put in them and absent
    otherwise, never empty. *)
Theorem operation_blocks (self : PydanticRoutesProcessor)
    (input_parameters : list (string * Annotation))
    (response_models : list (Z * ResponseModel)) (request query : option Model)
    (tags : option (list string)) (w : World)
    (self' : PydanticRoutesProcessor) (op : value) (w' : World) :
  build_pydantic_docs self input_parameters response_models request query tags w
    = (Ok (self', op), w') ->
  (exists responses, operation_field op "responses" = Some (VDict responses))
  /\ (exists parameters w1,
        _build_input_and_query_doc input_parameters query w = (Ok parameters, w1)
        /\ operation_field op "parameters"
           = match parameters with
             | [] => None
             | _ => Some (VList parameters)
             end)
  /\ (operation_field op "requestBody" = None <-> request = None)
  /\ operation_field op "tags"
     = match tags with
       | Some (t :: ts) => Some (VList (map VStr (t :: ts)))
       | _ => None
       end.
Proof.
  unfold build_pydantic_docs.
  intros (parameters & w1 & Hparams & Hrun)%M_bind_Ok.
  apply M_bind_Ok in Hrun as ([self1 result] & w2 & Hreq & Hrun).
  apply M_bind_Ok in Hrun as ([self2 responses] & w3 & _ & Hret).
  unfold mret, M_ret in Hret. simplify_eq.
  set (result0 := match parameters with
                  | [] => []
                  | _ => alist_set "parameters" (VList parameters) []
                  end) in *.
  assert (Hresult : (alist_get "requestBody" result = None <-> request = None)
                    /\ alist_get "parameters" result = alist_get "parameters" result0
                    /\ alist_get "tags" result = None).
  { unfold add_request_body in Hreq. destruct request as [request|].
    - apply M_bind_Ok in Hreq as (model_spec & w4 & _ & Hreq).
      apply M_bind_Ok in Hreq as (self3 & w5 & _ & Hret).
      unfold mret, M_ret in Hret. simplify_eq.
      rewrite alist_get_set_eq, !alist_get_set_ne by done.
      split; [done|]. split; [done|]. subst result0. by destruct parameters.
    - unfold mret, M_ret in Hreq. simplify_eq. by destruct parameters. }
  destruct Hresult as (Hbody & Hparameters & Htags).
  unfold operation_field, str_dict. rewrite !alist_get_str_dict.
  assert (Hshape : forall field,
             alist_get field
               match tags with
               | Some (t :: ts) =>
                   alist_set "tags" (VList (map VStr (t :: ts)))
                     (alist_set "responses" (VDict responses) result)
               | _ => alist_set "responses" (VDict responses) result
               end
             = if decide (field = "tags") then
                 match tags with
                 | Some (t :: ts) => Some (VList (map VStr (t :: ts)))
                 | _ => None
                 end
               else if decide (field = "responses") then Some (VDict responses)
               else alist_get field result).
  { intros field. destruct (decide (field = "tags")) as [->|Hne].
    - destruct tags as [[|t ts]|]; rewrite ?alist_get_set_eq;
        rewrite ?alist_get_set_ne by done; done.
    - destruct tags as [[|t ts]|]; rewrite ?(alist_get_set_ne field "tags") by done;
        by rewrite alist_get_set. }
  rewrite !Hshape. simpl. split; [by eexists|]. split; [|split; [done|done]].
  exists parameters, w1. split; [done|]. rewrite Hparameters. subst result0.
  by destruct parameters.
Qed.

Lemma operation_blocks_witness :
  exists self' op w',
    build_pydantic_docs new_processor [] [] None None (Some []) empty_world
      = (Ok (self', op), w')
    /\ operation_field op "responses" = Some (VDict [])
    /\ operation_field op "tags" = None.
Proof.
  destruct (build_pydantic_docs new_processor [] [] None None (Some [])
              empty_world) as [[[self' op]|e] w'] eqn:Hrun.
  2: { exfalso. vm_compute in Hrun. discriminate Hrun. }
  exists self', op, w'. split; [reflexivity|].
  destruct (operation_blocks _ _ _ _ _ _ _ _ _ _ Hrun)
    as ([responses Hresponses] & _ & _ & Htags).
  split; [|exact Htags].
  rewrite Hresponses. vm_compute in Hrun. injection Hrun as _ <- _.
  vm_compute in Hresponses. injection Hresponses as <-. reflexivity.
Defined.

(** ** Later routes *)

Lemma add_route_operations_keeps route docs : forall paths w paths' w' path method,
  add_route_operations route docs paths w = (Ok paths', w') ->
  is_Some (operation_at paths path method) ->
  is_Some (operation_at paths' path method).
Proof.
  unfold add_route_operations.
  induction docs as [|doc docs IH]; intros paths w paths' w' path method Hrun Hop.
  - simpl in Hrun. unfold mret, M_ret in Hrun. by simplify_eq.
  - simpl in Hrun. apply M_bind_Ok in Hrun as (paths1 & w1 & Hstep & Hrun).
    apply (IH _ _ _ _ _ _ Hrun). rewrite add_route_operation_run in Hstep.
    destruct (path_of route doc.1) as [[p|]|e]; simplify_eq; [|done].
    rewrite operation_at_add. by destruct (decide _).
Qed.

Lemma extract_paths_from_keeps safe_load routes : forall paths w paths' w' path method,
  for_each routes (extract_entry_paths safe_load) paths w = (Ok paths', w') ->
  is_Some (operation_at paths path method) ->
  is_Some (operation_at paths' path method).
Proof.
  induction routes as [|entry routes IH]; intros paths w paths' w' path method Hrun Hop.
  - simpl in Hrun. unfold mret, M_ret in Hrun. by simplify_eq.
  - simpl in Hrun. apply M_bind_Ok in Hrun as (paths1 & w1 & Hstep & Hrun).
    apply (IH _ _ _ _ _ _ Hrun).
    apply extract_entry_paths_Ok in Hstep as (route & -> & Hstep).
    unfold extract_route_paths in Hstep.
    apply M_bind_Ok in Hstep as (docs & w2 & _ & Hstep).
    by eapply add_route_operations_keeps.
Qed.

Lemma build_doc_from_pydantic_handler_NoDup self handler w self' docs w' :
  _build_doc_from_pydantic_handler self handler w = (Ok (self', docs), w') ->
  NoDup (map fst docs).
Proof.
  unfold _build_doc_from_pydantic_handler. intros Hrun.
  refine (for_each_M_invariant (fun acc _ => NoDup (map fst acc.2)) _ _ _
            (self, []) w (self', docs) w' _ Hrun); [|constructor].
  intros [self1 acc] method w1 [self2 acc2] w2 _ Hdup Hstep. simpl in *.
  unfold pydantic_doc_from_method in Hstep.
  apply M_bind_Ok in Hstep as (f & w3 & _ & Hstep).
  destruct (method_swagger_info f) as [info|].
  - apply M_bind_Ok in Hstep as ([self3 doc] & w4 & _ & Hret).
    unfold mret, M_ret in Hret. simplify_eq. by apply alist_set_NoDup.
  - unfold mret, M_ret in Hstep. by simplify_eq.
Qed.

Lemma extract_paths_pydantic_keeps re_compile routes :
  forall self w self' w' path method,
  extract_paths_pydantic re_compile self routes w = (Ok self', w') ->
  is_Some (operation_at (paths self) path method) ->
  is_Some (operation_at (paths self') path method).
Proof.
  unfold extract_paths_pydantic.
  induction routes as [|entry routes IH]; intros self w self' w' path method Hrun Hop.
  - simpl in Hrun. unfold mret, M_ret in Hrun. by simplify_eq.
  - simpl in Hrun. apply M_bind_Ok in Hrun as (self1 & w1 & Hstep & Hrun).
    apply (IH _ _ _ _ _ _ Hrun).
    apply extract_entry_pydantic_Ok in Hstep as (route & _ & Hstep).
    unfold extract_route_pydantic in Hstep.
    apply M_bind_Ok in Hstep as ([self2 docs] & w2 & Hdocs & Hstep).
    apply M_bind_Ok in Hstep as (paths2 & w3 & Hadd & Hret).
    unfold mret, M_ret in Hret. simplify_eq. simpl.
    apply (add_route_operations_keeps _ _ _ _ _ _ _ _ Hadd).
    destruct (build_doc_from_pydantic_handler_documented _ _ _ _ _ _ Hdocs)
      as [_ ->]. done.
Qed.

(** X13. Under both route processors a longer route list never loses an
    operation: what a list documents for a path and a method is still
    documented, for that path and method, after any further routes. What it
    holds there is the word of the last route: every operation of the last
    route of a list stands in the result under its path as that route gives
    it. *)
Theorem later_routes_keep_operations (safe_load : string -> YamlLoad)
    (re_compile : string -> Compiled)
    (routes more : list RouteEntry) (w : World) :
  (forall paths1 w1 paths2 w2 path method,
     _extract_paths safe_load routes w = (Ok paths1, w1) ->
     _extract_paths safe_load (routes ++ more) w = (Ok paths2, w2) ->
     is_Some (operation_at paths1 path method) ->
     is_Some (operation_at paths2 path method))
  /\ (forall self self1 w1 self2 w2 path method,
        extract_paths_pydantic re_compile self routes w = (Ok self1, w1) ->
        extract_paths_pydantic re_compile self (routes ++ more) w
          = (Ok self2, w2) ->
        is_Some (operation_at (paths self1) path method) ->
        is_Some (operation_at (paths self2) path method))
  /\ (forall route docs paths2 w2 method op path,
        _extract_paths safe_load (routes ++ [Spec route]) w = (Ok paths2, w2) ->
        _build_doc_from_func_doc safe_load (target route) = Ok docs ->
        alist_get method docs = Some op ->
        path_of route method = Ok (Some path) ->
        operation_at paths2 path method = Some op)
  /\ (forall entry route self self1 w1 docs self2 w2 self3 w3 method op path,
        url_star re_compile entry = Ok route ->
        extract_paths_pydantic re_compile self routes w = (Ok self1, w1) ->
        _build_doc_from_pydantic_handler self1 (target route) w1
          = (Ok (self2, docs), w2) ->
        extract_paths_pydantic re_compile self (routes ++ [entry]) w
          = (Ok self3, w3) ->
        alist_get method docs = Some op ->
        path_of route method = Ok (Some path) ->
        operation_at (paths self3) path method = Some op).
Proof.
  split; [|split; [|split]].
  - intros paths1 w1 paths2 w2 path method Hone Hall Hop.
    unfold _extract_paths in Hone, Hall. rewrite for_each_M_app in Hall.
    rewrite (M_bind_eq _ _ _ _ _ Hone) in Hall.
    by eapply extract_paths_from_keeps.
  - intros self self1 w1 self2 w2 path method Hone Hall Hop.
    unfold extract_paths_pydantic in Hone, Hall. rewrite for_each_M_app in Hall.
    rewrite (M_bind_eq _ _ _ _ _ Hone) in Hall.
    by eapply extract_paths_pydantic_keeps.
  - intros route docs paths2 w2 method op path Hall Hdocs Hop Hpath.
    unfold _extract_paths in Hall. rewrite for_each_M_app in Hall.
    apply M_bind_Ok in Hall as (paths1 & w1 & _ & Hlast). simpl in Hlast.
    apply M_bind_Ok in Hlast as (paths3 & w3 & Hstep & Hret).
    unfold mret, M_ret in Hret. simplify_eq.
    apply extract_entry_paths_Ok in Hstep as (route' & [= <-] & Hstep).
    unfold extract_route_paths in Hstep. unfold mbind at 1, M_bind, lift in Hstep.
    rewrite Hdocs in Hstep.
    apply (add_route_operations_lookup _ _ _ _ _ _ Hstep
             (build_doc_from_func_doc_NoDup _ _ _ Hdocs) (method, op) path);
      [by apply alist_get_elem | done].
  - intros entry route self self1 w1 docs self2 w2 self3 w3 method op path
      Hurl Hone Hdocs Hall Hop Hpath.
    unfold extract_paths_pydantic in Hone, Hall. rewrite for_each_M_app in Hall.
    rewrite (M_bind_eq _ _ _ _ _ Hone) in Hall. simpl in Hall.
    apply M_bind_Ok in Hall as (self4 & w4 & Hstep & Hret).
    unfold mret, M_ret in Hret. simplify_eq.
    apply extract_entry_pydantic_Ok in Hstep as (route' & Hurl' & Hstep).
    rewrite Hurl in Hurl'. injection Hurl' as <-.
    unfold extract_route_pydantic in Hstep.
    rewrite (M_bind_eq _ _ _ _ _ Hdocs) in Hstep.
    apply M_bind_Ok in Hstep as (paths4 & w5 & Hadd & Hret).
    unfold mret, M_ret in Hret. simplify_eq. simpl.
    apply (add_route_operations_lookup _ _ _ _ _ _ Hadd
             (build_doc_from_pydantic_handler_NoDup _ _ _ _ _ _ Hdocs)
             (method, op) path);
      [by apply alist_get_elem | done].
Qed.

(** ** The warnings of the model-based dialect *)

Lemma only_warns_same {A} P (m : M A) :
  (forall w, warnings (m w).2 = warnings w) -> only_warns P m.
Proof.
  intros Hm w. exists []. split; [constructor|]. by rewrite Hm, app_nil_r.
Qed.

Lemma only_warns_ret {A} P (a : A) : only_warns P (mret a).
Proof. by apply only_warns_same. Qed.

Lemma only_warns_lift {A} P (r : result A) : only_warns P (lift r).
Proof. by apply only_warns_same. Qed.

Lemma only_warns_raise {A} P e : only_warns P (raise (A:=A) e).
Proof. by apply only_warns_same. Qed.

Lemma only_warns_bind {A B} P (m : M A) (k : A -> M B) :
  only_warns P m -> (forall a, only_warns P (k a)) -> only_warns P (x ← m; k x).
Proof.
  intros Hm Hk w. destruct (Hm w) as (ws & Hws & Hw).
  unfold mbind, M_bind. destruct (m w) as [[a|e] w1]; simpl in Hw.
  - destruct (Hk a w1) as (ws' & Hws' & Hw').
    exists (ws ++ ws'). split; [by apply Forall_app|].
    by rewrite Hw', Hw, app_assoc.
  - by exists ws.
Qed.

Lemma only_warns_for_each {A S} P (xs : list A) (body : S -> A -> M S) :
  (forall s x, x ∈ xs -> only_warns P (body s x)) ->
  forall s, only_warns P (for_each xs body s).
Proof.
  induction xs as [|x xs IH]; intros Hbody s; simpl.
  - apply only_warns_ret.
  - apply only_warns_bind; [apply Hbody; by left|].
    intros s1. apply IH. intros s2 y Hy. apply Hbody. by right.
Qed.

Lemma only_warns_oblivious {A} P (m : M A) : oblivious P m -> only_warns P m.
Proof.
  intros (r & ws & Hws & Hm) w. exists ws. split; [done|]. by rewrite Hm.
Qed.

Lemma only_warns_BaseModel_schema P model : only_warns P (BaseModel_schema model).
Proof.
  apply only_warns_same. intros w. unfold BaseModel_schema.
  by destruct (schema_cache w !! model_id model).
Qed.

Lemma only_warns_register_definitions P self model model_spec :
  only_warns P (register_definitions self model model_spec).
Proof.
  unfold register_definitions. destruct (schema_definitions model_spec).
  - apply only_warns_bind; [by apply only_warns_same|].
    intros _. apply only_warns_ret.
  - apply only_warns_ret.
Qed.

Lemma only_warns_build_pydantic_docs P self ips rms request query tags :
  only_warns P (build_pydantic_docs self ips rms request query tags).
Proof.
  unfold build_pydantic_docs. apply only_warns_bind.
  { unfold _build_input_and_query_doc.
    apply only_warns_bind; [apply only_warns_lift|]. intros ps.
    destruct query as [query|]; [|apply only_warns_ret].
    apply only_warns_bind; [apply only_warns_BaseModel_schema|]. intros s.
    destruct (schema_properties s); [apply only_warns_ret | apply only_warns_raise]. }
  intros ps. apply only_warns_bind.
  { unfold add_request_body. destruct request as [request|]; [|apply only_warns_ret].
    apply only_warns_bind; [apply only_warns_BaseModel_schema|]. intros s.
    apply only_warns_bind; [apply only_warns_register_definitions|].
    intros self1. apply only_warns_ret. }
  intros [self1 result]. apply only_warns_bind; [|intros [self2 rs]; apply only_warns_ret].
  apply only_warns_for_each. intros [self2 rs] [status_code rm] _.
  unfold add_response. destruct (rm_model rm) as [model|]; [|apply only_warns_raise].
  apply only_warns_bind; [apply only_warns_BaseModel_schema|]. intros s.
  apply only_warns_bind; [apply only_warns_register_definitions|].
  intros self3. apply only_warns_ret.
Qed.

Lemma only_warns_extract_route_pydantic routes self route :
  route ∈ routes ->
  only_warns (mismatch_warning routes) (extract_route_pydantic self route).
Proof.
  intros Hin. unfold extract_route_pydantic.
  apply only_warns_bind.
  { unfold _build_doc_from_pydantic_handler. apply only_warns_for_each.
    intros [self2 out] method _. unfold pydantic_doc_from_method.
    apply only_warns_bind; [apply only_warns_lift|]. intros f.
    destruct (method_swagger_info f) as [info|]; [|apply only_warns_ret].
    apply only_warns_bind; [apply only_warns_build_pydantic_docs|].
    intros [self3 doc]. apply only_warns_ret. }
  intros [self2 docs]. apply only_warns_bind; [|intros ?; apply only_warns_ret].
  apply only_warns_oblivious. by apply oblivious_add_route_operations.
Qed.

Lemma only_warns_extract_paths_pydantic re_compile routes self :
  only_warns (mismatch_warning (model_routes re_compile routes))
    (extract_paths_pydantic re_compile self routes).
Proof.
  unfold extract_paths_pydantic. apply only_warns_for_each.
  intros self1 entry Hin.
  destruct (url_star re_compile entry) as [route|e] eqn:Hurl.
  - intros w.
    destruct (only_warns_extract_route_pydantic _ self1 route
                (model_routes_elem _ _ _ _ Hin Hurl) w) as (ws & Hws & Hw).
    exists ws. split; [done|].
    unfold extract_entry_pydantic, mbind, M_bind, lift. by rewrite Hurl.
  - apply only_warns_same. intros w.
    unfold extract_entry_pydantic, mbind, M_bind, lift. by rewrite Hurl.
Qed.

(** X14. Whatever generation under the model-based dialect returns or
    raises, the warnings it found are still there, in their order, and each
    one it added is the warning about a route [tornado.web.url] made of an
    entry of the list, whose bracket count differs from its group count. *)
Theorem model_generation_warnings (safe_load : string -> YamlLoad)
    (re_compile : string -> Compiled)
    (API_SWAGGER_2 API_OPENAPI_3 API_OPENAPI_3_PYDANTIC : string)
    (routes : list RouteEntry) (args : DocArgs) :
  only_warns (mismatch_warning (model_routes re_compile routes))
    (generate_doc_from_endpoints safe_load re_compile API_SWAGGER_2 API_OPENAPI_3
       API_OPENAPI_3_PYDANTIC routes args API_OPENAPI_3_PYDANTIC).
Proof.
  unfold generate_doc_from_endpoints. rewrite doc_builders_lookup.
  rewrite decide_True by done. simpl.
  apply only_warns_bind; [apply only_warns_extract_paths_pydantic|].
  intros self. apply only_warns_bind; [by apply only_warns_same|].
  intros components. apply only_warns_ret.
Qed.

(** ** Descriptions of one line *)

Lemma splitlines_one_line s :
  no_linebreak s = true -> s <> EmptyString -> Py.splitlines s = [s].
Proof.
  induction s as [|c r IH]; [done|]. cbn [no_linebreak].
  intros [Hc Hr]%andb_true_iff _. apply negb_true_iff in Hc.
  cbn [Py.splitlines]. rewrite Hc. destruct r as [|d r]; [done|].
  by rewrite IH.
Qed.

Lemma clean_description_one_line description :
  no_linebreak description = true -> _clean_description description = description.
Proof.
  intros Hline. unfold _clean_description. destruct description as [|c r]; [done|].
  assert (Hc : Py.ascii_eqb c Py.LF = false).
  { cbn [no_linebreak] in Hline. apply andb_true_iff in Hline as [Hc _].
    destruct (Py.ascii_eqb c Py.LF) eqn:Heq; [|done].
    apply ascii_eqb_eq in Heq as ->. done. }
  cbn [first_non_newline]. rewrite Hc. cbn [negb default Py.drop_chars].
  by rewrite splitlines_one_line.
Qed.

(** X15. [_clean_description] returns a description of one line as it is,
    and its result is always of one line: cleaning a second time changes
    nothing. *)
Theorem clean_description_idempotent (description : string) :
  (no_linebreak description = true -> _clean_description description = description)
  /\ _clean_description (_clean_description description)
     = _clean_description description.
Proof.
  split; [apply clean_description_one_line|].
  apply clean_description_one_line, clean_description_no_linebreak.
Qed.

(** ** The routes and the page of [setup_swagger] *)

Lemma string_app_nil_r (s : string) : s +:+ "" = s.
Proof.
  induction s as [|c s IH]; [done|].
  change (String c s +:+ "") with (String c (s +:+ "")). by rewrite IH.
Qed.

Lemma endswith_char_cons c d r :
  Py.endswith (String c EmptyString) (String d r)
  = match r with
    | EmptyString => Py.ascii_eqb d c
    | String _ _ => Py.endswith (String c EmptyString) r
    end.
Proof.
  unfold Py.endswith. destruct r as [|e r].
  - cbn. unfold Py.ascii_eqb. by destruct (Ascii.eqb d c).
  - cbn [String.length Nat.leb Nat.sub Py.drop_chars andb].
    by rewrite Nat.sub_0_r.
Qed.

Lemma rstrip_char_split c s :
  exists tail, s = Py.rstrip_char c s +:+ tail /\ Py.all_chars c tail = true.
Proof.
  induction s as [|d r (tail & Hr & Htail)].
  - by exists EmptyString.
  - cbn [Py.rstrip_char]. destruct (Py.rstrip_char c r) as [|e r'] eqn:Hstrip.
    + change ("" +:+ tail) with tail in Hr. subst tail.
      destruct (Py.ascii_eqb d c) eqn:Hd.
      * exists (String d r). split; [done|]. cbn [Py.all_chars]. by rewrite Hd.
      * by exists r.
    + exists tail. split; [|done].
      change (String d (String e r') +:+ tail) with (String d (String e r' +:+ tail)).
      by rewrite <- Hr.
Qed.

Lemma rstrip_char_no_tail c s :
  Py.endswith (String c EmptyString) (Py.rstrip_char c s) = false.
Proof.
  induction s as [|d r IH]; [done|]. cbn [Py.rstrip_char].
  destruct (Py.rstrip_char c r) as [|e r'] eqn:Hstrip.
  - destruct (Py.ascii_eqb d c) eqn:Hd; [done|]. by rewrite endswith_char_cons.
  - by rewrite endswith_char_cons.
Qed.

Lemma endswith_all_chars c tail :
  tail <> EmptyString -> Py.all_chars c tail = true ->
  Py.endswith (String c EmptyString) tail = true.
Proof.
  induction tail as [|d r IH]; [done|]. intros _. cbn [Py.all_chars].
  intros [Hd Hr]%andb_true_iff. rewrite endswith_char_cons.
  destruct r as [|e r]; [done|]. by apply IH.
Qed.

Lemma endswith_char_app c a tail :
  tail <> EmptyString ->
  Py.endswith (String c EmptyString) (a +:+ tail)
  = Py.endswith (String c EmptyString) tail.
Proof.
  intros Htail. induction a as [|d a IH]; [done|].
  change (String d a +:+ tail) with (String d (a +:+ tail)).
  rewrite endswith_char_cons. destruct (a +:+ tail) as [|e r] eqn:Happ; [|done].
  destruct a; [by subst | done].
Qed.

Lemma string_app_inv_head (a b c : string) : a +:+ b = a +:+ c -> b = c.
Proof.
  induction a as [|d a IH]; [done|].
  change (String d a +:+ ?x) with (String d (a +:+ x)).
  intros [= H]. by apply IH.
Qed.

Lemma string_app_length (a b : string) :
  String.length (a +:+ b) = String.length a + String.length b.
Proof.
  induction a as [|d a IH]; [done|].
  change (String d a +:+ b) with (String d (a +:+ b)). simpl. by rewrite IH.
Qed.

(** X16. The addresses [setup_swagger] registers. The address of the page
    starts with a slash; the base address is that address without the slashes
    at its end, and does not end with one; the address of the specification
    is the page address followed by /swagger.json, which is the base address
    followed by /swagger.json exactly when the page address does not end with
    a slash. *)
Theorem swagger_addresses (swagger_url : string) :
  Py.startswith "/" (_swagger_ui_url swagger_url) = true
  /\ (Py.startswith "/" swagger_url = true ->
      _swagger_ui_url swagger_url = swagger_url)
  /\ Py.endswith "/" (_base_swagger_ui_url swagger_url) = false
  /\ (exists tail,
        _swagger_ui_url swagger_url = _base_swagger_ui_url swagger_url +:+ tail
        /\ Py.all_chars "/" tail = true)
  /\ (_swagger_spec_url swagger_url
      = _base_swagger_ui_url swagger_url +:+ "/swagger.json"
      <-> Py.endswith "/" (_swagger_ui_url swagger_url) = false).
Proof.
  unfold _swagger_spec_url, _base_swagger_ui_url.
  set (page := _swagger_ui_url swagger_url).
  split; [|split; [|split; [|split]]].
  - subst page. unfold _swagger_ui_url.
    destruct (Py.startswith "/" swagger_url) eqn:Hstart; [done|].
    apply (startswith_app "/").
  - subst page. unfold _swagger_ui_url. by intros ->.
  - apply rstrip_char_no_tail.
  - apply rstrip_char_split.
  - destruct (rstrip_char_split "/" page) as (tail & Hpage & Htail).
    destruct tail as [|c tail].
    + assert (Hsame : page = Py.rstrip_char "/" page).
      { rewrite Hpage at 1. apply string_app_nil_r. }
      rewrite <- Hsame. split; [|done]. intros _. rewrite Hsame.
      apply rstrip_char_no_tail.
    + split.
      * intros Hspec. rewrite Hpage in Hspec at 1.
        rewrite string_app_assoc in Hspec. apply string_app_inv_head in Hspec.
        apply (f_equal String.length) in Hspec.
        rewrite string_app_length in Hspec. simpl in Hspec. lia.
      * rewrite Hpage at 1. rewrite endswith_char_app by done.
        by rewrite endswith_all_chars.
Qed.

(** X17. What [setup_swagger] leaves behind. When it returns, the three
    patterns of the page compiled, the route list starts with their three
    [URLSpec] objects, and the document it serves is the one [export_swagger]
    returns for the list as it was, with the state that call leaves. The list
    it leaves cannot be set up under the model-based dialect: that call raises
    the type error of unpacking a [URLSpec], whatever its other arguments and
    the state, which it leaves alone. *)
Theorem setup_not_repeatable (safe_load : string -> YamlLoad)
    (re_compile : string -> Compiled)
    (API_SWAGGER_2 API_OPENAPI_3 API_OPENAPI_3_PYDANTIC : string)
    (SwaggerUiHandler SwaggerSpecHandler : Handler) (ui_html : string)
    (routes : list RouteEntry) (swagger_url : string) (args : DocArgs)
    (display_models : bool) (api_definition_version : string)
    (allow_cors : bool) (w : World)
    (routes' : list RouteEntry) (served : Served) (w' : World) :
  setup_swagger safe_load re_compile API_SWAGGER_2 API_OPENAPI_3
    API_OPENAPI_3_PYDANTIC SwaggerUiHandler SwaggerSpecHandler ui_html routes
    swagger_url args display_models api_definition_version allow_cors w
  = (Ok (routes', served), w') ->
  (exists ui base spec,
     url re_compile (_swagger_ui_url swagger_url) SwaggerUiHandler = Ok ui
     /\ url re_compile (_base_swagger_ui_url swagger_url +:+ "/")
          SwaggerUiHandler = Ok base
     /\ url re_compile (_swagger_spec_url swagger_url) SwaggerSpecHandler
        = Ok spec
     /\ routes' = Spec ui :: Spec base :: Spec spec :: routes)
  /\ export_swagger safe_load re_compile API_SWAGGER_2 API_OPENAPI_3
       API_OPENAPI_3_PYDANTIC routes args api_definition_version w
     = (Ok (SWAGGER_SPEC served), w')
  /\ (forall swagger_url' args' display_models' allow_cors' w'',
        setup_swagger safe_load re_compile API_SWAGGER_2 API_OPENAPI_3
          API_OPENAPI_3_PYDANTIC SwaggerUiHandler SwaggerSpecHandler ui_html
          routes' swagger_url' args' display_models' API_OPENAPI_3_PYDANTIC
          allow_cors' w''
        = (Raise (TypeError "URLSpec"), w'')).
Proof.
  unfold setup_swagger, export_swagger.
  intros (doc & w1 & Hdoc & Hrun)%M_bind_Ok.
  apply M_bind_Ok in Hrun as (added & w2 & Hadded & Hret).
  unfold mret, M_ret in Hret.
  unfold lift in Hadded. injection Hadded as Hadded <-.
  unfold swagger_routes in Hadded.
  apply result_bind_Ok in Hadded as (ui & Hui & Hadded).
  apply result_bind_Ok in Hadded as (base & Hbase & Hadded).
  apply result_bind_Ok in Hadded as (spec & Hspec & Hadded).
  injection Hadded as <-. injection Hret as <- <- <-.
  split; [by exists ui, base, spec|]. split; [done|].
  intros swagger_url' args' display_models' allow_cors' w''.
  unfold generate_doc_from_endpoints. rewrite doc_builders_lookup.
  by rewrite decide_True by done.
Qed.

(** ** [nesteddict2yaml] *)

Lemma YamlNode_nested_ind (P : YamlNode -> Prop) :
  (forall text, P (YText text)) ->
  (forall items, Forall (fun item => P item.2) items -> P (YDict items)) ->
  forall value, P value.
Proof.
  intros Htext Hdict. fix IH 1. intros [text|items]; [apply Htext|].
  apply Hdict. induction items as [|[key value] items IHitems]; constructor.
  - apply IH.
  - apply IHitems.
Qed.

Lemma yaml_after_key_dict d : forall indent result,
  yaml_after_key (YDict d) indent result
  = nesteddict2yaml d (indent + 2) (result +:+ Py.NL).
Proof.
  intros indent result. cbn [yaml_after_key].
  generalize (result +:+ Py.NL). clear result.
  induction d as [|[key value] d IH]; intros result; [done|].
  cbn [nesteddict2yaml]. by rewrite <- IH.
Qed.

Lemma nesteddict2yaml_acc_items d :
  Forall (fun item =>
            forall indent result,
              yaml_after_key item.2 indent result
              = result +:+ yaml_after_key item.2 indent "") d ->
  forall indent result,
    nesteddict2yaml d indent result = result +:+ nesteddict2yaml d indent "".
Proof.
  induction 1 as [|[key value] d Hvalue _ IH]; intros indent result.
  - cbn [nesteddict2yaml]. by rewrite string_app_nil_r.
  - cbn [nesteddict2yaml]. simpl in Hvalue.
    rewrite IH. rewrite (IH indent (yaml_after_key _ _ _)).
    rewrite Hvalue. rewrite (Hvalue indent (_ +:+ _)).
    by rewrite !string_app_assoc.
Qed.

Lemma yaml_after_key_acc value : forall indent result,
  yaml_after_key value indent result = result +:+ yaml_after_key value indent "".
Proof.
  induction value as [text|items IH] using YamlNode_nested_ind; intros indent result.
  - done.
  - rewrite !yaml_after_key_dict.
    rewrite (nesteddict2yaml_acc_items _ IH).
    rewrite (nesteddict2yaml_acc_items _ IH _ (_ +:+ _)).
    by rewrite !string_app_assoc.
Qed.

Lemma nesteddict2yaml_acc d indent result :
  nesteddict2yaml d indent result = result +:+ nesteddict2yaml d indent "".
Proof.
  apply nesteddict2yaml_acc_items. apply Forall_forall.
  intros item _. apply yaml_after_key_acc.
Qed.

(** X18. [nesteddict2yaml] only appends to the text it is given, and what
    it appends is the blocks of the keys one after the other: a key with a
    plain value gives one line, the key after [indent] spaces, a colon, a
    space and the value; a key with a nested dictionary gives the line of the
    key and then the nested dictionary two columns further in. *)
Theorem nesteddict2yaml_blocks (indent : nat) :
  (forall d result,
     nesteddict2yaml d indent result = result +:+ nesteddict2yaml d indent "")
  /\ (forall d1 d2,
        nesteddict2yaml (d1 ++ d2) indent ""
        = nesteddict2yaml d1 indent "" +:+ nesteddict2yaml d2 indent "")
  /\ (forall key text,
        nesteddict2yaml [(key, YText text)] indent ""
        = Py.spaces indent +:+ key +:+ ": " +:+ text +:+ Py.NL)
  /\ (forall key d,
        nesteddict2yaml [(key, YDict d)] indent ""
        = Py.spaces indent +:+ key +:+ ":" +:+ Py.NL
          +:+ nesteddict2yaml d (indent + 2) "").
Proof.
  split; [|split; [|split]].
  - intros d result. apply nesteddict2yaml_acc.
  - intros d1 d2. rewrite <- nesteddict2yaml_acc. generalize "".
    induction d1 as [|[key value] d1 IH]; intros result; [done|].
    cbn [app nesteddict2yaml]. apply IH.
  - intros key text. cbn [nesteddict2yaml yaml_after_key].
    change ("" +:+ ?x) with x. by rewrite !string_app_assoc.
  - intros key d. cbn [nesteddict2yaml]. rewrite yaml_after_key_dict.
    rewrite nesteddict2yaml_acc. change ("" +:+ ?x) with x.
    by rewrite !string_app_assoc.
Qed.

(** ** The request body *)

Lemma schema_value_definitions s :
  schema_value s = schema_value (without_definitions s) ->
  schema_definitions s = None.
Proof.
  intros Hsame.
  apply (f_equal (fun v => match v with
                           | VDict d => length d
                           | _ => 0
                           end)) in Hsame.
  unfold schema_value, str_dict in Hsame. cbn [without_definitions
    schema_other schema_properties schema_required schema_definitions] in Hsame.
  rewrite !length_map, !length_app in Hsame.
  destruct (schema_definitions s); [simpl in Hsame; lia | done].
Qed.

(** X19. The request body of an operation is the mapping of a JSON content
    and the flag required, set; the schema under the content is the schema of
    the request model as it is read after the parameters are built, without
    its block of definitions. The helper [_build_request_body_doc] started at
    that point gives the same mapping around the schema as it is read: it
    gives the body of the operation exactly when that schema has no block of
    definitions. *)
Theorem request_body_of_operation (self : PydanticRoutesProcessor)
    (input_parameters : list (string * Annotation))
    (response_models : list (Z * ResponseModel)) (model : Model)
    (query : option Model) (tags : option (list string)) (w : World)
    (self' : PydanticRoutesProcessor) (op : value) (w' : World) :
  build_pydantic_docs self input_parameters response_models (Some model) query
    tags w = (Ok (self', op), w') ->
  exists parameters w1 model_spec w2 body,
    _build_input_and_query_doc input_parameters query w = (Ok parameters, w1)
    /\ BaseModel_schema model w1 = (Ok model_spec, w2)
    /\ operation_field op "requestBody"
       = Some (VDict
                 [(KStr "content",
                   VDict
                     [(KStr "application/json",
                       VDict
                         [(KStr "schema",
                           schema_value (without_definitions model_spec))])]);
                  (KStr "required", VBool true)])
    /\ _build_request_body_doc model w1 = (Ok body, w2)
    /\ body
       = VDict
           [(KStr "content",
             VDict
               [(KStr "application/json",
                 VDict [(KStr "schema", schema_value model_spec)])]);
            (KStr "required", VBool true)]
    /\ (operation_field op "requestBody" = Some body
        <-> schema_definitions model_spec = None).
Proof.
  unfold build_pydantic_docs.
  intros (parameters & w1 & Hparams & Hrun)%M_bind_Ok.
  apply M_bind_Ok in Hrun as ([self1 result] & w2 & Hreq & Hrun).
  apply M_bind_Ok in Hrun as ([self2 responses] & w3 & _ & Hret).
  unfold mret, M_ret in Hret. simplify_eq.
  unfold add_request_body in Hreq.
  apply M_bind_Ok in Hreq as (model_spec & w4 & Hspec & Hreq).
  apply M_bind_Ok in Hreq as (self3 & w5 & _ & Hret).
  unfold mret, M_ret in Hret. simplify_eq.
  exists parameters, w1, model_spec, w4, (request_body model_spec).
  split; [done|]. split; [done|].
  assert (Hbody : operation_field
                    (str_dict
                       match tags with
                       | Some (t :: ts) =>
                           alist_set "tags" (VList (map VStr (t :: ts)))
                             (alist_set "responses" (VDict responses)
                                (alist_set "requestBody"
                                   (request_body (without_definitions model_spec))
                                   match parameters with
                                   | [] => []
                                   | _ => alist_set "parameters" (VList parameters) []
                                   end))
                       | _ =>
                           alist_set "responses" (VDict responses)
                             (alist_set "requestBody"
                                (request_body (without_definitions model_spec))
                                match parameters with
                                | [] => []
                                | _ => alist_set "parameters" (VList parameters) []
                                end)
                       end) "requestBody"
                  = Some (request_body (without_definitions model_spec))).
  { unfold operation_field, str_dict. rewrite alist_get_str_dict.
    destruct tags as [[|t ts]|];
      rewrite ?(alist_get_set_ne "requestBody" "tags") by done;
      rewrite (alist_get_set_ne "requestBody" "responses") by done;
      apply alist_get_set_eq. }
  split; [exact Hbody|].
  split; [unfold _build_request_body_doc; by rewrite (M_bind_eq _ _ _ _ _ Hspec)|].
  split; [done|]. split.
  - intros Hsame. apply schema_value_definitions.
    assert (Heq : Some (request_body (without_definitions model_spec))
                  = Some (request_body model_spec)).
    { etrans; [symmetry; exact Hbody | exact Hsame]. }
    unfold request_body, str_dict in Heq. cbn [map fst snd] in Heq.
    congruence.
  - intros Hnone. etrans; [exact Hbody|].
    by rewrite (without_definitions_id _ Hnone).
Qed.

Lemma request_body_of_operation_witness :
  exists self' op w',
    build_pydantic_docs new_processor [] [] (Some item_model) None None
      empty_world = (Ok (self', op), w')
    /\ operation_field op "requestBody"
       = Some (VDict
                 [(KStr "content",
                   VDict
                     [(KStr "application/json",
                       VDict [(KStr "schema", schema_value (model_schema item_model))])]);
                  (KStr "required", VBool true)]).
Proof.
  destruct (build_pydantic_docs new_processor [] [] (Some item_model) None None
              empty_world) as [[[self' op]|e] w'] eqn:Hrun.
  2: { exfalso. vm_compute in Hrun. discriminate Hrun. }
  exists self', op, w'. split; [reflexivity|].
  destruct (request_body_of_operation _ _ _ _ _ _ _ _ _ _ Hrun)
    as (parameters & w1 & model_spec & w2 & body & Hparameters & Hspec & Hbody
        & _).
  vm_compute in Hparameters. injection Hparameters as _ <-.
  vm_compute in Hspec. injection Hspec as <- _.
  rewrite Hbody. reflexivity.
Defined.

(** ** Path names and documented parameters *)

Lemma filter_forallb {A} (keep plain : A -> bool) (l : list A) :
  (forall x, plain x = true -> keep x = true) ->
  forallb plain l = true -> List.filter keep l = l.
Proof.
  intros Hkeep. induction l as [|x l IH]; [done|]. simpl.
  intros [Hx Hl]%andb_true_iff. by rewrite (Hkeep x Hx), (IH Hl).
Qed.

Lemma expected_names_plain args :
  forallb (fun arg => negb (Py.set_is_single "_" arg)) args = true ->
  expected_names args (length args) = args.
Proof.
  intros Hplain. apply list_eq. intros i.
  destruct (decide (i < length args)) as [Hi|Hi].
  - rewrite expected_names_lookup by done. unfold name_at.
    destruct (args !! i) as [arg|] eqn:Harg.
    + assert (Hin : In arg args).
      { apply list_elem_of_In. by eapply list_elem_of_lookup_2. }
      pose proof (proj1 (forallb_forall _ _) Hplain arg Hin) as Harg'.
      simpl in Harg'. apply negb_true_iff in Harg'. by rewrite Harg'.
    + apply lookup_ge_None in Harg. lia.
  - rewrite !lookup_ge_None_2; [done | lia | rewrite expected_names_length; lia].
Qed.

(** X20. For a method whose signature is [self] followed by positional
    parameters, none of them named [self] or [cls] or by underscores only,
    the parameters the model-based dialect documents are, name by name and in
    order, the names the path formatter puts in the braces of a route with as
    many groups. *)
Theorem path_names_are_documented_parameters (handler : Handler)
    (method : string) (f : Method) :
  getattr handler (Py.lower method) = Ok f ->
  plain_signature f = true ->
  map fst (input_parameters_getter f) = _try_extract_args f
  /\ _extract_parameters_names handler (length (input_parameters_getter f)) method
     = Ok (map fst (input_parameters_getter f)).
Proof.
  intros Hf Hplain. unfold plain_signature in Hplain.
  destruct (method_signature f) as [|p rest] eqn:Hsig; [done|].
  apply andb_true_iff in Hplain as [[Hpos Hself]%andb_true_iff Hrest].
  assert (Hdocumented : input_parameters_getter f
                        = map (fun p => (param_name p, param_annotation p)) rest).
  { unfold input_parameters_getter. rewrite Hsig. cbn [List.filter].
    rewrite Hself. cbn [orb negb]. f_equal.
    apply (filter_forallb _ plain_parameter); [|done].
    intros q Hq. unfold plain_parameter in Hq.
    by apply andb_true_iff in Hq as [[_ ?]%andb_true_iff _]. }
  assert (Hargs : _try_extract_args f = map param_name rest).
  { unfold _try_extract_args, getfullargspec_args. rewrite Hsig.
    cbn [List.filter]. rewrite Hpos. cbn [map tail]. f_equal.
    apply (filter_forallb _ plain_parameter); [|done].
    intros q Hq. unfold plain_parameter in Hq.
    by apply andb_true_iff in Hq as [[? _]%andb_true_iff _]. }
  assert (Hnames : map fst (input_parameters_getter f) = map param_name rest).
  { rewrite Hdocumented. rewrite map_map. done. }
  split; [by rewrite Hnames, Hargs|].
  rewrite extract_parameters_names_eq. rewrite Hnames.
  replace (length (input_parameters_getter f)) with (length (map param_name rest))
    by (rewrite <- Hnames; apply length_map).
  destruct (length (map param_name rest)) as [|n] eqn:Hlen.
  - by destruct (map param_name rest).
  - rewrite Hf. simpl. rewrite Hargs, <- Hlen. f_equal.
    apply expected_names_plain. rewrite forallb_forall.
    intros arg (q & <- & Hq)%in_map_iff.
    pose proof (proj1 (forallb_forall _ _) Hrest q Hq) as Hplain.
    unfold plain_parameter in Hplain.
    by apply andb_true_iff in Hplain as [_ ?].
Qed.

Lemma path_names_are_documented_parameters_witness :
  _extract_parameters_names items_handler 1 "GET" = Ok ["item_id"]
  /\ map fst (input_parameters_getter items_get) = ["item_id"].
Proof.
  destruct (path_names_are_documented_parameters items_handler "GET" items_get)
    as [Hargs Hnames]; [reflexivity | reflexivity |].
  split; [exact Hnames | reflexivity].
Defined.

(** ** Every documented method reaches the document *)

Lemma for_each_M_reach {A S} (Q : S -> Prop) (xs : list A)
    (body : S -> A -> M S) (x : A) :
  x ∈ xs ->
  (forall s y w s1 w1, body s y w = (Ok s1, w1) -> Q s -> Q s1) ->
  (forall s w s1 w1, body s x w = (Ok s1, w1) -> Q s1) ->
  forall s w s' w', for_each xs body s w = (Ok s', w') -> Q s'.
Proof.
  intros Hin Hkeep Hset.
  induction xs as [|y xs IH]; [by apply elem_of_nil in Hin|].
  intros s w s' w' Hrun. simpl in Hrun.
  apply M_bind_Ok in Hrun as (s1 & w1 & Hstep & Hrest).
  apply elem_of_cons in Hin as [<-|Hin].
  - refine (for_each_M_invariant (fun s _ => Q s) _ _ _ s1 w1 s' w' _ Hrest).
    + intros s2 z w2 s3 w3 _ HQ Hz. by eapply Hkeep.
    + by eapply Hset.
  - by eapply IH.
Qed.

Lemma extract_route_paths_documents safe_load paths route w paths1 w1 method f op path :
  extract_route_paths safe_load paths route w = (Ok paths1, w1) ->
  method ∈ SUPPORTED_METHODS (target route) ->
  getattr (target route) (Py.lower method) = Ok f ->
  method_operation safe_load f = Some op ->
  path_of route (Py.lower method) = Ok (Some path) ->
  operation_at paths1 path (Py.lower method) = Some op.
Proof.
  intros Hrun Hin Hf Hop Hpath. unfold extract_route_paths in Hrun.
  apply M_bind_Ok in Hrun as (docs & w2 & Hdocs & Hadd). unfold lift in Hdocs.
  destruct (_build_doc_from_func_doc safe_load (target route)) as [docs'|] eqn:Hbuild;
    [|done].
  simplify_eq.
  apply (add_route_operations_lookup _ _ _ _ _ _ Hadd
           (build_doc_from_func_doc_NoDup _ _ _ Hbuild) (Py.lower method, op) path);
    [|done].
  apply alist_get_elem. unfold _build_doc_from_func_doc in Hbuild.
  rewrite (docs_loop_lookup _ _ _ _ _ (Py.lower method) Hbuild).
  rewrite decide_True by (by apply list_elem_of_In, in_map, list_elem_of_In).
  by rewrite Hf, Hop.
Qed.

Lemma extract_route_pydantic_documents self route w self1 w1 method f info path :
  extract_route_pydantic self route w = (Ok self1, w1) ->
  method ∈ SUPPORTED_METHODS (target route) ->
  getattr (target route) (Py.lower method) = Ok f ->
  method_swagger_info f = Some info ->
  path_of route (Py.lower method) = Ok (Some path) ->
  is_Some (operation_at (paths self1) path (Py.lower method)).
Proof.
  intros Hrun Hin Hf Hinfo Hpath. unfold extract_route_pydantic in Hrun.
  apply M_bind_Ok in Hrun as ([self2 docs] & w2 & Hdocs & Hrun).
  apply M_bind_Ok in Hrun as (paths2 & w3 & Hadd & Hret).
  unfold mret, M_ret in Hret. simplify_eq. simpl.
  assert (Hop : is_Some (alist_get (Py.lower method) docs)).
  { unfold _build_doc_from_pydantic_handler in Hdocs.
    apply (pydantic_docs_loop_keys _ _ _ _ _ _ _ _ (Py.lower method) Hdocs).
    right. split; [by apply list_elem_of_In, in_map, list_elem_of_In | eauto]. }
  destruct Hop as [op Hop]. exists op.
  apply (add_route_operations_lookup _ _ _ _ _ _ Hadd
           (build_doc_from_pydantic_handler_NoDup _ _ _ _ _ _ Hdocs)
           (Py.lower method, op) path);
    [by apply alist_get_elem | done].
Qed.

(** X21. When a builder returns a document, no documented method of a route
    whose path can be formatted is missing from it: under the two docstring
    dialects every supported method whose docstring gives an operation, and
    under the model-based dialect every supported method that carries Swagger
    Method Info, has an operation in the paths of the document, under the
    formatted path of its route and its lower-cased name. The route is what
    the builder reads of an entry of the list: the [URLSpec] object itself
    under the docstring dialects, what [tornado.web.url] makes of the tuple
    under the model-based one. *)
Theorem documented_methods_reach_document (safe_load : string -> YamlLoad)
    (re_compile : string -> Compiled)
    (b : Builder) (routes : list RouteEntry) (args : DocArgs) (w : World)
    (doc : Document) (w' : World) :
  generate_doc safe_load re_compile b routes args w = (Ok doc, w') ->
  forall entry route method f path,
    entry ∈ routes ->
    route_of re_compile b entry = Ok route ->
    method ∈ SUPPORTED_METHODS (target route) ->
    getattr (target route) (Py.lower method) = Ok f ->
    path_of route (Py.lower method) = Ok (Some path) ->
    match b with
    | PydanticBuilder => is_Some (method_swagger_info f)
    | _ => is_Some (method_operation safe_load f)
    end ->
    is_Some (operation_at (doc_paths doc) path (Py.lower method)).
Proof.
  intros Hrun entry route method f path Hentry Hroute Hmethod Hf Hpath
    Hdocumented.
  assert (Hdocstring :
            route_attributes entry = Ok route ->
            is_Some (method_operation safe_load f) ->
            forall paths w1,
              _extract_paths safe_load routes w = (Ok paths, w1) ->
              is_Some (operation_at paths path (Py.lower method))).
  { intros Hattrs [op Hop] paths w1.
    apply (for_each_M_reach
             (fun paths => is_Some (operation_at paths path (Py.lower method)))
             routes (extract_entry_paths safe_load) entry Hentry).
    - intros paths1 entry1 w2 paths2 w3 Hstep.
      apply extract_entry_paths_Ok in Hstep as (route1 & _ & Hstep).
      unfold extract_route_paths in Hstep.
      apply M_bind_Ok in Hstep as (docs & w4 & _ & Hadd).
      by apply (add_route_operations_keeps _ _ _ _ _ _ _ _ Hadd).
    - intros paths1 w2 paths2 w3 Hstep. exists op.
      apply extract_entry_paths_Ok in Hstep as (route1 & -> & Hstep).
      injection Hattrs as ->.
      by eapply extract_route_paths_documents. }
  destruct b; simpl in Hrun, Hroute.
  - apply M_bind_Ok in Hrun as (paths & w1 & Hpaths & Hret).
    unfold mret, M_ret in Hret. simplify_eq. by eapply Hdocstring.
  - apply M_bind_Ok in Hrun as (paths & w1 & Hpaths & Hret).
    unfold mret, M_ret in Hret. simplify_eq. by eapply Hdocstring.
  - apply M_bind_Ok in Hrun as (self & w1 & Hpaths & Hrun).
    apply M_bind_Ok in Hrun as (components & w2 & _ & Hret).
    unfold mret, M_ret in Hret. simplify_eq. simpl.
    destruct Hdocumented as [info Hinfo]. revert Hpaths.
    apply (for_each_M_reach
             (fun self => is_Some (operation_at (paths self) path (Py.lower method)))
             routes (extract_entry_pydantic re_compile) entry Hentry).
    + intros self1 entry1 w3 self2 w4 Hstep.
      apply (extract_paths_pydantic_keeps re_compile [entry1] self1 w3 self2 w4).
      unfold extract_paths_pydantic. simpl.
      by rewrite (M_bind_eq _ _ _ _ _ Hstep).
    + intros self1 w3 self2 w4 Hstep.
      apply extract_entry_pydantic_Ok in Hstep as (route1 & Hroute1 & Hstep).
      rewrite Hroute in Hroute1. injection Hroute1 as <-.
      by eapply extract_route_pydantic_documents.
Qed.

Lemma documented_methods_reach_document_witness :
  exists doc w',
    generate_doc no_yaml sample_re_compile Swagger2DocBuilder
      [Spec notes_route; Spec files_route] notes_args empty_world = (Ok doc, w')
    /\ is_Some (operation_at (doc_paths doc) "/notes" "post").
Proof.
  destruct (generate_doc no_yaml sample_re_compile Swagger2DocBuilder
              [Spec notes_route; Spec files_route] notes_args empty_world)
    as [[doc|e] w'] eqn:Hrun.
  2: { exfalso. vm_compute in Hrun. discriminate Hrun. }
  exists doc, w'. split; [reflexivity|].
  refine (documented_methods_reach_document _ _ _ _ _ _ _ _ Hrun
            (Spec notes_route) notes_route "POST" _ "/notes" _ _ _ _ _ _).
  - left.
  - reflexivity.
  - right. left.
  - reflexivity.
  - reflexivity.
  - eexists. reflexivity.
Defined.

(** ** The further properties at work *)

Lemma later_routes_keep_operations_witness :
  exists paths2 w2,
    _extract_paths no_yaml ([Spec notes_route] ++ [Spec files_route]) empty_world
      = (Ok paths2, w2)
    /\ is_Some (operation_at paths2 "/notes" "post").
Proof.
  destruct (_extract_paths no_yaml [Spec notes_route] empty_world)
    as [[paths1|e] w1] eqn:Hone.
  2: { exfalso. vm_compute in Hone. discriminate Hone. }
  destruct (_extract_paths no_yaml ([Spec notes_route] ++ [Spec files_route])
              empty_world) as [[paths2|e] w2] eqn:Hall.
  2: { exfalso. vm_compute in Hall. discriminate Hall. }
  exists paths2, w2. split; [reflexivity|].
  apply (proj1 (later_routes_keep_operations no_yaml sample_re_compile
                  [Spec notes_route] [Spec files_route] empty_world)
           paths1 w1 paths2 w2 "/notes" "post" Hone Hall).
  vm_compute in Hone. injection Hone as <- _. vm_compute. eexists. reflexivity.
Defined.

Lemma clean_description_idempotent_witness :
  _clean_description "Notes API" = "Notes API".
Proof.
  apply (proj1 (clean_description_idempotent "Notes API")). reflexivity.
Defined.

Lemma swagger_addresses_witness :
  _swagger_ui_url "/api/doc" = "/api/doc"
  /\ _swagger_spec_url "/api/doc" = _base_swagger_ui_url "/api/doc" +:+ "/swagger.json".
Proof.
  destruct (swagger_addresses "/api/doc") as (_ & Hsame & _ & _ & Hspec).
  split; [apply Hsame | apply Hspec]; reflexivity.
Defined.

Lemma setup_not_repeatable_witness :
  exists routes' served w',
    setup_swagger no_yaml sample_re_compile sample_SWAGGER_2 sample_OPENAPI_3
      sample_OPENAPI_3_PYDANTIC notes_handler notes_handler
      "<title>Swagger UI</title>" [first_items_route] "api/doc" notes_args true
      sample_OPENAPI_3_PYDANTIC false empty_world
    = (Ok (routes', served), w')
    /\ setup_swagger no_yaml sample_re_compile sample_SWAGGER_2 sample_OPENAPI_3
         sample_OPENAPI_3_PYDANTIC notes_handler notes_handler
         "<title>Swagger UI</title>" routes' "api/doc" notes_args true
         sample_OPENAPI_3_PYDANTIC false w'
       = (Raise (TypeError "URLSpec"), w').
Proof.
  destruct (setup_swagger no_yaml sample_re_compile sample_SWAGGER_2
              sample_OPENAPI_3 sample_OPENAPI_3_PYDANTIC notes_handler
              notes_handler "<title>Swagger UI</title>" [first_items_route]
              "api/doc" notes_args true sample_OPENAPI_3_PYDANTIC false
              empty_world) as [[[routes' served]|e] w'] eqn:Hrun.
  2: { exfalso. vm_compute in Hrun. discriminate Hrun. }
  exists routes', served, w'. split; [reflexivity|].
  apply (proj2 (proj2 (setup_not_repeatable _ _ _ _ _ _ _ _ _ _ _ _ _ _ _ _ _ _
                         Hrun))).
Defined.
